(** * Retry, backoff and listing behaviour of the Timesketch API client

    A shallow embedding of
    [api_client/python/timesketch_api_client/client.py]
    (class [TimesketchApi]) and the properties of its request layer:
    the retry loops of [fetch_resource_data], [create_sketch],
    [create_searchindex], [create_user] and [create_sigmarule], their
    backoff schedules, the input guards, and the generators
    [list_sketches], [list_users] and [list_searchindices].

    Conventions of the embedding.
    - Python integers are [Z]; the float backoff times [0.5 * 2 ** k] are
      dyadic rationals, kept exactly as [Q] and compared with [==].
    - Decoded JSON is the inductive type [json]; a Python [dict] is an
      association list in insertion order.  JSON numbers are integers here.
    - Python [None] and JSON [null] are the same value, [JNull].
    - Exceptions carry their class only; message texts and log lines are
      not part of the model.
    - The HTTP session is a script [session : nat -> request -> reply]: the
      reply of the [n]-th call (counted from 0) to a given request.  Every
      call, sleep and generator yield is recorded in a chronological trace.
    - The classes [Sketch], [SearchIndex], [User] and [SigmaRule] are
      declared in sibling modules.  The constructor calls whose object a
      create operation returns are parameters of that operation,
      computations that may send requests and may raise; a generator
      records the object it yields by its class and the arguments of the
      constructor call. *)

From Stdlib Require Import ZArith QArith List String Bool Lia.
From Stdlib Require DecimalString.
Import ListNotations.

#[local] Set Warnings "-register-all".
Local Open Scope string_scope.
Local Open Scope Z_scope.
Local Open Scope list_scope.

(** [a +s b] is Python's string concatenation, as produced by [format]. *)
Local Infix "+s" := String.append (at level 60, right associativity).

(** ** Python values *)

Inductive json : Type :=
| JNull
| JBool (b : bool)
| JInt (n : Z)
| JStr (s : string)
| JList (l : list json)
| JDict (d : list (string * json)).

(** Exception classes that the modelled code can raise or catch.
    [ConnectionError] is [requests.exceptions.ConnectionError], a subclass
    of [RequestException]. *)
Inductive exn : Type :=
| RuntimeError
| ValueError
| ConnectionError
| AttributeError
| KeyError
| IndexError
| TypeError.

Inductive result (A : Type) : Type :=
| Ok (a : A)
| Raise (e : exn).
Arguments Ok {A} a.
Arguments Raise {A} e.

Module Py.

(** [bool(x)]: [None], [False], [0], the empty string, list and dict are
    falsy. *)
Definition truthy (x : json) : bool :=
  match x with
  | JNull => false
  | JBool b => b
  | JInt n => negb (n =? 0)
  | JStr s => negb (String.eqb s "")
  | JList l => match l with [] => false | _ => true end
  | JDict d => match d with [] => false | _ => true end
  end.

Fixpoint lookup (key : string) (d : list (string * json)) : option json :=
  match d with
  | [] => None
  | (k, v) :: d' => if String.eqb k key then Some v else lookup key d'
  end.

(** [d[key] = v] on a dict: replaces in place, or appends a new key. *)
Fixpoint setitem (key : string) (v : json) (d : list (string * json))
  : list (string * json) :=
  match d with
  | [] => [(key, v)]
  | (k, w) :: d' =>
      if String.eqb k key then (k, v) :: d' else (k, w) :: setitem key v d'
  end.

(** [x.get(key, default)]: only dicts have the method. *)
Definition get (x : json) (key : string) (default : json) : result json :=
  match x with
  | JDict d => Ok (match lookup key d with Some v => v | None => default end)
  | _ => Raise AttributeError
  end.

(** [x[key]] for a string key. *)
Definition getitem (x : json) (key : string) : result json :=
  match x with
  | JDict d => match lookup key d with Some v => Ok v | None => Raise KeyError end
  | _ => Raise TypeError
  end.

(** [x[0]].  The keys of a decoded JSON object are strings, so the
    integer key 0 is never found in a dict. *)
Definition getitem0 (x : json) : result json :=
  match x with
  | JList l => match l with v :: _ => Ok v | [] => Raise IndexError end
  | JStr s => match s with
              | String c _ => Ok (JStr (String c EmptyString))
              | EmptyString => Raise IndexError
              end
  | JDict _ => Raise KeyError
  | _ => Raise TypeError
  end.

Fixpoint chars (s : string) : list json :=
  match s with
  | EmptyString => []
  | String c s' => JStr (String c EmptyString) :: chars s'
  end.

(** The elements visited by [for v in x]. *)
Definition iter (x : json) : result (list json) :=
  match x with
  | JList l => Ok l
  | JDict d => Ok (map (fun kv => JStr (fst kv)) d)
  | JStr s => Ok (chars s)
  | _ => Raise TypeError
  end.

Definition is_list (x : json) : bool :=
  match x with JList _ => true | _ => false end.

Definition is_dict (x : json) : bool :=
  match x with JDict _ => true | _ => false end.

(** [len(x)] where the code calls it (on lists only). *)
Definition len (x : json) : Z :=
  match x with JList l => Z.of_nat (List.length l) | _ => 0 end.

(** [key in x] where the code calls it (on dicts only). *)
Definition contains (key : string) (x : json) : bool :=
  match x with
  | JDict d => match lookup key d with Some _ => true | None => false end
  | _ => false
  end.

(** [not s] for a string argument. *)
Definition str_empty (s : string) : bool := String.eqb s "".

End Py.

(** ** Transport, observable events and the effect monad *)

Inductive http_method : Type := GET | POST.

(** [payload] is the [params] mapping of a GET ([JNull] for [None]) or the
    [json] body of a POST. *)
Record request : Type := mkRequest {
  meth : http_method;
  url : string;
  payload : json
}.

(** What [requests] hands back: a status code and the outcome of
    [response.json()] ([None] when the body is not valid JSON). *)
Record response : Type := mkResponse {
  status_code : Z;
  json_body : option json
}.

Inductive reply : Type :=
| ConnectionFailed
| Answer (r : response).

(** Objects of the classes [sketch.Sketch], [index.SearchIndex],
    [user.User] and [sigma.SigmaRule], which are declared in sibling
    modules: a value names the class of an object and the arguments it was
    made from.  [PyNone] is the value [None] when it is yielded, and
    [Resource] a resource as a fetch by id returns it. *)
Inductive pyobj : Type :=
| PyNone
| Sketch (sketch_id : json) (sketch_name : json)
| SearchIndex (searchindex_id : json) (searchindex_name : json)
| User (user_id : json)
| SigmaRule (loaded : json)
| Resource (resource : json).

Inductive event : Type :=
| Request (r : request)
| Sleep (seconds : Q)
| Yield (o : pyobj).

Definition trace : Type := list event.

Fixpoint n_requests (t : trace) : nat :=
  match t with
  | [] => O
  | Request _ :: t' => S (n_requests t')
  | _ :: t' => n_requests t'
  end.

(** A computation maps the trace so far to a result and the extended trace;
    [None] means the fuel of a [while] loop ran out before it finished. *)
Definition M (A : Type) : Type := trace -> option (result A * trace).

Definition ret {A} (a : A) : M A := fun t => Some (Ok a, t).
Definition raise {A} (e : exn) : M A := fun t => Some (Raise e, t).
Definition out_of_fuel {A} : M A := fun _ => None.

Definition bind {A B} (m : M A) (k : A -> M B) : M B :=
  fun t =>
    match m t with
    | None => None
    | Some (Raise e, t') => Some (Raise e, t')
    | Some (Ok a, t') => k a t'
    end.

Definition lift {A} (r : result A) : M A :=
  match r with Ok a => ret a | Raise e => raise e end.

(** [try: body / except ...]: [handlers e] is [Some h] when some [except]
    clause matches [e]. *)
Definition try_except {A} (body : M A) (handlers : exn -> option (M A)) : M A :=
  fun t =>
    match body t with
    | None => None
    | Some (Ok a, t') => Some (Ok a, t')
    | Some (Raise e, t') =>
        match handlers e with
        | Some h => h t'
        | None => Some (Raise e, t')
        end
    end.

Declare Scope py_scope.
Delimit Scope py_scope with py.
Notation "x <- m ;; k" := (bind m (fun x => k))
  (at level 100, m at next level, right associativity) : py_scope.
Notation "m ;;; k" := (bind m (fun _ => k))
  (at level 100, right associativity) : py_scope.
Local Open Scope py_scope.

Definition emit (e : event) : M unit := fun t => Some (Ok tt, t ++ [e]).

(** [time.sleep(seconds)] *)
Definition sleep (seconds : Q) : M unit := emit (Sleep seconds).

(** [yield o] of a generator that is consumed to the end. *)
Definition yield (o : pyobj) : M unit := emit (Yield o).

(** Modelled from the spec: [definitions.HTTP_STATUS_CODE_20X] is declared
    in [definitions.py]; the spec gives the success range as 200-299. *)
Definition HTTP_STATUS_CODE_20X (status : Z) : bool :=
  (200 <=? status) && (status <=? 299).

(** Modelled from the spec: [error.get_response_json] is declared in
    [error.py].  A status outside the 20x family raises [RuntimeError], a
    body that is not JSON raises [ValueError], otherwise the decoded JSON is
    returned (as the comment at its call in [create_searchindex] says). *)
Definition get_response_json (r : response) : result json :=
  if HTTP_STATUS_CODE_20X (status_code r)
  then match json_body r with
       | Some j => Ok j
       | None => Raise ValueError
       end
  else Raise RuntimeError.

Definition DEFAULT_RETRY_COUNT : Z := 5.

Section Client.

(** The scripted transport and the attribute [api_root]. *)
Variable session : nat -> request -> reply.
Variable api_root : string.

(** [self.session.get(url, params=...)] and
    [self.session.post(url, json=...)]. *)
Definition send (r : request) : M response :=
  fun t =>
    match session (n_requests t) r with
    | ConnectionFailed => Some (Raise ConnectionError, t ++ [Request r])
    | Answer a => Some (Ok a, t ++ [Request r])
    end.

Definition session_get (u : string) (params : json) : M response :=
  send (mkRequest GET u params).

Definition session_post (u : string) (body : json) : M response :=
  send (mkRequest POST u body).

(** The calls [sketch.Sketch(sketch_id, api=self)],
    [index.SearchIndex(searchindex_id, api=self)] and
    [user.User(user_id=..., api=self)] whose object a create operation
    returns.  The constructors are declared in [sketch.py], [index.py] and
    [user.py]; what they do with the id (store it, or fetch the resource
    from the server) is not visible in this file, so they are taken as
    computations of their own, which may send requests and may raise. *)
Variable sketch_Sketch : json -> M pyobj.
Variable index_SearchIndex : json -> M pyobj.
Variable user_User : json -> M pyobj.

(** Methods of [sigma.SigmaRule] and [sigma.Sigma], declared in
    [sigma.py]: loading a rule by uuid and parsing a rule text. *)
Variable from_rule_uuid : json -> M json.
Variable from_text : string -> M json.

(** *** [fetch_resource_data] *)

Definition fetch_backoff_time (attempt : Z) : Q :=
  ((1 # 2) * inject_Z (2 ^ (attempt - 2)))%Q.

(** The [while True] loop; [attempt] is the counter before its increment.
    The three [except] clauses have the same shape.  The try block
    evaluates to [Some result] when the function returns from it and to
    [None] when control falls through to the check after it. *)
Fixpoint fetch_loop (fuel : nat) (resource_url : string) (params : json)
         (attempt : Z) : M json :=
  match fuel with
  | O => out_of_fuel
  | S fuel' =>
      let attempt := attempt + 1 in
      (if 1 <? attempt then sleep (fetch_backoff_time attempt) else ret tt) ;;;
      returned <-
        try_except
          (response <- session_get resource_url params ;;
           result <- lift (get_response_json response) ;;
           if Py.truthy result then ret (Some result) else ret None)
          (fun e =>
             match e with
             | RuntimeError | ValueError | ConnectionError =>
                 Some (if DEFAULT_RETRY_COUNT <=? attempt
                       then raise e
                       else ret None)
             | _ => None
             end) ;;
      match returned with
      | Some result => ret result
      | None =>
          if DEFAULT_RETRY_COUNT <=? attempt
          then raise RuntimeError
          else fetch_loop fuel' resource_url params attempt
      end
  end.

(** The loop leaves after at most [DEFAULT_RETRY_COUNT] rounds
    ([fetch_loop_fuel] below), so that much fuel is all it needs. *)
Definition fetch_resource_data (resource_uri : string) (params : json)
  : M json :=
  fetch_loop (Z.to_nat DEFAULT_RETRY_COUNT)
             (api_root +s "/" +s resource_uri) params 0.

(** *** [get_sketch], [create_sketch] *)

Definition get_sketch (sketch_id : json) : M pyobj :=
  sketch_Sketch sketch_id.

(** The test that guards the success branch of [create_sketch] and
    [create_searchindex]; [objects[0]] is only evaluated on a non-empty
    list. *)
Definition has_first_id (objects : json) : bool :=
  Py.truthy objects
  && Py.is_list objects
  && (0 <? Py.len objects)
  && match Py.getitem0 objects with
     | Ok first => Py.is_dict first && Py.contains "id" first
     | Raise _ => false
     end.

Definition create_backoff_time (attempt : Z) : Q :=
  ((1 # 2) * inject_Z (2 ^ attempt))%Q.

Definition range (n : Z) : list Z :=
  map Z.of_nat (seq 0 (Z.to_nat n)).

(** One round of a [for] loop body either returns from the function or
    goes on with the new value of [last_exception]. *)
Inductive round (A : Type) : Type :=
| Returned (a : A)
| Failed (last_exception : option exn).
Arguments Returned {A} a.
Arguments Failed {A} last_exception.

Fixpoint create_sketch_loop (attempts : list Z) (resource_url : string)
         (form_data : json) (last_exception : option exn) : M pyobj :=
  match attempts with
  | [] => raise RuntimeError
  | attempt :: attempts' =>
      response <- session_post resource_url form_data ;;
      r <- try_except
             (response_dict <- lift (get_response_json response) ;;
              objects <- lift (Py.get response_dict "objects" JNull) ;;
              if has_first_id objects
              then
                first <- lift (Py.getitem0 objects) ;;
                sketch_id <- lift (Py.getitem first "id") ;;
                sk <- get_sketch sketch_id ;;
                ret (Returned sk)
              else ret (Failed (Some RuntimeError)))
             (fun e =>
                match e with
                | ConnectionError => Some (ret (Failed (Some e)))
                | ValueError => Some (ret (Failed (Some e)))
                | RuntimeError => Some (ret (Failed (Some e)))
                | _ => None
                end) ;;
      match r with
      | Returned sk => ret sk
      | Failed last_exception =>
          if attempt <? DEFAULT_RETRY_COUNT - 1
          then
            sleep (create_backoff_time attempt) ;;;
            create_sketch_loop attempts' resource_url form_data last_exception
          else
            match last_exception with
            | Some _ => raise RuntimeError
            | None => raise RuntimeError
            end
      end
  end.

(** [description] is [None] when the argument is left out. *)
Definition create_sketch (name : string) (description : option string)
  : M pyobj :=
  let description :=
    match description with
    | Some d => if Py.str_empty d then name else d
    | None => name
    end in
  if Py.str_empty name then raise ValueError
  else
    let resource_url := api_root +s "/sketches/" in
    let form_data :=
      JDict [("name", JStr name); ("description", JStr description)] in
    create_sketch_loop (range DEFAULT_RETRY_COUNT) resource_url form_data None.

(** *** [create_searchindex] *)

(** On exhaustion the code evaluates the f-string
    [f"{0:s} Response: {1!s}"] whenever [last_exception] is set; formatting
    the integer [0] with code [s] raises [ValueError] before the
    [RuntimeError] below it is reached. *)
Fixpoint create_searchindex_loop (attempts : list Z) (resource_url : string)
         (form_data : json) (last_exception : option exn) : M pyobj :=
  match attempts with
  | [] => raise RuntimeError
  | attempt :: attempts' =>
      r <- try_except
             (response <- session_post resource_url form_data ;;
              response_dict <- lift (get_response_json response) ;;
              objects <- lift (Py.get response_dict "objects" JNull) ;;
              if has_first_id objects
              then
                first <- lift (Py.getitem0 objects) ;;
                searchindex_id <- lift (Py.getitem first "id") ;;
                ix <- index_SearchIndex searchindex_id ;;
                ret (Returned ix)
              else ret (Failed (Some RuntimeError)))
             (fun e =>
                match e with
                | ConnectionError => Some (ret (Failed (Some e)))
                | ValueError => Some (ret (Failed (Some e)))
                | RuntimeError => Some (ret (Failed (Some e)))
                | _ => None
                end) ;;
      match r with
      | Returned ix => ret ix
      | Failed last_exception =>
          if attempt <? DEFAULT_RETRY_COUNT - 1
          then
            sleep (create_backoff_time attempt) ;;;
            create_searchindex_loop attempts' resource_url form_data
                                    last_exception
          else
            match last_exception with
            | Some _ => raise ValueError
            | None => raise RuntimeError
            end
      end
  end.

Definition create_searchindex (searchindex_name opensearch_index_name : string)
  : M pyobj :=
  let resource_url := api_root +s "/searchindices/" in
  let form_data :=
    JDict [("searchindex_name", JStr searchindex_name);
           ("es_index_name", JStr opensearch_index_name)] in
  create_searchindex_loop (range DEFAULT_RETRY_COUNT) resource_url form_data
                          None.

(** *** [create_user], [create_sigmarule] *)

(** The [while True] loop of both functions: it leaves with [objects]
    through [break], or raises. *)
Fixpoint post_until_objects (fuel : nat) (resource_url : string)
         (form_data : json) (retry_count : Z) : M json :=
  match fuel with
  | O => out_of_fuel
  | S fuel' =>
      response <- session_post resource_url form_data ;;
      response_dict <- lift (get_response_json response) ;;
      objects <- lift (Py.get response_dict "objects" JNull) ;;
      if Py.truthy objects then ret objects
      else
        let retry_count := retry_count + 1 in
        if DEFAULT_RETRY_COUNT <=? retry_count
        then raise RuntimeError
        else post_until_objects fuel' resource_url form_data retry_count
  end.

(** The loop leaves after at most [DEFAULT_RETRY_COUNT] rounds, so that
    much fuel is all it needs. *)
Definition create_user_loop (username password : string) : M json :=
  post_until_objects (Z.to_nat DEFAULT_RETRY_COUNT)
                     (api_root +s "/users/")
                     (JDict [("username", JStr username);
                             ("password", JStr password)])
                     0.

Definition create_user (username password : string) : M pyobj :=
  objects <- create_user_loop username password ;;
  first <- lift (Py.getitem0 objects) ;;
  user_id <- lift (Py.getitem first "id") ;;
  user_User user_id.

Definition get_sigmarule (rule_uuid : json) : M pyobj :=
  loaded <- from_rule_uuid rule_uuid ;;
  ret (SigmaRule loaded).

Definition create_sigmarule_loop (rule_yaml : string) : M json :=
  post_until_objects (Z.to_nat DEFAULT_RETRY_COUNT)
                     (api_root +s "/sigmarules/")
                     (JDict [("rule_yaml", JStr rule_yaml)])
                     0.

Definition create_sigmarule (rule_yaml : string) : M pyobj :=
  objects <- create_sigmarule_loop rule_yaml ;;
  first <- lift (Py.getitem0 objects) ;;
  rule_uuid <- lift (Py.getitem first "rule_uuid") ;;
  get_sigmarule rule_uuid.

(** [parse_sigmarule_by_text], up to the end of its [try] statement. *)
Definition parse_sigmarule_by_text (rule_text : string) : M unit :=
  if Py.str_empty rule_text then raise ValueError
  else
    try_except
      (from_text rule_text ;;; ret tt)
      (fun e => match e with ValueError => Some (ret tt) | _ => None end).

(** *** Generators, consumed to the end *)

Fixpoint for_each (items : list json) (body : json -> M unit) : M unit :=
  match items with
  | [] => ret tt
  | item :: items' => body item ;;; for_each items' body
  end.

Definition list_users : M unit :=
  response <- fetch_resource_data "users/" JNull ;;
  objects <- lift (Py.get response "objects" (JList [])) ;;
  first <- lift (Py.getitem0 objects) ;;
  user_dicts <- lift (Py.iter first) ;;
  for_each user_dicts
           (fun user_dict =>
              user_id <- lift (Py.getitem user_dict "id") ;;
              yield (User user_id)).

Fixpoint list_sketches_loop (fuel : nat) (url_params : list (string * json))
         (page : json) : M unit :=
  match fuel with
  | O => out_of_fuel
  | S fuel' =>
      let url_params := Py.setitem "page" page url_params in
      response <- fetch_resource_data "sketches/" (JDict url_params) ;;
      meta <- lift (Py.get response "meta" (JDict [])) ;;
      page <- lift (Py.get meta "next_page" JNull) ;;
      let has_next_page := Py.truthy page in
      objects <- lift (Py.get response "objects" (JList [])) ;;
      sketch_dicts <- lift (Py.iter objects) ;;
      for_each sketch_dicts
               (fun sketch_dict =>
                  sketch_id <- lift (Py.getitem sketch_dict "id") ;;
                  sketch_name <- lift (Py.getitem sketch_dict "name") ;;
                  yield (Sketch sketch_id sketch_name)) ;;;
      if has_next_page
      then list_sketches_loop fuel' url_params page
      else ret tt
  end.

Definition list_sketches (fuel : nat) (per_page : Z) (scope : string)
           (include_archived : bool) : M unit :=
  let url_params :=
    [("per_page", JInt per_page);
     ("scope", JStr scope);
     ("include_archived", JBool include_archived)] in
  list_sketches_loop fuel url_params (JInt 1).

Definition list_searchindices : M unit :=
  response <- fetch_resource_data "searchindices/" JNull ;;
  response_objects <- lift (Py.get response "objects" JNull) ;;
  if negb (Py.truthy response_objects)
  then yield PyNone
  else
    first <- lift (Py.getitem0 response_objects) ;;
    index_dicts <- lift (Py.iter first) ;;
    for_each index_dicts
             (fun index_dict =>
                index_id <- lift (Py.getitem index_dict "id") ;;
                index_name <- lift (Py.getitem index_dict "name") ;;
                yield (SearchIndex index_id index_name)).

End Client.

Arguments Returned {A} a.
Arguments Failed {A} last_exception.


(** Constructors that only store the id they are given. *)
Definition stored_sketch (sketch_id : json) : M pyobj :=
  ret (Sketch sketch_id JNull).

Definition stored_searchindex (searchindex_id : json) : M pyobj :=
  ret (SearchIndex searchindex_id JNull).

Definition stored_user (user_id : json) : M pyobj :=
  ret (User user_id).

(** ** Vocabulary of the properties *)

(** What one attempt gets from the transport, in the words of the spec:
    no round trip, a status outside the 20x family, a body that is not
    JSON, or a decoded payload. *)
Inductive delivery : Type :=
| Unreachable
| BadStatus
| Undecodable
| Decoded (j : json).

Definition delivery_of (r : reply) : delivery :=
  match r with
  | ConnectionFailed => Unreachable
  | Answer a =>
      if HTTP_STATUS_CODE_20X (status_code a)
      then match json_body a with
           | Some j => Decoded j
           | None => Undecodable
           end
      else BadStatus
  end.

(** The four failure kinds of the spec. *)
Inductive failure_kind : Type :=
| ConnectionFailure
| StatusFailure
| DecodeFailure
| ValidationFailure.

(** The failure kind of a reply under a validation predicate; [None] when
    the attempt succeeds. *)
Definition failure_of (accepts : json -> bool) (r : reply)
  : option failure_kind :=
  match delivery_of r with
  | Unreachable => Some ConnectionFailure
  | BadStatus => Some StatusFailure
  | Undecodable => Some DecodeFailure
  | Decoded j => if accepts j then None else Some ValidationFailure
  end.

(** The value of [response_dict.get("objects")] on a JSON object. *)
Definition objects_of (j : json) : option json :=
  match j with
  | JDict d => Some (match Py.lookup "objects" d with
                     | Some v => v
                     | None => JNull
                     end)
  | _ => None
  end.

(** Validation predicates of the operations, on the decoded payload. *)
Definition fetch_accepts (j : json) : bool := Py.truthy j.

Definition create_accepts (j : json) : bool :=
  match objects_of j with
  | Some objects => has_first_id objects
  | None => false
  end.

Definition objects_accepts (j : json) : bool :=
  match objects_of j with
  | Some objects => Py.truthy objects
  | None => false
  end.

(** A reply follows the wire contract when its decoded payload, if it has
    one, is a JSON object.  The operations that read the field ["objects"]
    call [.get] on the payload, which only a JSON object offers. *)
Definition json_object_reply (r : reply) : bool :=
  match delivery_of r with
  | Decoded j => Py.is_dict j
  | _ => true
  end.

(** [objects[0]["id"]] of an accepted payload. *)
Definition first_id (j : json) : json :=
  match objects_of j with
  | Some (JList (JDict d :: _)) =>
      match Py.lookup "id" d with Some v => v | None => JNull end
  | _ => JNull
  end.

Fixpoint yields (t : trace) : list pyobj :=
  match t with
  | [] => []
  | Yield o :: t' => o :: yields t'
  | _ :: t' => yields t'
  end.

Fixpoint requests (t : trace) : list request :=
  match t with
  | [] => []
  | Request r :: t' => r :: requests t'
  | _ :: t' => requests t'
  end.

(** Modelled after the spec's words (section 4.1): the unified backoff
    [delay(attempt) = 0.5 * 2^(attempt-1)] for [attempt >= 1], no delay for
    [attempt = 0]. *)
Definition unified_delay (attempt : nat) : Q :=
  match attempt with
  | O => 0%Q
  | S _ => ((1 # 2) * inject_Z (2 ^ (Z.of_nat attempt - 1)))%Q
  end.

(** ** The retry engine of the spec

    Section 4.1 of the spec describes one loop, parameterised by how an
    attempt is judged.  It is used below as the common form to which each
    of the five loops of the source is reduced. *)

Inductive verdict (A : Type) : Type :=
| Accept (a : A)
| Retry (e : exn)
| Abort (e : exn).
Arguments Accept {A} a.
Arguments Retry {A} e.
Arguments Abort {A} e.

Section Engine.

Variable session : nat -> request -> reply.
Context {A : Type}.
Variable judge : reply -> verdict A.
Variable pause : nat -> option Q.
Variable exhausted : exn -> exn.
Variable req : request.

Definition pause_events (done : nat) : trace :=
  match pause done with
  | Some q => [Sleep q]
  | None => []
  end.

(** [left] attempts remain and [done] have failed. *)
Fixpoint retry_engine (left done : nat) (t : trace) : result A * trace :=
  match left with
  | O => (Raise RuntimeError, t)
  | S left' =>
      let t1 := t ++ pause_events done in
      let t2 := t1 ++ [Request req] in
      match judge (session (n_requests t1) req) with
      | Accept a => (Ok a, t2)
      | Abort e => (Raise e, t2)
      | Retry e =>
          match left' with
          | O => (Raise (exhausted e), t2)
          | S _ => retry_engine left' (S done) t2
          end
      end
  end.

(** The events of [k] consecutive attempts, the first after [done]
    failures. *)
Fixpoint schedule (done k : nat) : trace :=
  match k with
  | O => []
  | S k' => pause_events done ++ Request req :: schedule (S done) k'
  end.

(** A run that starts with [n0] calls already made and [done] failures
    behind it, and has a budget of [left] attempts, makes [k] attempts:
    all but the last are judged [Retry], and the last one decides the
    result. *)
Definition engine_run (n0 done left : nat) (o : result A) (t : trace)
  : Prop :=
  exists k : nat,
    (1 <= k <= left)%nat
    /\ t = schedule done k
    /\ (forall i, (i < k - 1)%nat ->
                  exists e, judge (session (n0 + i)%nat req) = Retry e)
    /\ match judge (session (n0 + (k - 1))%nat req) with
       | Accept a => o = Ok a
       | Abort e => o = Raise e
       | Retry e => k = left /\ o = Raise (exhausted e)
       end.

End Engine.

(** How each loop of the source judges the reply of one attempt. *)

Definition fetch_judge (r : reply) : verdict json :=
  match delivery_of r with
  | Unreachable => Retry ConnectionError
  | BadStatus => Retry RuntimeError
  | Undecodable => Retry ValueError
  | Decoded j => if fetch_accepts j then Accept j else Retry RuntimeError
  end.

Definition fetch_pause (done : nat) : option Q :=
  if 1 <? Z.of_nat done + 1
  then Some (fetch_backoff_time (Z.of_nat done + 1))
  else None.

Definition create_pause (done : nat) : option Q :=
  match done with
  | O => None
  | S attempt => Some (create_backoff_time (Z.of_nat attempt))
  end.

Definition no_pause (done : nat) : option Q := None.

(** [create_sketch] and [create_searchindex] accept a reply with the id
    that they hand to the constructor of the wrapper. *)
Definition create_sketch_judge (r : reply) : verdict json :=
  match delivery_of r with
  | Unreachable => Abort ConnectionError
  | BadStatus => Retry RuntimeError
  | Undecodable => Retry ValueError
  | Decoded j =>
      if Py.is_dict j
      then if create_accepts j
           then Accept (first_id j)
           else Retry RuntimeError
      else Abort AttributeError
  end.

Definition create_searchindex_judge (r : reply) : verdict json :=
  match delivery_of r with
  | Unreachable => Retry ConnectionError
  | BadStatus => Retry RuntimeError
  | Undecodable => Retry ValueError
  | Decoded j =>
      if Py.is_dict j
      then if create_accepts j
           then Accept (first_id j)
           else Retry RuntimeError
      else Abort AttributeError
  end.

Definition objects_judge (r : reply) : verdict json :=
  match delivery_of r with
  | Unreachable => Abort ConnectionError
  | BadStatus => Abort RuntimeError
  | Undecodable => Abort ValueError
  | Decoded j =>
      match objects_of j with
      | Some objects =>
          if Py.truthy objects then Accept objects else Retry RuntimeError
      | None => Abort AttributeError
      end
  end.

(** A fresh call of an operation starts from the empty trace. *)
Definition run {A} (m : M A) : option (result A * trace) := m [].

(** The request that each operation sends on every attempt. *)

Definition fetch_request (api_root resource_uri : string) (params : json)
  : request :=
  mkRequest GET (api_root +s "/" +s resource_uri) params.

Definition create_sketch_request (api_root name : string)
           (description : option string) : request :=
  mkRequest POST (api_root +s "/sketches/")
            (JDict [("name", JStr name);
                    ("description",
                     JStr match description with
                          | Some d => if Py.str_empty d then name else d
                          | None => name
                          end)]).

Definition create_searchindex_request
           (api_root searchindex_name opensearch_index_name : string)
  : request :=
  mkRequest POST (api_root +s "/searchindices/")
            (JDict [("searchindex_name", JStr searchindex_name);
                    ("es_index_name", JStr opensearch_index_name)]).

Definition create_user_request (api_root username password : string)
  : request :=
  mkRequest POST (api_root +s "/users/")
            (JDict [("username", JStr username); ("password", JStr password)]).

Definition create_sigmarule_request (api_root rule_yaml : string) : request :=
  mkRequest POST (api_root +s "/sigmarules/")
            (JDict [("rule_yaml", JStr rule_yaml)]).

(** The exception class that a failure kind surfaces as. *)
Definition exn_of_failure (k : failure_kind) : exn :=
  match k with
  | ConnectionFailure => ConnectionError
  | StatusFailure => RuntimeError
  | DecodeFailure => ValueError
  | ValidationFailure => RuntimeError
  end.

(** The operation raises, having made exactly [n] attempts. *)
Definition raises_after {A} (n : nat) (m : M A) : Prop :=
  exists e t, run m = Some (Raise e, t) /\ n_requests t = n.

(** [P] holds of the reply to each attempt of the budget. *)
Definition every_attempt (session : nat -> request -> reply) (req : request)
           (P : reply -> Prop) : Prop :=
  forall n, (n < 5)%nat -> P (session n req).

(** A failed attempt of one of the four kinds, for an operation that reads
    the whole payload ([fetch_resource_data]). *)
Definition transient (accepts : json -> bool) (r : reply) : Prop :=
  failure_of accepts r <> None.

(** The same for the operations that read the field ["objects"] of a JSON
    object. *)
Definition transient_object (accepts : json -> bool) (r : reply) : Prop :=
  json_object_reply r = true /\ failure_of accepts r <> None.

(** A payload that is a JSON object and that the predicate rejects. *)
Definition rejected_object (accepts : json -> bool) (r : reply) : Prop :=
  json_object_reply r = true /\ failure_of accepts r = Some ValidationFailure.

Definition any_json (j : json) : bool := true.

(** ** Conditions on the replies, and the trace of a number of attempts *)

(** [P] holds of the replies to the first [m] attempts of a call. *)
Definition first_attempts (session : nat -> request -> reply) (req : request)
           (m : nat) (P : reply -> Prop) : Prop :=
  forall i, (i < m)%nat -> P (session i req).

(** A failed attempt that [create_sketch] retries: the server answered, and
    the answer is a failure of one of the three kinds that leave a reply. *)
Definition transient_answer (accepts : json -> bool) (r : reply) : Prop :=
  transient_object accepts r /\ delivery_of r <> Unreachable.

(** The exception classes named by the [except] clauses of [create_sketch]
    and [create_searchindex] ([RequestException] through its subclass). *)
Definition caught_by_create (e : exn) : bool :=
  match e with
  | RuntimeError | ValueError | ConnectionError => true
  | _ => false
  end.

(** The pause of the unified backoff after [made] attempts. *)
Definition unified_pause (made : nat) : option Q :=
  match made with
  | O => None
  | S _ => Some (unified_delay made)
  end.

(** The events of [k] attempts under the unified backoff: the request of
    each attempt and, before every attempt but the first, the sleep of
    [unified_delay] of the number of attempts made so far.  Nothing follows
    the last request. *)
Definition backoff_trace (req : request) (k : nat) : trace :=
  schedule unified_pause req 0 k.

(** The events of [k] attempts without any pause. *)
Definition plain_trace (req : request) (k : nat) : trace :=
  repeat (Request req) k.

(** A computation that ends, with a result or an error, and has only added
    events to the trace. *)
Definition proper {A} (m : M A) : Prop :=
  forall t, exists r ev, m t = Some (r, t ++ ev).

(** A constructor that only makes its object: it returns one, and adds
    nothing to the trace. *)
Definition stores {A} (constructor : json -> M A) : Prop :=
  forall id t, exists o, constructor id t = Some (Ok o, t).

(** Failed attempts are retried until the budget is used up.  The call
    ends; when its first [m < 5] attempts fail it has gone on to attempt
    [m + 1], so that its trace starts with the events [attempts (m + 1)] of
    that many attempts; and when all five attempts fail it raises, its
    trace being [attempts 5]. *)
Definition retried_until_exhausted {A} (session : nat -> request -> reply)
           (req : request) (fails : reply -> Prop) (attempts : nat -> trace)
           (op : M A) : Prop :=
  exists o t,
    run op = Some (o, t)
    /\ (forall m,
           (m < 5)%nat ->
           first_attempts session req m fails ->
           exists ev, t = attempts (S m) ++ ev)
    /\ (first_attempts session req 5%nat fails ->
        t = attempts 5%nat /\ exists e, o = Raise e).

(** The operation sleeps by the unified backoff.  For [1 < m <= 5], when
    the attempts before attempt [m] have failed, the events of those
    [m - 1] attempts are followed by a sleep of [unified_delay (m - 1)]
    seconds and then by the request of attempt [m]; and when all five
    attempts have failed the operation raises with nothing slept or sent
    after the fifth request. *)
Definition backs_off {A} (session : nat -> request -> reply) (req : request)
           (fails : reply -> Prop) (op : M A) : Prop :=
  (forall m,
      (1 < m <= 5)%nat ->
      first_attempts session req (m - 1) fails ->
      exists o ev,
        run op
        = Some (o,
                backoff_trace req (m - 1)
                  ++ Sleep (unified_delay (m - 1)) :: Request req :: ev))
  /\ (first_attempts session req 5%nat fails ->
      exists e, run op = Some (Raise e, backoff_trace req 5%nat)).

(** A rejected payload is retried.  When the first [m < 5] attempts have
    failed and the reply to the next attempt decodes to a payload of the
    expected shape that the predicate rejects, the call goes on to the
    attempt after it if that is within the budget of five, and raises
    after the events of five attempts otherwise. *)
Definition rejection_retried {A} (session : nat -> request -> reply)
           (req : request) (fails : reply -> Prop)
           (shape accepts : json -> bool) (attempts : nat -> trace)
           (op : M A) : Prop :=
  forall (m : nat) (j : json),
    (m < 5)%nat ->
    first_attempts session req m fails ->
    delivery_of (session m req) = Decoded j ->
    shape j = true ->
    accepts j = false ->
    ((S m < 5)%nat ->
     exists o ev, run op = Some (o, attempts (S (S m)) ++ ev))
    /\ (S m = 5%nat ->
        exists e, run op = Some (Raise e, attempts 5%nat)).

(** A decoded payload that is not a JSON object ends the call.  When the
    first [m < 5] attempts have failed and the reply to the next attempt
    decodes to a payload that is not a JSON object, the call raises
    [AttributeError] after the events of [m + 1] attempts. *)
Definition non_object_raises {A} (session : nat -> request -> reply)
           (req : request) (fails : reply -> Prop) (attempts : nat -> trace)
           (op : M A) : Prop :=
  forall (m : nat) (j : json),
    (m < 5)%nat ->
    first_attempts session req m fails ->
    delivery_of (session m req) = Decoded j ->
    Py.is_dict j = false ->
    run op = Some (Raise AttributeError, attempts (S m)).

(** ** Paginated listing *)

(** A response in the shape of the wire contract: a truthy JSON object whose
    ["objects"] is a list of entries with ["id"] and ["name"] (given here as
    the pairs [items]) and whose [meta.next_page] reads [next] ([JNull] when
    it or [meta] is absent). *)
Definition page_response (resp : json) (items : list (json * json))
           (next : json) : Prop :=
  Py.truthy resp = true
  /\ (exists meta,
         Py.get resp "meta" (JDict []) = Ok meta
         /\ Py.get meta "next_page" JNull = Ok next)
  /\ exists entries,
      Py.get resp "objects" (JList []) = Ok (JList entries)
      /\ Forall2 (fun entry item =>
                    Py.getitem entry "id" = Ok (fst item)
                    /\ Py.getitem entry "name" = Ok (snd item))
                 entries items.

(** A dataset with finitely many pages, seen from the page [page]: the list
    gives each page's key and items, every page but the last names the next
    one by a truthy [next_page], and the last has none. *)
Inductive paginated (server : json -> json)
  : json -> list (json * list (json * json)) -> Prop :=
| last_page (page : json) (items : list (json * json)) (next : json) :
    page_response (server page) items next ->
    Py.truthy next = false ->
    paginated server page [(page, items)]
| more_pages (page : json) (items : list (json * json)) (next : json)
             (rest : list (json * list (json * json))) :
    page_response (server page) items next ->
    Py.truthy next = true ->
    paginated server next rest ->
    paginated server page ((page, items) :: rest).

(** The parameters that [list_sketches] starts from, and its request for a
    page. *)
Definition sketch_params (per_page : Z) (scope : string)
           (include_archived : bool) : list (string * json) :=
  [("per_page", JInt per_page);
   ("scope", JStr scope);
   ("include_archived", JBool include_archived)].

Definition sketches_request (api_root : string) (base : list (string * json))
           (page : json) : request :=
  fetch_request api_root "sketches/" (JDict (Py.setitem "page" page base)).

(** The session serves an unchanged dataset: whenever it is asked for a
    page, it delivers the server's response for that page. *)
Definition serves (session : nat -> request -> reply) (api_root : string)
           (base : list (string * json)) (server : json -> json) : Prop :=
  forall n page,
    delivery_of (session n (sketches_request api_root base page))
    = Decoded (server page).

Definition sketch_of (item : json * json) : pyobj :=
  Sketch (fst item) (snd item).

(** What a complete listing of a dataset does, as the events [t] it adds:
    it asks for the pages of the dataset in order, page 1 first and one
    request per page, and yields one [Sketch] per item, in order. *)
Definition lists_dataset (api_root : string) (base : list (string * json))
           (dataset : list (json * list (json * json))) (t : trace) : Prop :=
  requests t = map (fun p => sketches_request api_root base (fst p)) dataset
  /\ hd_error (requests t)
     = Some (fetch_request api_root "sketches/"
                           (JDict (base ++ [("page", JInt 1)])))
  /\ yields t = map sketch_of (List.concat (map snd dataset)).

(** ** Further vocabulary *)

(** The sleeps of a trace, in order. *)
Fixpoint sleeps (t : trace) : list Q :=
  match t with
  | [] => []
  | Sleep q :: t' => q :: sleeps t'
  | _ :: t' => sleeps t'
  end.

(** Seconds slept in all. *)
Definition total_sleep (t : trace) : Q := fold_right Qplus 0%Q (sleeps t).

(** The work of one call of a retrying operation: between one and five
    requests, all of them [req]; [0.5 * (2^(k-1) - 1)] seconds of sleep for
    [k] attempts, which is at most 7.5 seconds. *)
Definition bounded_work (req : request) (t : trace) : Prop :=
  (1 <= n_requests t <= 5)%nat
  /\ requests t = repeat req (n_requests t)
  /\ (total_sleep t
      == (1 # 2) * (inject_Z (2 ^ Z.of_nat (n_requests t - 1)) - 1))%Q
  /\ (total_sleep t <= 15 # 2)%Q.

(** ** Further operations of the client *)

(** Sequencing of computations that send nothing. *)
Definition result_bind {A B} (r : result A) (k : A -> result B) : result B :=
  match r with
  | Ok a => k a
  | Raise e => Raise e
  end.

Notation "x <-? r ;; k" := (result_bind r (fun x => k))
  (at level 100, r at next level, right associativity) : py_scope.

Definition newline : string := String (Ascii.ascii_of_nat 10) EmptyString.

(** ["{0:s}".format(x)]: only a string has the format code [s]; an integer
    (or a boolean, which is one) answers with [ValueError], any other value
    with [TypeError]. *)
Definition format_s (x : json) : result string :=
  match x with
  | JStr s => Ok s
  | JInt _ | JBool _ => Raise ValueError
  | _ => Raise TypeError
  end.

(** ["{0:d}".format(n)] *)
Definition format_d (n : Z) : string :=
  DecimalString.NilZero.string_of_int (Z.to_int n).

Section MoreClient.

Variable session : nat -> request -> reply.
Variable api_root : string.

(** [version.get_version()], declared in [version.py]. *)
Variable client_version : string.

(** [pandas.DataFrame(lines)] and [pandas.DataFrame.from_records(records)],
    of the pandas library. *)
Variable pandas_frame : Type.
Variable DataFrame : list (list (string * json)) -> pandas_frame.
Variable from_records : json -> result pandas_frame.

(** [SigmaRule.set_value], declared in [sigma.py]: it stores one value on
    the rule object. *)
Variable set_value : pyobj -> string -> json -> pyobj.

(** *** The property [version] *)

Definition version : M string :=
  version_dict <- fetch_resource_data session api_root "version/" JNull ;;
  ts_version <-
    (if Py.truthy version_dict
     then
       meta <- lift (Py.get version_dict "meta" (JDict [])) ;;
       lift (Py.get meta "version" JNull)
     else ret JNull) ;;
  if Py.truthy ts_version
  then
    backend <- lift (format_s ts_version) ;;
    ret ("API Client: " +s client_version +s newline
           +s "TS Backend: " +s backend)
  else ret ("API Client: " +s client_version).

(** *** [check_celery_status] *)

Definition check_celery_status (job_id : string) : M json :=
  response <-
    (if negb (Py.str_empty job_id)
     then fetch_resource_data session api_root ("tasks/?job_id=" +s job_id)
                              JNull
     else fetch_resource_data session api_root "tasks/" JNull) ;;
  lift (Py.get response "objects" (JList [])).

(** *** [get_aggregator_info] *)

(** The inner loop over [enumerate(line.get("fields", []))]. *)
Fixpoint aggregator_fields (fields : list json) (field_index : Z)
         (line_dict : list (string * json)) : result (list (string * json)) :=
  match fields with
  | [] => Ok line_dict
  | field :: fields' =>
      field_name <-? Py.get field "name" JNull ;;
      let line_dict :=
        Py.setitem ("field_" +s format_d (field_index + 1) +s "_name")
                   field_name line_dict in
      field_description <-? Py.get field "description" JNull ;;
      let line_dict :=
        Py.setitem ("field_" +s format_d (field_index + 1) +s "_description")
                   field_description line_dict in
      aggregator_fields fields' (field_index + 1) line_dict
  end.

Definition aggregator_line (line : json) : result (list (string * json)) :=
  name <-? Py.get line "name" (JStr "N/A") ;;
  description <-? Py.get line "description" (JStr "N/A") ;;
  let line_dict := [("name", name); ("description", description)] in
  fields <-? Py.get line "fields" (JList []) ;;
  fields <-? Py.iter fields ;;
  aggregator_fields fields 0 line_dict.

(** The outer loop, which appends one dictionary per line. *)
Fixpoint aggregator_lines (response_json : list json)
         (lines : list (list (string * json)))
  : result (list (list (string * json))) :=
  match response_json with
  | [] => Ok lines
  | line :: response_json' =>
      line_dict <-? aggregator_line line ;;
      aggregator_lines response_json' (lines ++ [line_dict])
  end.

(** What [get_aggregator_info] returns: the decoded response, or the frame
    made of its lines. *)
Inductive aggregator_info : Type :=
| InfoJson (response_json : json)
| InfoFrame (frame : pandas_frame).

Definition get_aggregator_info (name : string) (as_pandas : bool)
  : M aggregator_info :=
  let resource_uri := "aggregation/info/" in
  response_json <-
    (if negb (Py.str_empty name)
     then
       let data := JDict [("aggregator", JStr name)] in
       let resource_url := api_root +s "/" +s resource_uri in
       response <- session_post session resource_url data ;;
       lift (get_response_json response)
     else fetch_resource_data session api_root resource_uri JNull) ;;
  if negb as_pandas then ret (InfoJson response_json)
  else
    let response_json :=
      if Py.is_dict response_json then JList [response_json]
      else response_json in
    lines <- lift (line_list <-? Py.iter response_json ;;
                   aggregator_lines line_list []) ;;
    ret (InfoFrame (DataFrame lines)).

(** *** [list_sigmarules] *)

(** [for key, value in rule_dict.items(): index_obj.set_value(key, value)] *)
Fixpoint set_values (index_obj : pyobj) (items : list (string * json))
  : pyobj :=
  match items with
  | [] => index_obj
  | (key, value) :: items' => set_values (set_value index_obj key value) items'
  end.

(** The loop over [response["objects"]]; a fresh [SigmaRule] has nothing
    loaded. *)
Fixpoint sigma_rules (rule_dicts : list json) (rules : list pyobj)
  : result (list pyobj) :=
  match rule_dicts with
  | [] => Ok rules
  | rule_dict :: rule_dicts' =>
      if negb (Py.truthy rule_dict) then Raise ValueError
      else
        let index_obj := SigmaRule JNull in
        match rule_dict with
        | JDict items =>
            sigma_rules rule_dicts' (rules ++ [set_values index_obj items])
        | _ => Raise AttributeError
        end
  end.

Inductive sigma_listing : Type :=
| RuleList (rules : list pyobj)
| RuleFrame (frame : pandas_frame).

Definition list_sigmarules (as_pandas : bool) : M sigma_listing :=
  response <- fetch_resource_data session api_root "sigmarules/" JNull ;;
  if negb (Py.truthy response) then raise ValueError
  else if as_pandas
  then
    objects <- lift (Py.get response "objects" JNull) ;;
    frame <- lift (from_records objects) ;;
    ret (RuleFrame frame)
  else
    objects <- lift (Py.getitem response "objects") ;;
    rule_dicts <- lift (Py.iter objects) ;;
    rules <- lift (sigma_rules rule_dicts []) ;;
    ret (RuleList rules).

End MoreClient.

Arguments InfoJson {pandas_frame} response_json.
Arguments InfoFrame {pandas_frame} frame.
Arguments RuleList {pandas_frame} rules.
Arguments RuleFrame {pandas_frame} frame.

(** The POST of [get_aggregator_info] for a named aggregator. *)
Definition aggregator_request (api_root name : string) : request :=
  mkRequest POST (api_root +s "/" +s "aggregation/info/")
            (JDict [("aggregator", JStr name)]).

(** An aggregator description whose ["fields"], if present, is a list of
    dictionaries. *)
Definition aggregator_fields_listed (d : list (string * json)) : Prop :=
  match Py.lookup "fields" d with
  | None => True
  | Some (JList fields) => Forall (fun field => Py.is_dict field = true) fields
  | Some _ => False
  end.

(** The line made for an aggregator carries its name and description, or
    ["N/A"] where it has none. *)
Definition line_describes (d line : list (string * json)) : Prop :=
  Py.lookup "name" line
  = Some (match Py.lookup "name" d with Some v => v | None => JStr "N/A" end)
  /\ Py.lookup "description" line
     = Some (match Py.lookup "description" d with
             | Some v => v
             | None => JStr "N/A"
             end).

(** ** The session object *)

(** [str.lower()] on the ASCII letters of a header name. *)
Definition ascii_lower (c : Ascii.ascii) : Ascii.ascii :=
  let n := Ascii.nat_of_ascii c in
  if ((65 <=? n) && (n <=? 90))%nat then Ascii.ascii_of_nat (n + 32) else c.

Fixpoint lower (s : string) : string :=
  match s with
  | EmptyString => EmptyString
  | String c s' => String (ascii_lower c) (lower s')
  end.

(** A [requests.Session] as far as the client configures it.  Its
    [headers] are a case-insensitive dictionary: a key is found whatever
    its case, and storing under a key keeps the place of the old entry. *)
Record http_session : Type := mkSession {
  auth : option (string * string);
  verify : bool;
  headers : list (string * string)
}.

Fixpoint header_set (key value : string) (h : list (string * string))
  : list (string * string) :=
  match h with
  | [] => [(key, value)]
  | (k, v) :: h' =>
      if String.eqb (lower k) (lower key) then (key, value) :: h'
      else (k, v) :: header_set key value h'
  end.

Fixpoint header_get (key : string) (h : list (string * string))
  : option string :=
  match h with
  | [] => None
  | (k, v) :: h' =>
      if String.eqb (lower k) (lower key) then Some v else header_get key h'
  end.

(** What [bs4] finds in a page: [soup.find(id="csrf_token")] with the
    ["value"] of that tag, and
    [soup.find("meta", attrs={"name": "csrf-token"})] with its
    ["content"]; the outer [None] means that there is no such tag, the
    inner one that the tag lacks the attribute. *)
Record soup : Type := mkSoup {
  csrf_input : option (option string);
  csrf_meta : option (option string)
}.

(** The answer of the web front end to a request of the session under
    construction. *)
Inductive web_reply : Type :=
| WebUnreachable
| WebPage (page : soup).

(** Assignments to the attributes of a session. *)
Definition set_auth (s : http_session) (a : option (string * string))
  : http_session :=
  mkSession a (verify s) (headers s).

Definition set_verify (s : http_session) (v : bool) : http_session :=
  mkSession (auth s) v (headers s).

(** [session.headers.update({"x-csrftoken": ..., "referer": ...})] *)
Definition update_csrf_headers (s : http_session) (csrf_token referer : string)
  : http_session :=
  mkSession (auth s) (verify s)
            (header_set "referer" referer
                        (header_set "x-csrftoken" csrf_token (headers s))).

(** A page offers a token in the ["value"] of its [csrf_token] tag or,
    when it has no such tag, in the ["content"] of its [csrf-token] meta
    tag. *)
Definition offers_token (page : soup) (token : string) : Prop :=
  csrf_input page = Some (Some token)
  \/ (csrf_input page = None /\ csrf_meta page = Some (Some token)).

(** The requests of the session under construction. *)
Definition front_page (host_uri : string) : request :=
  mkRequest GET host_uri JNull.


Section SessionCreation.

Variable web : nat -> request -> web_reply.
Variable _host_uri : string.

(** The headers of a new [requests.Session]. *)
Variable default_headers : list (string * string).

(** [_create_oauth_session(client_id, client_secret, run_server=...,
    skip_open=...)], which drives the OAuth flow of the google libraries. *)
Variable _create_oauth_session : string -> string -> bool -> bool -> M http_session.

(** A GET or POST of the session under construction; the body of the
    answer is a page. *)
Definition web_send (r : request) : M soup :=
  fun t =>
    match web (n_requests t) r with
    | WebUnreachable => Some (Raise ConnectionError, t ++ [Request r])
    | WebPage page => Some (Ok page, t ++ [Request r])
    end.

(** The session object is updated in place; the updated object is the
    result here. *)
Definition _set_csrf_token (session : http_session) : M http_session :=
  page <- web_send (mkRequest GET _host_uri JNull) ;;
  let csrf_token :=
    match csrf_input page with
    | Some value => value
    | None =>
        match csrf_meta page with
        | Some content => content
        | None => None
        end
    end in
  match csrf_token with
  | None => ret session
  | Some token =>
      if Py.str_empty token then ret session
      else ret (update_csrf_headers session token _host_uri)
  end.

(** The form data of the login goes into the payload of the request. *)
Definition _authenticate_session (session : http_session)
           (username password : string) : M unit :=
  web_send (mkRequest POST (_host_uri +s "/login/")
                      (JDict [("username", JStr username);
                              ("password", JStr password)])) ;;;
  ret tt.

Definition _create_session (username password : string) (verify : bool)
           (client_id client_secret auth_mode : string) : M http_session :=
  if String.eqb auth_mode "oauth"
  then _create_oauth_session client_id client_secret true false
  else if String.eqb auth_mode "oauth_local"
  then _create_oauth_session client_id client_secret false true
  else
    let session := mkSession None true default_headers in
    let session :=
      if String.eqb auth_mode "http-basic"
      then set_auth session (Some (username, password))
      else session in
    let session :=
      if negb verify then set_verify session false else session in
    session <- _set_csrf_token session ;;
    (if String.eqb auth_mode "userpass"
     then _authenticate_session session username password
     else ret tt) ;;;
    ret session.

End SessionCreation.

(** ** The client object *)

(** The attributes of a [TimesketchApi] that the methods modelled here
    read: [_host_uri], [api_root] and [_session] ([None] until a session is
    created or set). *)
Record TimesketchApi : Type := mkApi {
  self_host_uri : string;
  self_api_root : string;
  self_session : option http_session
}.

Section Construction.

Variable web : nat -> request -> web_reply.
Variable default_headers : list (string * string).
Variable _create_oauth_session : string -> string -> bool -> bool -> M http_session.

Definition __init__ (host_uri username password : string) (verify : bool)
           (client_id client_secret auth_mode : string) (create_session : bool)
  : M TimesketchApi :=
  let api_root := host_uri +s "/api/v1" in
  if negb create_session then ret (mkApi host_uri api_root None)
  else
    session <-
      try_except
        (_create_session web host_uri default_headers _create_oauth_session
                         username password verify client_id client_secret
                         auth_mode)
        (fun e =>
           match e with
           | ConnectionError => Some (raise ConnectionError)
           | RuntimeError => Some (raise RuntimeError)
           | _ => None
           end) ;;
    ret (mkApi host_uri api_root (Some session)).

End Construction.

Definition set_session (self : TimesketchApi) (session_object : http_session)
  : TimesketchApi :=
  mkApi (self_host_uri self) (self_api_root self) (Some session_object).

(** The property [session]. *)
Definition session_property (self : TimesketchApi) : result http_session :=
  match self_session self with
  | None => Raise ValueError
  | Some s => Ok s
  end.

(** ** The retry loops over the property [session]

    The loops of the client reach the transport through [self.session],
    which raises when no session is set.  They are given here over any
    transport, and agree with the loops above on the transport of a
    session that is set (section [WithSession] below). *)

Section OverTransport.

Variable transport : request -> M response.
Variable sketch_Sketch : json -> M pyobj.
Variable index_SearchIndex : json -> M pyobj.

Fixpoint fetch_loop_over (fuel : nat) (resource_url : string) (params : json)
         (attempt : Z) : M json :=
  match fuel with
  | O => out_of_fuel
  | S fuel' =>
      let attempt := attempt + 1 in
      (if 1 <? attempt then sleep (fetch_backoff_time attempt) else ret tt) ;;;
      returned <-
        try_except
          (response <- transport (mkRequest GET resource_url params) ;;
           result <- lift (get_response_json response) ;;
           if Py.truthy result then ret (Some result) else ret None)
          (fun e =>
             match e with
             | RuntimeError | ValueError | ConnectionError =>
                 Some (if DEFAULT_RETRY_COUNT <=? attempt
                       then raise e
                       else ret None)
             | _ => None
             end) ;;
      match returned with
      | Some result => ret result
      | None =>
          if DEFAULT_RETRY_COUNT <=? attempt
          then raise RuntimeError
          else fetch_loop_over fuel' resource_url params attempt
      end
  end.

Fixpoint create_sketch_loop_over (attempts : list Z) (resource_url : string)
         (form_data : json) (last_exception : option exn) : M pyobj :=
  match attempts with
  | [] => raise RuntimeError
  | attempt :: attempts' =>
      response <- transport (mkRequest POST resource_url form_data) ;;
      r <- try_except
             (response_dict <- lift (get_response_json response) ;;
              objects <- lift (Py.get response_dict "objects" JNull) ;;
              if has_first_id objects
              then
                first <- lift (Py.getitem0 objects) ;;
                sketch_id <- lift (Py.getitem first "id") ;;
                sk <- get_sketch sketch_Sketch sketch_id ;;
                ret (Returned sk)
              else ret (Failed (Some RuntimeError)))
             (fun e =>
                match e with
                | ConnectionError => Some (ret (Failed (Some e)))
                | ValueError => Some (ret (Failed (Some e)))
                | RuntimeError => Some (ret (Failed (Some e)))
                | _ => None
                end) ;;
      match r with
      | Returned sk => ret sk
      | Failed last_exception =>
          if attempt <? DEFAULT_RETRY_COUNT - 1
          then
            sleep (create_backoff_time attempt) ;;;
            create_sketch_loop_over attempts' resource_url form_data
                                    last_exception
          else
            match last_exception with
            | Some _ => raise RuntimeError
            | None => raise RuntimeError
            end
      end
  end.

Fixpoint create_searchindex_loop_over (attempts : list Z)
         (resource_url : string) (form_data : json)
         (last_exception : option exn) : M pyobj :=
  match attempts with
  | [] => raise RuntimeError
  | attempt :: attempts' =>
      r <- try_except
             (response <- transport (mkRequest POST resource_url form_data) ;;
              response_dict <- lift (get_response_json response) ;;
              objects <- lift (Py.get response_dict "objects" JNull) ;;
              if has_first_id objects
              then
                first <- lift (Py.getitem0 objects) ;;
                searchindex_id <- lift (Py.getitem first "id") ;;
                ix <- index_SearchIndex searchindex_id ;;
                ret (Returned ix)
              else ret (Failed (Some RuntimeError)))
             (fun e =>
                match e with
                | ConnectionError => Some (ret (Failed (Some e)))
                | ValueError => Some (ret (Failed (Some e)))
                | RuntimeError => Some (ret (Failed (Some e)))
                | _ => None
                end) ;;
      match r with
      | Returned ix => ret ix
      | Failed last_exception =>
          if attempt <? DEFAULT_RETRY_COUNT - 1
          then
            sleep (create_backoff_time attempt) ;;;
            create_searchindex_loop_over attempts' resource_url form_data
                                         last_exception
          else
            match last_exception with
            | Some _ => raise ValueError
            | None => raise RuntimeError
            end
      end
  end.

Fixpoint post_until_objects_over (fuel : nat) (resource_url : string)
         (form_data : json) (retry_count : Z) : M json :=
  match fuel with
  | O => out_of_fuel
  | S fuel' =>
      response <- transport (mkRequest POST resource_url form_data) ;;
      response_dict <- lift (get_response_json response) ;;
      objects <- lift (Py.get response_dict "objects" JNull) ;;
      if Py.truthy objects then ret objects
      else
        let retry_count := retry_count + 1 in
        if DEFAULT_RETRY_COUNT <=? retry_count
        then raise RuntimeError
        else post_until_objects_over fuel' resource_url form_data retry_count
  end.

End OverTransport.

(** The methods of a client object.  What the server answers may depend on
    the session that asks (its credentials and headers): [server s] is the
    script of the replies to the session [s]. *)

Section Methods.

Variable server : http_session -> nat -> request -> reply.
Variable sketch_Sketch : json -> M pyobj.
Variable index_SearchIndex : json -> M pyobj.
Variable user_User : json -> M pyobj.
Variable self : TimesketchApi.

(** [self.session.get(...)] and [self.session.post(...)]: the property is
    evaluated first, and the request goes out through the session it
    returns. *)
Definition self_send (r : request) : M response :=
  s <- lift (session_property self) ;;
  send (server s) r.

Definition api_fetch_resource_data (resource_uri : string) (params : json)
  : M json :=
  fetch_loop_over self_send (Z.to_nat DEFAULT_RETRY_COUNT)
                  (self_api_root self +s "/" +s resource_uri) params 0.

Definition api_create_sketch (name : string) (description : option string)
  : M pyobj :=
  let description :=
    match description with
    | Some d => if Py.str_empty d then name else d
    | None => name
    end in
  if Py.str_empty name then raise ValueError
  else
    let resource_url := self_api_root self +s "/sketches/" in
    let form_data :=
      JDict [("name", JStr name); ("description", JStr description)] in
    create_sketch_loop_over self_send sketch_Sketch
                            (range DEFAULT_RETRY_COUNT) resource_url
                            form_data None.

Definition api_create_searchindex
           (searchindex_name opensearch_index_name : string) : M pyobj :=
  let resource_url := self_api_root self +s "/searchindices/" in
  let form_data :=
    JDict [("searchindex_name", JStr searchindex_name);
           ("es_index_name", JStr opensearch_index_name)] in
  create_searchindex_loop_over self_send index_SearchIndex
                               (range DEFAULT_RETRY_COUNT)
                               resource_url form_data None.

(** The loops of [create_user] and [create_sigmarule], up to their
    [break]. *)
Definition api_create_user_loop (username password : string) : M json :=
  post_until_objects_over
    self_send (Z.to_nat DEFAULT_RETRY_COUNT)
    (self_api_root self +s "/users/")
    (JDict [("username", JStr username); ("password", JStr password)])
    0.

Definition api_create_user (username password : string) : M pyobj :=
  objects <- api_create_user_loop username password ;;
  first <- lift (Py.getitem0 objects) ;;
  user_id <- lift (Py.getitem first "id") ;;
  user_User user_id.

Definition api_create_sigmarule_loop (rule_yaml : string) : M json :=
  post_until_objects_over
    self_send (Z.to_nat DEFAULT_RETRY_COUNT)
    (self_api_root self +s "/sigmarules/")
    (JDict [("rule_yaml", JStr rule_yaml)])
    0.

End Methods.

(** ** Concrete servers

    Scripted sessions and payloads on which the properties are exercised. *)

Definition payload_42 : json :=
  JDict [("objects", JList [JDict [("id", JInt 42)]])].

Definition payload_no_objects : json := JDict [("objects", JList [])].

Definition session_status_500 : nat -> request -> reply :=
  fun _ _ => Answer (mkResponse 500 None).

Definition session_unreachable : nat -> request -> reply :=
  fun _ _ => ConnectionFailed.

Definition session_empty_objects : nat -> request -> reply :=
  fun _ _ => Answer (mkResponse 200 (Some payload_no_objects)).

Definition session_created_42 : nat -> request -> reply :=
  fun _ _ => Answer (mkResponse 200 (Some payload_42)).

Definition session_rejected_twice_then_500 : nat -> request -> reply :=
  fun n _ =>
    if (n <? 2)%nat
    then Answer (mkResponse 200 (Some payload_no_objects))
    else Answer (mkResponse 500 None).

Definition session_500_twice_then_42 : nat -> request -> reply :=
  fun n _ =>
    if (n <? 2)%nat
    then Answer (mkResponse 500 None)
    else Answer (mkResponse 200 (Some payload_42)).

Definition session_rejected_twice_then_42 : nat -> request -> reply :=
  fun n _ =>
    if (n <? 2)%nat
    then Answer (mkResponse 200 (Some payload_no_objects))
    else Answer (mkResponse 200 (Some payload_42)).




Definition payload_rule : json :=
  JDict [("objects", JList [JDict [("rule_uuid", JStr "a")]])].

Definition session_rejected_twice_then_rule : nat -> request -> reply :=
  fun n _ =>
    if (n <? 2)%nat
    then Answer (mkResponse 200 (Some payload_no_objects))
    else Answer (mkResponse 200 (Some payload_rule)).

(** A 20x reply whose body is the JSON list [[]]. *)
Definition session_empty_list : nat -> request -> reply :=
  fun _ _ => Answer (mkResponse 200 (Some (JList []))).




Definition session_meta_only : nat -> request -> reply :=
  fun _ _ => Answer (mkResponse 200 (Some (JDict [("meta", JDict [])]))).

Definition users_payload : list (string * json) :=
  [("objects",
    JList [JList [JDict [("id", JInt 1)]; JDict [("id", JInt 2)]]])].

Definition session_two_users : nat -> request -> reply :=
  fun _ _ => Answer (mkResponse 200 (Some (JDict users_payload))).

(** A [from_rule_uuid] that fails to load the rule. *)
Definition rule_not_loaded : json -> M json := fun _ => raise RuntimeError.

(** A dataset of two pages, with two sketches and one. *)
Definition two_pages (page : json) : json :=
  match page with
  | JInt 1 =>
      JDict [("meta", JDict [("next_page", JInt 2)]);
             ("objects",
              JList [JDict [("id", JInt 1); ("name", JStr "a")];
                     JDict [("id", JInt 2); ("name", JStr "b")]])]
  | _ =>
      JDict [("meta", JDict [("next_page", JNull)]);
             ("objects",
              JList [JDict [("id", JInt 3); ("name", JStr "c")]])]
  end.

Definition session_two_pages : nat -> request -> reply :=
  fun _ r =>
    match Py.get (payload r) "page" JNull with
    | Ok page => Answer (mkResponse 200 (Some (two_pages page)))
    | Raise _ => ConnectionFailed
    end.

Definition two_pages_dataset : list (json * list (json * json)) :=
  [(JInt 1, [(JInt 1, JStr "a"); (JInt 2, JStr "b")]);
   (JInt 2, [(JInt 3, JStr "c")])].

(** A server whose listing never ends: every page names page 1 as the
    next. *)
Definition endless_page : json :=
  JDict [("meta", JDict [("next_page", JInt 1)]); ("objects", JList [])].

Definition session_endless : nat -> request -> reply :=
  fun _ _ => Answer (mkResponse 200 (Some endless_page)).

(** A server that delivers page 1 of [two_pages] and fails on every other
    request. *)
Definition session_second_page_down : nat -> request -> reply :=
  fun _ r =>
    match Py.get (payload r) "page" JNull with
    | Ok (JInt 1) => Answer (mkResponse 200 (Some (two_pages (JInt 1))))
    | _ => Answer (mkResponse 503 None)
    end.

(** The flat shape of ["objects"]: the list of dictionaries itself. *)
Definition flat_payload : list (string * json) :=
  [("objects", JList [JDict [("id", JInt 1); ("name", JStr "a")]])].

Definition session_flat : nat -> request -> reply :=
  fun _ _ => Answer (mkResponse 200 (Some (JDict flat_payload))).

(** A server that answers every request with the empty JSON object. *)
Definition session_empty_object : nat -> request -> reply :=
  fun _ _ => Answer (mkResponse 200 (Some (JDict []))).

(** Two Sigma rules as the server lists them, and a listing with an empty
    rule in second place. *)
Definition rule_a : list (string * json) := [("rule_uuid", JStr "a")].
Definition rule_b : list (string * json) := [("rule_uuid", JStr "b")].

Definition session_two_rules : nat -> request -> reply :=
  fun _ _ =>
    Answer (mkResponse 200 (Some (JDict [("objects",
                                          JList [JDict rule_a; JDict rule_b])]))).

Definition session_empty_rule : nat -> request -> reply :=
  fun _ _ =>
    Answer (mkResponse 200 (Some (JDict [("objects",
                                          JList [JDict rule_a; JDict [];
                                                 JDict rule_b])]))).

(** A [set_value] that keeps the values in a dictionary. *)
Definition keep_value (o : pyobj) (key : string) (value : json) : pyobj :=
  match o with
  | SigmaRule (JDict d) => SigmaRule (JDict (Py.setitem key value d))
  | SigmaRule _ => SigmaRule (JDict [(key, value)])
  | _ => o
  end.

(** Two aggregators, the second without a description. *)
Definition aggregator_a : list (string * json) :=
  [("name", JStr "field_bucket");
   ("description", JStr "buckets of a field");
   ("fields", JList [JDict [("name", JStr "field")]])].

Definition aggregator_b : list (string * json) := [("name", JStr "query_bucket")].

Definition session_aggregators : nat -> request -> reply :=
  fun _ _ =>
    Answer (mkResponse 200 (Some (JList [JDict aggregator_a;
                                         JDict aggregator_b]))).

(** A server that reports its version, and one whose ["meta"] is null. *)
Definition session_version : nat -> request -> reply :=
  fun _ _ =>
    Answer (mkResponse 200
              (Some (JDict [("meta", JDict [("version", JStr "20240101")])]))).

Definition session_null_meta : nat -> request -> reply :=
  fun _ _ => Answer (mkResponse 200 (Some (JDict [("meta", JNull)]))).

(** A server whose payloads carry neither ["objects"] nor ["meta"]. *)
Definition session_status_only : nat -> request -> reply :=
  fun _ _ => Answer (mkResponse 200 (Some (JDict [("status", JStr "ok")]))).

(** A client object with a session. *)
Definition plain_session : http_session := mkSession None true [].

Definition api_with_session : TimesketchApi :=
  mkApi "h" "h/api/v1" (Some plain_session).

(** A client object without a session. *)
Definition api_without_session : TimesketchApi := mkApi "h" "h/api/v1" None.

(** A front page whose form carries a CSRF token, and one whose input tag
    has no value while its meta tag has a token. *)
Definition page_with_input : soup := mkSoup (Some (Some "tok-1")) None.

Definition page_with_empty_input : soup :=
  mkSoup (Some None) (Some (Some "tok-2")).

Definition web_with_input : nat -> request -> web_reply :=
  fun _ _ => WebPage page_with_input.

Definition web_with_empty_input : nat -> request -> web_reply :=
  fun _ _ => WebPage page_with_empty_input.



(** ** Proof tools *)

(** Unfolds the operations of the effect monad. *)
Ltac run_monad :=
  unfold bind, try_except, session_get, session_post, send, lift, ret, raise,
    sleep, yield, emit, get_sketch.

(** Decides the budget test of a round, which is [at_last] in the last round
    and its negation in every other. *)
Ltac budget_test :=
  symmetry;
  first [apply Z.leb_le | apply Z.ltb_ge | apply Z.leb_gt | apply Z.ltb_lt];
  unfold DEFAULT_RETRY_COUNT; lia.

Ltac last_or_next test at_last left :=
  destruct left;
  [ replace test with at_last by budget_test
  | replace test with (negb at_last) by budget_test; cbn [negb] ].

(** * Properties *)

(** ** Traces *)

Lemma n_requests_app (t1 t2 : trace) :
  n_requests (t1 ++ t2) = (n_requests t1 + n_requests t2)%nat.
Proof.
  induction t1 as [|ev t1 IH]; simpl; [reflexivity|].
  destruct ev; simpl; rewrite IH; reflexivity.
Qed.

Lemma requests_app (t1 t2 : trace) :
  requests (t1 ++ t2) = requests t1 ++ requests t2.
Proof.
  induction t1 as [|ev t1 IH]; simpl; [reflexivity|].
  destruct ev; simpl; rewrite IH; reflexivity.
Qed.

Lemma yields_app (t1 t2 : trace) :
  yields (t1 ++ t2) = yields t1 ++ yields t2.
Proof.
  induction t1 as [|ev t1 IH]; simpl; [reflexivity|].
  destruct ev; simpl; rewrite IH; reflexivity.
Qed.

Lemma n_requests_length (t : trace) :
  n_requests t = List.length (requests t).
Proof.
  induction t as [|ev t IH]; simpl; [reflexivity|].
  destruct ev; simpl; rewrite IH; reflexivity.
Qed.

(** ** The retry engine *)

Section EngineFacts.

Variable session : nat -> request -> reply.
Context {A : Type}.
Variable judge : reply -> verdict A.
Variable pause : nat -> option Q.
Variable exhausted : exn -> exn.
Variable req : request.

Lemma n_requests_pause (done : nat) :
  n_requests (pause_events pause done) = O.
Proof. unfold pause_events; destruct (pause done); reflexivity. Qed.

Lemma n_requests_schedule (done k : nat) :
  n_requests (schedule pause req done k) = k.
Proof.
  revert done; induction k as [|k IH]; intros done; simpl; [reflexivity|].
  rewrite n_requests_app, n_requests_pause; simpl.
  rewrite IH; reflexivity.
Qed.

Lemma requests_schedule (done k : nat) :
  requests (schedule pause req done k) = repeat req k.
Proof.
  revert done; induction k as [|k IH]; intros done; simpl; [reflexivity|].
  rewrite requests_app; simpl. rewrite IH.
  unfold pause_events; destruct (pause done); reflexivity.
Qed.

(** The attempts of a schedule, split after the first [a]. *)
Lemma schedule_app (done a b : nat) :
  schedule pause req done (a + b)
  = schedule pause req done a ++ schedule pause req (done + a) b.
Proof.
  revert done; induction a as [|a IH]; intros done.
  - rewrite Nat.add_0_r. reflexivity.
  - cbn [Nat.add schedule]. rewrite IH, <- app_assoc.
    cbn [app]. rewrite Nat.add_succ_r. reflexivity.
Qed.

Lemma schedule_snoc (done m : nat) :
  schedule pause req done (S m)
  = (schedule pause req done m ++ pause_events pause (done + m))
      ++ [Request req].
Proof.
  replace (S m) with (m + 1)%nat by lia.
  rewrite schedule_app. cbn [schedule]. rewrite <- app_assoc. reflexivity.
Qed.

(** The engine makes a run in the sense of [engine_run]. *)
Lemma retry_engine_run (left done : nat) (t : trace) :
  (1 <= left)%nat ->
  exists t',
    snd (retry_engine session judge pause exhausted req left done t) = t ++ t'
    /\ engine_run session judge pause exhausted req (n_requests t) done left
         (fst (retry_engine session judge pause exhausted req left done t)) t'.
Proof.
  revert done t.
  induction left as [|left IH]; intros done t Hleft; [lia|].
  cbn [retry_engine].
  rewrite n_requests_app, n_requests_pause, Nat.add_0_r.
  destruct (judge (session (n_requests t) req)) as [a|e|e] eqn:Hj.
  - exists (schedule pause req done 1); cbn [fst snd schedule]. split.
    + rewrite <- app_assoc; reflexivity.
    + exists 1%nat. split; [lia|]. split; [reflexivity|].
      split; [intros i Hi; lia|].
      cbn [Nat.sub]. rewrite Nat.add_0_r, Hj. reflexivity.
  - destruct left as [|left].
    + exists (schedule pause req done 1); cbn [fst snd schedule]. split.
      * rewrite <- app_assoc; reflexivity.
      * exists 1%nat. split; [lia|]. split; [reflexivity|].
        split; [intros i Hi; lia|].
        cbn [Nat.sub]. rewrite Nat.add_0_r, Hj. split; reflexivity.
    + destruct (IH (S done) ((t ++ pause_events pause done) ++ [Request req]))
        as (t' & Htr & k & Hk & Hsched & Hretry & Hlast); [lia|].
      exists (pause_events pause done ++ Request req :: t'). split.
      * rewrite Htr. rewrite <- !app_assoc. reflexivity.
      * rewrite !n_requests_app, n_requests_pause in Hretry, Hlast.
        cbn [n_requests] in Hretry, Hlast.
        exists (S k). split; [lia|]. split; [|split].
        -- cbn [schedule]. rewrite Hsched. reflexivity.
        -- intros i Hi. destruct i as [|i].
           ++ exists e. rewrite Nat.add_0_r. exact Hj.
           ++ destruct (Hretry i) as [e' He']; [lia|].
              exists e'. rewrite <- He'. f_equal. f_equal. lia.
        -- replace (n_requests t + (S k - 1))%nat
             with (n_requests t + 0 + 1 + (k - 1))%nat by lia.
           destruct (judge (session (n_requests t + 0 + 1 + (k - 1))%nat req)).
           ++ exact Hlast.
           ++ destruct Hlast as [-> ->]. split; reflexivity.
           ++ exact Hlast.
  - exists (schedule pause req done 1); cbn [fst snd schedule]. split.
    + rewrite <- app_assoc; reflexivity.
    + exists 1%nat. split; [lia|]. split; [reflexivity|].
      split; [intros i Hi; lia|].
      cbn [Nat.sub]. rewrite Nat.add_0_r, Hj. reflexivity.
Qed.

End EngineFacts.

(** ** Each loop of the source, round by round *)

Lemma has_first_id_inv (objects : json) :
  has_first_id objects = true ->
  exists d rest v,
    objects = JList (JDict d :: rest) /\ Py.lookup "id" d = Some v.
Proof.
  unfold has_first_id. intros H.
  destruct objects as [| | | |l|]; simpl in H;
    try (rewrite ?andb_false_r in H; simpl in H; discriminate).
  destruct l as [|first rest]; [discriminate|].
  simpl in H. destruct first as [| | | | |d]; simpl in H;
    try (rewrite ?andb_false_r in H; simpl in H; discriminate).
  destruct (Py.lookup "id" d) as [v|] eqn:Hv;
    [|rewrite ?andb_false_r in H; discriminate].
  exists d, rest, v. split; [reflexivity | exact Hv].
Qed.

Section Refinement.

Variable session : nat -> request -> reply.

Lemma fetch_loop_engine (url : string) (params : json)
      (left done fuel : nat) (t : trace) :
  (1 <= left)%nat -> (done + left = 5)%nat -> (left <= fuel)%nat ->
  fetch_loop session fuel url params (Z.of_nat done) t
  = Some (retry_engine session fetch_judge fetch_pause (fun e => e)
                       (mkRequest GET url params) left done t).
Proof.
  revert done fuel t.
  induction left as [|left IH]; intros done fuel t Hleft Hsum Hfuel; [lia|].
  destruct fuel as [|fuel]; [lia|].
  cbn [fetch_loop retry_engine].
  assert (Hpause :
            (if 1 <? Z.of_nat done + 1
             then sleep (fetch_backoff_time (Z.of_nat done + 1))
             else ret tt) t
            = Some (Ok tt, t ++ pause_events fetch_pause done)).
  { unfold pause_events, fetch_pause.
    destruct (1 <? Z.of_nat done + 1); run_monad;
      [reflexivity | rewrite app_nil_r; reflexivity]. }
  unfold bind at 1. rewrite Hpause.
  set (t1 := t ++ pause_events fetch_pause done).
  unfold fetch_judge, delivery_of, fetch_accepts.
  run_monad. unfold get_response_json.
  destruct (session (n_requests t1) (mkRequest GET url params)) as [|a];
    [|destruct (HTTP_STATUS_CODE_20X (status_code a));
      [destruct (json_body a) as [j|];
       [destruct (Py.truthy j); [reflexivity|]|]|]];
    last_or_next (DEFAULT_RETRY_COUNT <=? Z.of_nat done + 1) true left;
    try reflexivity;
    replace (Z.of_nat done + 1) with (Z.of_nat (S done)) by lia;
    apply IH; lia.
Qed.

Lemma post_until_objects_engine (url : string) (form_data : json)
      (left done fuel : nat) (t : trace) :
  (1 <= left)%nat -> (done + left = 5)%nat -> (left <= fuel)%nat ->
  post_until_objects session fuel url form_data (Z.of_nat done) t
  = Some (retry_engine session objects_judge no_pause
                       (fun _ => RuntimeError)
                       (mkRequest POST url form_data) left done t).
Proof.
  revert done fuel t.
  induction left as [|left IH]; intros done fuel t Hleft Hsum Hfuel; [lia|].
  destruct fuel as [|fuel]; [lia|].
  cbn [post_until_objects retry_engine].
  unfold pause_events, no_pause. rewrite app_nil_r.
  unfold objects_judge, delivery_of.
  run_monad. unfold get_response_json.
  destruct (session (n_requests t) (mkRequest POST url form_data)) as [|a];
    [reflexivity|].
  destruct (HTTP_STATUS_CODE_20X (status_code a));
    [destruct (json_body a) as [j|]|]; try reflexivity.
  destruct j as [| | | | |d]; try reflexivity.
  cbn [Py.get objects_of].
  destruct (Py.truthy
              match Py.lookup "objects" d with
              | Some v => v
              | None => JNull
              end); [reflexivity|].
  last_or_next (DEFAULT_RETRY_COUNT <=? Z.of_nat done + 1) true left;
    [reflexivity|].
  replace (Z.of_nat done + 1) with (Z.of_nat (S done)) by lia.
  apply IH; lia.
Qed.

End Refinement.

(** The loops of [create_sketch] and [create_searchindex] call the
    constructor of the wrapper inside their [try] statement.  One round of
    either loop, by the judgement of the reply it gets: *)

Section CreateRounds.

Variable session : nat -> request -> reply.
Variable sketch_Sketch : json -> M pyobj.
Variable index_SearchIndex : json -> M pyobj.
Variable url : string.
Variable form_data : json.

Lemma create_sketch_round (attempt : Z) (attempts : list Z)
      (last_exception : option exn) (t : trace) :
  create_sketch_loop session sketch_Sketch (attempt :: attempts) url form_data
                     last_exception t
  = let next (e : exn) : M pyobj :=
      if attempt <? DEFAULT_RETRY_COUNT - 1
      then sleep (create_backoff_time attempt) ;;;
           create_sketch_loop session sketch_Sketch attempts url form_data
                              (Some e)
      else raise RuntimeError in
    let t1 := t ++ [Request (mkRequest POST url form_data)] in
    match create_sketch_judge
            (session (n_requests t) (mkRequest POST url form_data)) with
    | Abort e => Some (Raise e, t1)
    | Retry e => next e t1
    | Accept sketch_id =>
        match sketch_Sketch sketch_id t1 with
        | None => None
        | Some (Ok sk, t2) => Some (Ok sk, t2)
        | Some (Raise e, t2) =>
            if caught_by_create e then next e t2 else Some (Raise e, t2)
        end
    end.
Proof.
  cbn [create_sketch_loop]. cbv zeta.
  unfold create_sketch_judge, delivery_of, create_accepts, first_id.
  run_monad. unfold get_response_json.
  destruct (session (n_requests t) (mkRequest POST url form_data)) as [|a];
    [reflexivity|].
  destruct (HTTP_STATUS_CODE_20X (status_code a));
    [destruct (json_body a) as [j|]|]; try reflexivity.
  destruct j as [| | | | |d]; try reflexivity.
  cbn [Py.get Py.is_dict objects_of].
  destruct (has_first_id
              match Py.lookup "objects" d with
              | Some v => v
              | None => JNull
              end) eqn:Hacc; [|reflexivity].
  destruct (has_first_id_inv _ Hacc) as (d' & rest & v & -> & Hv).
  cbn [Py.getitem0 Py.getitem]. rewrite Hv.
  destruct (sketch_Sketch v _) as [[[sk|e] t2]|]; try reflexivity.
  destruct e; reflexivity.
Qed.

Lemma create_searchindex_round (attempt : Z) (attempts : list Z)
      (last_exception : option exn) (t : trace) :
  create_searchindex_loop session index_SearchIndex (attempt :: attempts) url
                          form_data last_exception t
  = let next (e : exn) : M pyobj :=
      if attempt <? DEFAULT_RETRY_COUNT - 1
      then sleep (create_backoff_time attempt) ;;;
           create_searchindex_loop session index_SearchIndex attempts url
                                   form_data (Some e)
      else raise ValueError in
    let t1 := t ++ [Request (mkRequest POST url form_data)] in
    match create_searchindex_judge
            (session (n_requests t) (mkRequest POST url form_data)) with
    | Abort e => Some (Raise e, t1)
    | Retry e => next e t1
    | Accept searchindex_id =>
        match index_SearchIndex searchindex_id t1 with
        | None => None
        | Some (Ok ix, t2) => Some (Ok ix, t2)
        | Some (Raise e, t2) =>
            if caught_by_create e then next e t2 else Some (Raise e, t2)
        end
    end.
Proof.
  cbn [create_searchindex_loop]. cbv zeta.
  unfold create_searchindex_judge, delivery_of, create_accepts, first_id.
  run_monad. unfold get_response_json.
  destruct (session (n_requests t) (mkRequest POST url form_data)) as [|a];
    [reflexivity|].
  destruct (HTTP_STATUS_CODE_20X (status_code a));
    [destruct (json_body a) as [j|]|]; try reflexivity.
  destruct j as [| | | | |d]; try reflexivity.
  cbn [Py.get Py.is_dict objects_of].
  destruct (has_first_id
              match Py.lookup "objects" d with
              | Some v => v
              | None => JNull
              end) eqn:Hacc; [|reflexivity].
  destruct (has_first_id_inv _ Hacc) as (d' & rest & v & -> & Hv).
  cbn [Py.getitem0 Py.getitem]. rewrite Hv.
  destruct (index_SearchIndex v _) as [[[ix|e] t2]|]; try reflexivity.
  destruct e; reflexivity.
Qed.

End CreateRounds.

(** ** Runs of a loop that is given round by round *)

Section Rounds.

Variable session : nat -> request -> reply.
Variable req : request.
Variable judge : reply -> verdict json.
Variable constructor : json -> M pyobj.
Variable at_last : exn.
Variable loop : list Z -> option exn -> M pyobj.

Hypothesis loop_nil :
  forall last_exception t, loop [] last_exception t = Some (Raise RuntimeError, t).

Hypothesis loop_round :
  forall attempt attempts last_exception t,
    loop (attempt :: attempts) last_exception t
    = let next (e : exn) : M pyobj :=
        if attempt <? DEFAULT_RETRY_COUNT - 1
        then sleep (create_backoff_time attempt) ;;; loop attempts (Some e)
        else raise at_last in
      let t1 := t ++ [Request req] in
      match judge (session (n_requests t) req) with
      | Abort e => Some (Raise e, t1)
      | Retry e => next e t1
      | Accept id =>
          match constructor id t1 with
          | None => None
          | Some (Ok o, t2) => Some (Ok o, t2)
          | Some (Raise e, t2) =>
              if caught_by_create e then next e t2 else Some (Raise e, t2)
          end
      end.

(** After [m] failed rounds the loop stands before round [m + 1], having
    slept after each of them. *)
Lemma rounds_skip (m : nat) :
  forall (done left : nat) (last_exception : option exn) (t : trace),
    (m < left)%nat -> (done + left = 5)%nat ->
    (forall i, (i < m)%nat ->
               exists e, judge (session (n_requests t + i)%nat req) = Retry e) ->
    exists last_exception',
      loop (map Z.of_nat (seq done left)) last_exception
           (t ++ pause_events create_pause done)
      = loop (map Z.of_nat (seq (done + m) (left - m))) last_exception'
             ((t ++ schedule create_pause req done m)
                ++ pause_events create_pause (done + m)).
Proof.
  induction m as [|m IH]; intros done left le t Hm Hsum Hbefore.
  - exists le. rewrite Nat.add_0_r, Nat.sub_0_r. cbn [schedule].
    rewrite app_nil_r. reflexivity.
  - destruct left as [|left]; [lia|].
    cbn [seq map]. rewrite loop_round. cbv zeta.
    rewrite n_requests_app, n_requests_pause, Nat.add_0_r.
    destruct (Hbefore 0%nat) as [e He]; [lia|].
    rewrite Nat.add_0_r in He. rewrite He.
    replace (Z.of_nat done <? DEFAULT_RETRY_COUNT - 1) with true
      by (symmetry; apply Z.ltb_lt; unfold DEFAULT_RETRY_COUNT; lia).
    unfold bind, sleep, emit.
    destruct (IH (S done) left (Some e)
                 ((t ++ pause_events create_pause done) ++ [Request req]))
      as [le' Hle']; [lia | lia | |].
    { intros i Hi. destruct (Hbefore (S i)) as [e' He']; [lia|].
      exists e'. rewrite <- He'. f_equal. f_equal.
      rewrite !n_requests_app, n_requests_pause. cbn [n_requests]. lia. }
    exists le'.
    change [Sleep (create_backoff_time (Z.of_nat done))]
      with (pause_events create_pause (S done)).
    rewrite Hle'. cbn [Nat.sub schedule].
    rewrite Nat.add_succ_r. cbn [Nat.add].
    f_equal. rewrite <- !app_assoc. reflexivity.
Qed.

(** The loop of a call, from its start to round [m + 1]. *)
Lemma rounds_before (m : nat) :
  (m < 5)%nat ->
  (forall i, (i < m)%nat -> exists e, judge (session i req) = Retry e) ->
  exists last_exception,
    loop (map Z.of_nat (seq 0 5)) None []
    = loop (Z.of_nat m :: map Z.of_nat (seq (S m) (4 - m))) last_exception
           (schedule create_pause req 0 m ++ pause_events create_pause m)
    /\ schedule create_pause req 0 (S m)
       = (schedule create_pause req 0 m ++ pause_events create_pause m)
           ++ [Request req]
    /\ n_requests (schedule create_pause req 0 m ++ pause_events create_pause m)
       = m.
Proof.
  intros Hm Hbefore.
  destruct (rounds_skip m 0 5 None [] Hm eq_refl Hbefore) as [le Hle].
  exists le. split; [|split].
  - change (([] : trace) ++ pause_events create_pause 0) with ([] : trace) in Hle.
    rewrite Hle. cbn [Nat.add app].
    replace (5 - m)%nat with (S (4 - m)) by lia. reflexivity.
  - apply (schedule_snoc create_pause req 0 m).
  - rewrite n_requests_app, n_requests_schedule, n_requests_pause. lia.
Qed.

Lemma rounds_abort (m : nat) (e : exn) :
  (m < 5)%nat ->
  (forall i, (i < m)%nat -> exists e', judge (session i req) = Retry e') ->
  judge (session m req) = Abort e ->
  loop (map Z.of_nat (seq 0 5)) None []
  = Some (Raise e, schedule create_pause req 0 (S m)).
Proof.
  intros Hm Hbefore Hab.
  destruct (rounds_before m Hm Hbefore) as (le & -> & -> & Hn).
  rewrite loop_round. cbv zeta. rewrite Hn, Hab. reflexivity.
Qed.

(** An accepted round hands the id to the constructor, right after the
    request of the round; unless the constructor raises one of the classes
    that the loop catches, its outcome is the outcome of the call. *)
Lemma rounds_accept (m : nat) (id : json) (r : result pyobj) (t : trace) :
  (m < 5)%nat ->
  (forall i, (i < m)%nat -> exists e, judge (session i req) = Retry e) ->
  judge (session m req) = Accept id ->
  constructor id (schedule create_pause req 0 (S m)) = Some (r, t) ->
  (forall e, r = Raise e -> caught_by_create e = false) ->
  loop (map Z.of_nat (seq 0 5)) None [] = Some (r, t).
Proof.
  intros Hm Hbefore Hacc Hcon Hun.
  destruct (rounds_before m Hm Hbefore) as (le & -> & Hsnoc & Hn).
  rewrite loop_round. cbv zeta. rewrite Hn, Hacc, <- Hsnoc, Hcon.
  destruct r as [o|e]; [reflexivity|].
  rewrite (Hun e eq_refl). reflexivity.
Qed.

Lemma rounds_exhaust :
  (forall i, (i < 5)%nat -> exists e, judge (session i req) = Retry e) ->
  loop (map Z.of_nat (seq 0 5)) None []
  = Some (Raise at_last, schedule create_pause req 0 5).
Proof.
  intros Hall.
  destruct (rounds_before 4) as (le & -> & -> & Hn);
    [lia | intros i Hi; apply Hall; lia |].
  rewrite loop_round. cbv zeta. rewrite Hn.
  destruct (Hall 4%nat) as [e He]; [lia|]. rewrite He. reflexivity.
Qed.

(** With a constructor that ends, the loop ends, and its first event is
    the request of its first round. *)
Lemma rounds_proper :
  (forall id, proper (constructor id)) ->
  forall attempts last_exception t,
  exists r ev,
    loop attempts last_exception t
    = Some (r, t ++ match attempts with
                    | [] => ev
                    | _ :: _ => Request req :: ev
                    end).
Proof.
  intros Hproper attempts.
  induction attempts as [|attempt attempts IH]; intros le t.
  - exists (Raise RuntimeError), []. rewrite loop_nil, app_nil_r. reflexivity.
  - rewrite loop_round. cbv zeta.
    assert (Hnext :
              forall e t1,
              exists r ev,
                (if attempt <? DEFAULT_RETRY_COUNT - 1
                 then sleep (create_backoff_time attempt) ;;;
                      loop attempts (Some e)
                 else raise at_last) t1
                = Some (r, t1 ++ ev)).
    { intros e t1. destruct (attempt <? DEFAULT_RETRY_COUNT - 1).
      - unfold bind, sleep, emit.
        destruct (IH (Some e) (t1 ++ [Sleep (create_backoff_time attempt)]))
          as (r & ev & Hr).
        rewrite Hr.
        exists r. eexists. rewrite <- app_assoc. reflexivity.
      - exists (Raise at_last), []. rewrite app_nil_r. reflexivity. }
    destruct (judge (session (n_requests t) req)) as [id|e|e].
    + destruct (Hproper id (t ++ [Request req])) as (r & ev1 & Hcon).
      rewrite Hcon. destruct r as [o|e].
      * exists (Ok o), ev1. rewrite <- app_assoc. reflexivity.
      * destruct (caught_by_create e).
        -- destruct (Hnext e ((t ++ [Request req]) ++ ev1)) as (r & ev & Hr).
           rewrite Hr. exists r, (ev1 ++ ev).
           rewrite <- !app_assoc. reflexivity.
        -- exists (Raise e), ev1. rewrite <- app_assoc. reflexivity.
    + destruct (Hnext e (t ++ [Request req])) as (r & ev & Hr).
      rewrite Hr. exists r, ev. rewrite <- app_assoc. reflexivity.
    + exists (Raise e), []. reflexivity.
Qed.

(** With such a constructor, [m < 5] failed rounds are followed by round
    [m + 1]. *)
Lemma rounds_go_on (m : nat) :
  (forall id, proper (constructor id)) ->
  (m < 5)%nat ->
  (forall i, (i < m)%nat -> exists e, judge (session i req) = Retry e) ->
  exists r ev,
    loop (map Z.of_nat (seq 0 5)) None []
    = Some (r, schedule create_pause req 0 (S m) ++ ev).
Proof.
  intros Hproper Hm Hbefore.
  destruct (rounds_before m Hm Hbefore) as (le & -> & -> & _).
  destruct (rounds_proper
              Hproper (Z.of_nat m :: map Z.of_nat (seq (S m) (4 - m))) le
              (schedule create_pause req 0 m ++ pause_events create_pause m))
    as (r & ev & Hr).
  exists r, ev. rewrite Hr, <- !app_assoc. reflexivity.
Qed.

(** An error that leaves the loop is the one raised on exhaustion, the
    error of a round that aborts, or an error of the constructor that the
    [except] clauses do not name. *)
Lemma rounds_raise (left : nat) :
  forall (done : nat) (last_exception : option exn) (t t' : trace) (e : exn),
    (1 <= left)%nat -> (done + left = 5)%nat ->
    loop (map Z.of_nat (seq done left)) last_exception t
    = Some (Raise e, t') ->
    e = at_last
    \/ (exists r, judge r = Abort e)
    \/ caught_by_create e = false.
Proof.
  induction left as [|left IH]; intros done le t t' e Hleft Hsum; [lia|].
  cbn [seq map]. rewrite loop_round. cbv zeta.
  assert (Hnext :
            forall e0 t1,
              (if Z.of_nat done <? DEFAULT_RETRY_COUNT - 1
               then sleep (create_backoff_time (Z.of_nat done)) ;;;
                    loop (map Z.of_nat (seq (S done) left)) (Some e0)
               else raise at_last) t1
              = Some (Raise e, t') ->
              e = at_last
              \/ (exists r, judge r = Abort e)
              \/ caught_by_create e = false).
  { intros e0 t1.
    destruct (Z.of_nat done <? DEFAULT_RETRY_COUNT - 1) eqn:Hlt.
    - apply Z.ltb_lt in Hlt. unfold DEFAULT_RETRY_COUNT in Hlt.
      unfold bind, sleep, emit. apply IH; lia.
    - intros [= <- _]. left. reflexivity. }
  destruct (judge (session (n_requests t) req)) as [id|e0|e0] eqn:Hj.
  - destruct (constructor id (t ++ [Request req])) as [[[o|e1] t2]|];
      try discriminate.
    destruct (caught_by_create e1) eqn:Hcaught.
    + apply Hnext.
    + intros [= <- _]. right. right. exact Hcaught.
  - apply Hnext.
  - intros [= <- _]. right. left. eexists. exact Hj.
Qed.

End Rounds.

(** ** What a run of the engine implies *)

Section RunFacts.

Variable session : nat -> request -> reply.
Context {A : Type}.
Variable judge : reply -> verdict A.
Variable pause : nat -> option Q.
Variable exhausted : exn -> exn.
Variable req : request.
Variables (n0 done left : nat) (o : result A) (t : trace).
Hypothesis Hrun : engine_run session judge pause exhausted req n0 done left o t.

Lemma run_attempts : (1 <= n_requests t <= left)%nat.
Proof.
  destruct Hrun as (k & Hk & -> & _).
  rewrite n_requests_schedule. exact Hk.
Qed.

(** An aborting attempt is the last one, and its error is the result. *)
Lemma run_abort (m : nat) (e : exn) :
  (1 <= m <= n_requests t)%nat ->
  judge (session (n0 + (m - 1))%nat req) = Abort e ->
  o = Raise e /\ n_requests t = m.
Proof.
  destruct Hrun as (k & Hk & -> & Hretry & Hlast).
  rewrite n_requests_schedule. intros Hm Hab.
  assert (m = k) as ->.
  { destruct (Nat.eq_dec m k) as [|Hne]; [assumption|].
    destruct (Hretry (m - 1)%nat) as [e' He']; [lia|]. congruence. }
  rewrite Hab in Hlast. split; [exact Hlast | reflexivity].
Qed.

(** The run is as long as the first attempt that is not judged [Retry]. *)
Lemma run_length (m : nat) :
  (1 <= m <= left)%nat ->
  (forall i, (i < m - 1)%nat ->
             exists e, judge (session (n0 + i)%nat req) = Retry e) ->
  (forall e, judge (session (n0 + (m - 1))%nat req) <> Retry e) ->
  n_requests t = m.
Proof.
  destruct Hrun as (k & Hk & -> & Hretry & Hlast).
  rewrite n_requests_schedule. intros Hm Hbefore Hstop.
  destruct (Nat.lt_trichotomy k m) as [Hlt|[Heq|Hgt]]; [|exact Heq|].
  - destruct (Hbefore (k - 1)%nat) as [e He]; [lia|].
    rewrite He in Hlast. lia.
  - destruct (Hretry (m - 1)%nat) as [e He]; [lia|].
    exfalso. exact (Hstop e He).
Qed.

(** When every attempt of the budget is judged [Retry], the budget is
    used up and the run raises. *)
Lemma run_all_retry :
  (forall i, (i < left)%nat ->
             exists e, judge (session (n0 + i)%nat req) = Retry e) ->
  n_requests t = left /\ exists e, o = Raise (exhausted e).
Proof.
  destruct Hrun as (k & Hk & -> & Hretry & Hlast).
  rewrite n_requests_schedule. intros Hall.
  destruct (Hall (k - 1)%nat) as [e He]; [lia|].
  rewrite He in Hlast. destruct Hlast as [-> ->].
  split; [reflexivity | exists e; reflexivity].
Qed.

(** A run in which no attempt aborts raises only on exhaustion. *)
Lemma run_raise_exhausted :
  (forall i e, (i < left)%nat ->
               judge (session (n0 + i)%nat req) <> Abort e) ->
  forall e, o = Raise e -> n_requests t = left.
Proof.
  destruct Hrun as (k & Hk & -> & Hretry & Hlast).
  rewrite n_requests_schedule. intros Hno e ->.
  destruct (judge (session (n0 + (k - 1))%nat req)) as [a|e'|e'] eqn:Hj.
  - discriminate.
  - apply Hlast.
  - exfalso. apply (Hno (k - 1)%nat e'); [lia | exact Hj].
Qed.

(** When the first [m] attempts are judged [Retry] and the budget is not
    used up, attempt [m + 1] is made: the run starts with the schedule of
    [m + 1] attempts. *)
Lemma run_goes_on (m : nat) :
  (m < left)%nat ->
  (forall i, (i < m)%nat ->
             exists e, judge (session (n0 + i)%nat req) = Retry e) ->
  exists ev, t = schedule pause req done (S m) ++ ev.
Proof.
  destruct Hrun as (k & Hk & -> & Hretry & Hlast). intros Hm Hbefore.
  assert (Hlen : (S m <= k)%nat).
  { destruct (Nat.le_gt_cases (S m) k) as [|Hlt]; [assumption|].
    destruct (Hbefore (k - 1)%nat) as [e He]; [lia|].
    rewrite He in Hlast. lia. }
  exists (schedule pause req (done + S m) (k - S m)).
  rewrite <- schedule_app. f_equal. lia.
Qed.

(** The first attempt that is not judged [Retry] ends the run: its
    request is the last event. *)
Lemma run_stops (m : nat) :
  (m < left)%nat ->
  (forall i, (i < m)%nat ->
             exists e, judge (session (n0 + i)%nat req) = Retry e) ->
  (forall e, judge (session (n0 + m)%nat req) <> Retry e) ->
  t = schedule pause req done (S m)
  /\ match judge (session (n0 + m)%nat req) with
     | Accept a => o = Ok a
     | Abort e => o = Raise e
     | Retry _ => True
     end.
Proof.
  intros Hm Hbefore Hstop.
  assert (Hn : n_requests t = S m).
  { apply (run_length (S m)); [lia | |].
    - intros i Hi. apply Hbefore. lia.
    - replace (S m - 1)%nat with m by lia. exact Hstop. }
  destruct Hrun as (k & Hk & -> & Hretry & Hlast).
  rewrite n_requests_schedule in Hn. subst k.
  split; [reflexivity|].
  replace (S m - 1)%nat with m in Hlast by lia.
  destruct (judge (session (n0 + m)%nat req));
    [exact Hlast | exact I | exact Hlast].
Qed.

(** When every attempt of the budget is judged [Retry], the run is the
    schedule of the whole budget and raises. *)
Lemma run_exhausts :
  (forall i, (i < left)%nat ->
             exists e, judge (session (n0 + i)%nat req) = Retry e) ->
  t = schedule pause req done left /\ exists e, o = Raise (exhausted e).
Proof.
  intros Hall. destruct (run_all_retry Hall) as [Hn He].
  destruct Hrun as (k & Hk & -> & _).
  rewrite n_requests_schedule in Hn. subst k. split; [reflexivity | exact He].
Qed.

End RunFacts.

(** ** The two backoff formulas of the source and the unified one *)

Lemma fetch_pause_events_unified (made : nat) :
  pause_events fetch_pause made = pause_events unified_pause made.
Proof.
  unfold pause_events, fetch_pause, unified_pause, fetch_backoff_time,
    unified_delay.
  destruct made as [|made]; [reflexivity|].
  replace (1 <? Z.of_nat (S made) + 1) with true
    by (symmetry; apply Z.ltb_lt; lia).
  replace (Z.of_nat (S made) + 1 - 2) with (Z.of_nat (S made) - 1) by lia.
  reflexivity.
Qed.

Lemma create_pause_events_unified (made : nat) :
  pause_events create_pause made = pause_events unified_pause made.
Proof.
  unfold pause_events, create_pause, unified_pause, create_backoff_time,
    unified_delay.
  destruct made as [|made]; [reflexivity|].
  replace (Z.of_nat (S made) - 1) with (Z.of_nat made) by lia.
  reflexivity.
Qed.

Lemma schedule_pause_ext (pause pause' : nat -> option Q) (req : request)
      (done k : nat) :
  (forall made, pause_events pause made = pause_events pause' made) ->
  schedule pause req done k = schedule pause' req done k.
Proof.
  intros Hext. revert done.
  induction k as [|k IH]; intros done; [reflexivity|].
  cbn [schedule]. rewrite Hext, IH. reflexivity.
Qed.

(** Both variants produce the trace of the unified backoff. *)
Lemma fetch_schedule_unified (req : request) (k : nat) :
  schedule fetch_pause req 0 k = backoff_trace req k.
Proof. apply schedule_pause_ext, fetch_pause_events_unified. Qed.

Lemma create_schedule_unified (req : request) (k : nat) :
  schedule create_pause req 0 k = backoff_trace req k.
Proof. apply schedule_pause_ext, create_pause_events_unified. Qed.

Lemma plain_schedule (req : request) (done k : nat) :
  schedule no_pause req done k = plain_trace req k.
Proof.
  unfold plain_trace. revert done.
  induction k as [|k IH]; intros done; [reflexivity|].
  cbn [schedule repeat]. rewrite IH. reflexivity.
Qed.

(** ** The operations as runs of the engine *)

Section Operations.

Variable session : nat -> request -> reply.
Variable api_root : string.

Lemma fetch_resource_data_engine (uri : string) (params : json) (t : trace) :
  fetch_resource_data session api_root uri params t
  = Some (retry_engine session fetch_judge fetch_pause (fun e => e)
                       (fetch_request api_root uri params) 5 0 t).
Proof.
  unfold fetch_resource_data, fetch_request.
  apply (fetch_loop_engine session _ params 5 0 5 t); lia.
Qed.

Lemma fetch_resource_data_run (uri : string) (params : json) :
  exists o t,
    run (fetch_resource_data session api_root uri params) = Some (o, t)
    /\ engine_run session fetch_judge fetch_pause (fun e => e)
                  (fetch_request api_root uri params) 0 0 5 o t.
Proof.
  unfold run. rewrite fetch_resource_data_engine.
  destruct (retry_engine_run session fetch_judge fetch_pause (fun e => e)
              (fetch_request api_root uri params) 5 0 [])
    as (t' & Ht & Hrun); [lia|].
  destruct (retry_engine _ _ _ _ _ _ _ _) as [o t].
  cbn [fst snd app] in *. subst t'.
  exists o, t. split; [reflexivity | exact Hrun].
Qed.

(** The loop shared by [create_user] and [create_sigmarule]. *)
Lemma post_until_objects_run (url : string) (form_data : json) :
  exists o t,
    post_until_objects session 5 url form_data 0 [] = Some (o, t)
    /\ engine_run session objects_judge no_pause (fun _ => RuntimeError)
                  (mkRequest POST url form_data) 0 0 5 o t.
Proof.
  pose proof (post_until_objects_engine session url form_data 5 0 5 [])
    as Heng.
  cbn [Z.of_nat] in Heng. rewrite Heng by lia.
  destruct (retry_engine_run session objects_judge no_pause
              (fun _ => RuntimeError) (mkRequest POST url form_data) 5 0 [])
    as (t' & Ht & Hrun); [lia|].
  destruct (retry_engine _ _ _ _ _ _ _ _) as [o t].
  cbn [fst snd app] in *. subst t'.
  exists o, t. split; [reflexivity | exact Hrun].
Qed.

(** [create_user] is its loop followed by the indexing of ["objects"] and
    the call of the constructor. *)
Lemma create_user_after_loop (user_User : json -> M pyobj)
      (username password : string) (o : result json) (t : trace) :
  post_until_objects session 5 (api_root +s "/users/")
                     (payload (create_user_request api_root username password))
                     0 []
  = Some (o, t) ->
  run (create_user session api_root user_User username password)
  = match o with
    | Raise e => Some (Raise e, t)
    | Ok objects =>
        (first <- lift (Py.getitem0 objects) ;;
         user_id <- lift (Py.getitem first "id") ;;
         user_User user_id) t
    end.
Proof.
  intros Hloop. unfold run, create_user, create_user_loop.
  change (Z.to_nat DEFAULT_RETRY_COUNT) with 5%nat.
  cbn [payload create_user_request] in Hloop.
  unfold bind at 1. rewrite Hloop. destruct o; reflexivity.
Qed.

Lemma create_sigmarule_after_loop (from_rule_uuid : json -> M json)
      (rule_yaml : string) (o : result json) (t : trace) :
  post_until_objects session 5 (api_root +s "/sigmarules/")
                     (payload (create_sigmarule_request api_root rule_yaml))
                     0 []
  = Some (o, t) ->
  run (create_sigmarule session api_root from_rule_uuid rule_yaml)
  = match o with
    | Raise e => Some (Raise e, t)
    | Ok objects =>
        (first <- lift (Py.getitem0 objects) ;;
         rule_uuid <- lift (Py.getitem first "rule_uuid") ;;
         get_sigmarule from_rule_uuid rule_uuid) t
    end.
Proof.
  intros Hloop. unfold run, create_sigmarule, create_sigmarule_loop.
  change (Z.to_nat DEFAULT_RETRY_COUNT) with 5%nat.
  cbn [payload create_sigmarule_request] in Hloop.
  unfold bind at 1. rewrite Hloop. destruct o; reflexivity.
Qed.

(** [create_sigmarule] does not reach [from_rule_uuid] when its loop
    raises. *)
Lemma create_sigmarule_loop_raises
      (from_rule_uuid : json -> M json) (rule_yaml : string)
      (e : exn) (t : trace) :
  post_until_objects session 5 (api_root +s "/sigmarules/")
                     (JDict [("rule_yaml", JStr rule_yaml)]) 0 []
  = Some (Raise e, t) ->
  run (create_sigmarule session api_root from_rule_uuid rule_yaml)
  = Some (Raise e, t).
Proof.
  intros Hloop. unfold run, create_sigmarule, create_sigmarule_loop.
  change (Z.to_nat DEFAULT_RETRY_COUNT) with 5%nat.
  unfold bind at 1. rewrite Hloop. reflexivity.
Qed.

(** [create_sketch] with a name, and [create_searchindex], are their
    loops over the attempts 0 to 4. *)
Lemma create_sketch_is_loop (sketch_Sketch : json -> M pyobj)
      (name : string) (description : option string) :
  name <> "" ->
  run (create_sketch session api_root sketch_Sketch name description)
  = create_sketch_loop
      session sketch_Sketch (map Z.of_nat (seq 0 5))
      (url (create_sketch_request api_root name description))
      (payload (create_sketch_request api_root name description)) None [].
Proof.
  intros Hname. unfold run, create_sketch, Py.str_empty.
  destruct (String.eqb_spec name "") as [|_]; [contradiction|].
  reflexivity.
Qed.

Lemma create_searchindex_is_loop (index_SearchIndex : json -> M pyobj)
      (searchindex_name opensearch_index_name : string) :
  run (create_searchindex session api_root index_SearchIndex searchindex_name
                          opensearch_index_name)
  = create_searchindex_loop
      session index_SearchIndex (map Z.of_nat (seq 0 5))
      (url (create_searchindex_request api_root searchindex_name
                                       opensearch_index_name))
      (payload (create_searchindex_request api_root searchindex_name
                                           opensearch_index_name)) None [].
Proof. reflexivity. Qed.

End Operations.

(** ** Runs of [create_sketch] and [create_searchindex] *)

Section CreateRuns.

Variable session : nat -> request -> reply.
Variable api_root : string.
Variable sketch_Sketch : json -> M pyobj.
Variable index_SearchIndex : json -> M pyobj.

Section Sketch.

Variable name : string.
Variable description : option string.
Hypothesis name_given : name <> "".

Lemma create_sketch_aborts (m : nat) (e : exn) :
  (m < 5)%nat ->
  first_attempts session (create_sketch_request api_root name description) m
                 (fun r => exists e', create_sketch_judge r = Retry e') ->
  create_sketch_judge
    (session m (create_sketch_request api_root name description))
  = Abort e ->
  run (create_sketch session api_root sketch_Sketch name description)
  = Some (Raise e,
          backoff_trace (create_sketch_request api_root name description)
                        (S m)).
Proof.
  intros Hm Hbefore Hab.
  rewrite (create_sketch_is_loop _ _ _ _ _ name_given).
  rewrite <- create_schedule_unified.
  exact (rounds_abort
           session _ create_sketch_judge sketch_Sketch RuntimeError
           (fun attempts last_exception =>
              create_sketch_loop session sketch_Sketch attempts _ _
                                 last_exception)
           (create_sketch_round session sketch_Sketch _ _)
           m e Hm Hbefore Hab).
Qed.

Lemma create_sketch_accepts (m : nat) (sketch_id : json)
      (r : result pyobj) (t : trace) :
  (m < 5)%nat ->
  first_attempts session (create_sketch_request api_root name description) m
                 (fun r => exists e, create_sketch_judge r = Retry e) ->
  create_sketch_judge
    (session m (create_sketch_request api_root name description))
  = Accept sketch_id ->
  sketch_Sketch sketch_id
                (backoff_trace
                   (create_sketch_request api_root name description) (S m))
  = Some (r, t) ->
  (forall e, r = Raise e -> caught_by_create e = false) ->
  run (create_sketch session api_root sketch_Sketch name description)
  = Some (r, t).
Proof.
  intros Hm Hbefore Hacc Hcon Hun.
  rewrite (create_sketch_is_loop _ _ _ _ _ name_given).
  rewrite <- create_schedule_unified in Hcon.
  exact (rounds_accept
           session _ create_sketch_judge sketch_Sketch RuntimeError
           (fun attempts last_exception =>
              create_sketch_loop session sketch_Sketch attempts _ _
                                 last_exception)
           (create_sketch_round session sketch_Sketch _ _)
           m sketch_id r t Hm Hbefore Hacc Hcon Hun).
Qed.

Lemma create_sketch_exhausted :
  first_attempts session (create_sketch_request api_root name description) 5
                 (fun r => exists e, create_sketch_judge r = Retry e) ->
  run (create_sketch session api_root sketch_Sketch name description)
  = Some (Raise RuntimeError,
          backoff_trace (create_sketch_request api_root name description) 5).
Proof.
  intros Hall.
  rewrite (create_sketch_is_loop _ _ _ _ _ name_given).
  rewrite <- create_schedule_unified.
  exact (rounds_exhaust
           session _ create_sketch_judge sketch_Sketch RuntimeError
           (fun attempts last_exception =>
              create_sketch_loop session sketch_Sketch attempts _ _
                                 last_exception)
           (create_sketch_round session sketch_Sketch _ _)
           Hall).
Qed.

Lemma create_sketch_goes_on (m : nat) :
  (forall id, proper (sketch_Sketch id)) ->
  (m < 5)%nat ->
  first_attempts session (create_sketch_request api_root name description) m
                 (fun r => exists e, create_sketch_judge r = Retry e) ->
  exists o ev,
    run (create_sketch session api_root sketch_Sketch name description)
    = Some (o,
            backoff_trace (create_sketch_request api_root name description)
                          (S m) ++ ev).
Proof.
  intros Hproper Hm Hbefore.
  rewrite (create_sketch_is_loop _ _ _ _ _ name_given).
  rewrite <- create_schedule_unified.
  exact (rounds_go_on
           session _ create_sketch_judge sketch_Sketch RuntimeError
           (fun attempts last_exception =>
              create_sketch_loop session sketch_Sketch attempts _ _
                                 last_exception)
           (fun _ _ => eq_refl)
           (create_sketch_round session sketch_Sketch _ _)
           m Hproper Hm Hbefore).
Qed.

End Sketch.

Section SearchIndex.

Variable searchindex_name : string.
Variable opensearch_index_name : string.

Lemma create_searchindex_aborts (m : nat) (e : exn) :
  (m < 5)%nat ->
  first_attempts session
                 (create_searchindex_request api_root searchindex_name
                                             opensearch_index_name) m
                 (fun r => exists e', create_searchindex_judge r = Retry e') ->
  create_searchindex_judge
    (session m (create_searchindex_request api_root searchindex_name
                                           opensearch_index_name))
  = Abort e ->
  run (create_searchindex session api_root index_SearchIndex searchindex_name
                          opensearch_index_name)
  = Some (Raise e,
          backoff_trace (create_searchindex_request api_root searchindex_name
                                                    opensearch_index_name)
                        (S m)).
Proof.
  intros Hm Hbefore Hab.
  rewrite create_searchindex_is_loop.
  rewrite <- create_schedule_unified.
  exact (rounds_abort
           session _ create_searchindex_judge index_SearchIndex ValueError
           (fun attempts last_exception =>
              create_searchindex_loop session index_SearchIndex attempts _ _
                                      last_exception)
           (create_searchindex_round session index_SearchIndex _ _)
           m e Hm Hbefore Hab).
Qed.

Lemma create_searchindex_accepts (m : nat) (searchindex_id : json)
      (r : result pyobj) (t : trace) :
  (m < 5)%nat ->
  first_attempts session
                 (create_searchindex_request api_root searchindex_name
                                             opensearch_index_name) m
                 (fun r => exists e, create_searchindex_judge r = Retry e) ->
  create_searchindex_judge
    (session m (create_searchindex_request api_root searchindex_name
                                           opensearch_index_name))
  = Accept searchindex_id ->
  index_SearchIndex searchindex_id
                    (backoff_trace
                       (create_searchindex_request api_root searchindex_name
                                                   opensearch_index_name)
                       (S m))
  = Some (r, t) ->
  (forall e, r = Raise e -> caught_by_create e = false) ->
  run (create_searchindex session api_root index_SearchIndex searchindex_name
                          opensearch_index_name)
  = Some (r, t).
Proof.
  intros Hm Hbefore Hacc Hcon Hun.
  rewrite create_searchindex_is_loop.
  rewrite <- create_schedule_unified in Hcon.
  exact (rounds_accept
           session _ create_searchindex_judge index_SearchIndex ValueError
           (fun attempts last_exception =>
              create_searchindex_loop session index_SearchIndex attempts _ _
                                      last_exception)
           (create_searchindex_round session index_SearchIndex _ _)
           m searchindex_id r t Hm Hbefore Hacc Hcon Hun).
Qed.

Lemma create_searchindex_exhausted :
  first_attempts session
                 (create_searchindex_request api_root searchindex_name
                                             opensearch_index_name) 5
                 (fun r => exists e, create_searchindex_judge r = Retry e) ->
  run (create_searchindex session api_root index_SearchIndex searchindex_name
                          opensearch_index_name)
  = Some (Raise ValueError,
          backoff_trace (create_searchindex_request api_root searchindex_name
                                                    opensearch_index_name) 5).
Proof.
  intros Hall.
  rewrite create_searchindex_is_loop.
  rewrite <- create_schedule_unified.
  exact (rounds_exhaust
           session _ create_searchindex_judge index_SearchIndex ValueError
           (fun attempts last_exception =>
              create_searchindex_loop session index_SearchIndex attempts _ _
                                      last_exception)
           (create_searchindex_round session index_SearchIndex _ _)
           Hall).
Qed.

Lemma create_searchindex_goes_on (m : nat) :
  (forall id, proper (index_SearchIndex id)) ->
  (m < 5)%nat ->
  first_attempts session
                 (create_searchindex_request api_root searchindex_name
                                             opensearch_index_name) m
                 (fun r => exists e, create_searchindex_judge r = Retry e) ->
  exists o ev,
    run (create_searchindex session api_root index_SearchIndex searchindex_name
                            opensearch_index_name)
    = Some (o,
            backoff_trace (create_searchindex_request
                             api_root searchindex_name opensearch_index_name)
                          (S m) ++ ev).
Proof.
  intros Hproper Hm Hbefore.
  rewrite create_searchindex_is_loop.
  rewrite <- create_schedule_unified.
  exact (rounds_go_on
           session _ create_searchindex_judge index_SearchIndex ValueError
           (fun attempts last_exception =>
              create_searchindex_loop session index_SearchIndex attempts _ _
                                      last_exception)
           (fun _ _ => eq_refl)
           (create_searchindex_round session index_SearchIndex _ _)
           m Hproper Hm Hbefore).
Qed.

End SearchIndex.

End CreateRuns.

(** ** Runs of [fetch_resource_data] and of the loop of [create_user] and
    [create_sigmarule], by the replies they get *)

Section EngineRuns.

Variable session : nat -> request -> reply.
Context {A : Type}.
Variable judge : reply -> verdict A.
Variable pause : nat -> option Q.
Variable exhausted : exn -> exn.
Variable req : request.
Variable m : nat.
Hypothesis in_budget : (m < 5)%nat.
Hypothesis failed_before :
  first_attempts session req m (fun r => exists e, judge r = Retry e).

Lemma engine_goes_on :
  exists o ev,
    retry_engine session judge pause exhausted req 5 0 []
    = (o, schedule pause req 0 (S m) ++ ev).
Proof.
  destruct (retry_engine_run session judge pause exhausted req 5 0 [])
    as (t & Ht & Hrun); [lia|].
  destruct (run_goes_on _ _ _ _ _ _ _ _ _ _ Hrun m in_budget failed_before)
    as [ev Hev].
  destruct (retry_engine _ _ _ _ _ _ _ _) as [o t'].
  cbn [fst snd app] in *. subst t' t. exists o, ev. reflexivity.
Qed.


Lemma engine_aborts (e : exn) :
  judge (session m req) = Abort e ->
  retry_engine session judge pause exhausted req 5 0 []
  = (Raise e, schedule pause req 0 (S m)).
Proof.
  intros Hab.
  destruct (retry_engine_run session judge pause exhausted req 5 0 [])
    as (t & Ht & Hrun); [lia|].
  destruct (run_stops _ _ _ _ _ _ _ _ _ _ Hrun m in_budget failed_before)
    as [Hsched Hres].
  { intros e'. cbn [Nat.add n_requests]. rewrite Hab. discriminate. }
  cbn [Nat.add n_requests] in Hres. rewrite Hab in Hres.
  destruct (retry_engine _ _ _ _ _ _ _ _) as [o t'].
  cbn [fst snd app] in *. subst. reflexivity.
Qed.

End EngineRuns.

Lemma engine_exhausts (session : nat -> request -> reply) {A : Type}
      (judge : reply -> verdict A) (pause : nat -> option Q)
      (exhausted : exn -> exn) (req : request) :
  first_attempts session req 5 (fun r => exists e, judge r = Retry e) ->
  exists e,
    judge (session 4%nat req) = Retry e
    /\ retry_engine session judge pause exhausted req 5 0 []
       = (Raise (exhausted e), schedule pause req 0 5).
Proof.
  intros Hall.
  destruct (retry_engine_run session judge pause exhausted req 5 0 [])
    as (t & Ht & Hrun); [lia|].
  destruct (run_exhausts _ _ _ _ _ _ _ _ _ _ Hrun Hall) as [Hsched _].
  destruct Hrun as (k & Hk & Hs & _ & Hlast).
  assert (k = 5%nat) as ->.
  { rewrite Hsched in Hs.
    apply (f_equal n_requests) in Hs.
    rewrite !n_requests_schedule in Hs. congruence. }
  cbn [Nat.add Nat.sub n_requests] in Hlast.
  destruct (Hall 4%nat) as [e He]; [lia|].
  rewrite He in Hlast. destruct Hlast as [_ Ho].
  exists e. split; [exact He|].
  destruct (retry_engine _ _ _ _ _ _ _ _) as [o t'].
  cbn [fst snd app] in *. subst. reflexivity.
Qed.

Section FetchRuns.

Variable session : nat -> request -> reply.
Variable api_root : string.
Variable uri : string.
Variable params : json.

Lemma fetch_goes_on (m : nat) :
  (m < 5)%nat ->
  first_attempts session (fetch_request api_root uri params) m
                 (fun r => exists e, fetch_judge r = Retry e) ->
  exists o ev,
    run (fetch_resource_data session api_root uri params)
    = Some (o, backoff_trace (fetch_request api_root uri params) (S m) ++ ev).
Proof.
  intros Hm Hbefore. unfold run. rewrite fetch_resource_data_engine.
  destruct (engine_goes_on session fetch_judge fetch_pause (fun e => e)
                           (fetch_request api_root uri params) m Hm Hbefore)
    as (o & ev & ->).
  exists o, ev. rewrite fetch_schedule_unified. reflexivity.
Qed.


Lemma fetch_exhausted :
  first_attempts session (fetch_request api_root uri params) 5
                 (fun r => exists e, fetch_judge r = Retry e) ->
  exists e,
    fetch_judge (session 4%nat (fetch_request api_root uri params)) = Retry e
    /\ run (fetch_resource_data session api_root uri params)
       = Some (Raise e, backoff_trace (fetch_request api_root uri params) 5).
Proof.
  intros Hall. unfold run. rewrite fetch_resource_data_engine.
  destruct (engine_exhausts session fetch_judge fetch_pause (fun e => e)
                            (fetch_request api_root uri params) Hall)
    as (e & He & ->).
  exists e. split; [exact He|].
  rewrite fetch_schedule_unified. reflexivity.
Qed.

End FetchRuns.

Section PostRuns.

Variable session : nat -> request -> reply.
Variable url : string.
Variable form_data : json.

Lemma post_goes_on (m : nat) :
  (m < 5)%nat ->
  first_attempts session (mkRequest POST url form_data) m
                 (fun r => exists e, objects_judge r = Retry e) ->
  exists o ev,
    post_until_objects session 5 url form_data 0 []
    = Some (o, plain_trace (mkRequest POST url form_data) (S m) ++ ev).
Proof.
  intros Hm Hbefore.
  pose proof (post_until_objects_engine session url form_data 5 0 5 [])
    as Heng.
  cbn [Z.of_nat] in Heng. rewrite Heng by lia.
  destruct (engine_goes_on session objects_judge no_pause
                           (fun _ => RuntimeError)
                           (mkRequest POST url form_data) m Hm Hbefore)
    as (o & ev & ->).
  exists o, ev. rewrite plain_schedule. reflexivity.
Qed.


Lemma post_aborted (m : nat) (e : exn) :
  (m < 5)%nat ->
  first_attempts session (mkRequest POST url form_data) m
                 (fun r => exists e', objects_judge r = Retry e') ->
  objects_judge (session m (mkRequest POST url form_data)) = Abort e ->
  post_until_objects session 5 url form_data 0 []
  = Some (Raise e, plain_trace (mkRequest POST url form_data) (S m)).
Proof.
  intros Hm Hbefore Hab.
  pose proof (post_until_objects_engine session url form_data 5 0 5 [])
    as Heng.
  cbn [Z.of_nat] in Heng. rewrite Heng by lia.
  rewrite (engine_aborts session objects_judge no_pause
                         (fun _ => RuntimeError)
                         (mkRequest POST url form_data) m Hm Hbefore e Hab).
  rewrite plain_schedule. reflexivity.
Qed.

Lemma post_exhausted :
  first_attempts session (mkRequest POST url form_data) 5
                 (fun r => exists e, objects_judge r = Retry e) ->
  post_until_objects session 5 url form_data 0 []
  = Some (Raise RuntimeError, plain_trace (mkRequest POST url form_data) 5).
Proof.
  intros Hall.
  pose proof (post_until_objects_engine session url form_data 5 0 5 [])
    as Heng.
  cbn [Z.of_nat] in Heng. rewrite Heng by lia.
  destruct (engine_exhausts session objects_judge no_pause
                            (fun _ => RuntimeError)
                            (mkRequest POST url form_data) Hall)
    as (e & _ & ->).
  rewrite plain_schedule. reflexivity.
Qed.

End PostRuns.

(** ** How the judgements relate to the failure kinds *)

Lemma fetch_judge_failure (r : reply) (k : failure_kind) :
  failure_of fetch_accepts r = Some k ->
  fetch_judge r = Retry (exn_of_failure k).
Proof.
  unfold failure_of, fetch_judge.
  destruct (delivery_of r) as [| | |j]; try (intros [= <-]; reflexivity).
  destruct (fetch_accepts j); [discriminate | intros [= <-]; reflexivity].
Qed.

Lemma fetch_judge_no_abort (r : reply) (e : exn) : fetch_judge r <> Abort e.
Proof.
  unfold fetch_judge.
  destruct (delivery_of r) as [| | |j]; try discriminate.
  destruct (fetch_accepts j); discriminate.
Qed.


Lemma create_sketch_judge_failure (r : reply) (k : failure_kind) :
  json_object_reply r = true ->
  failure_of create_accepts r = Some k ->
  k <> ConnectionFailure ->
  create_sketch_judge r = Retry (exn_of_failure k).
Proof.
  unfold json_object_reply, failure_of, create_sketch_judge.
  destruct (delivery_of r) as [| | |j]; intros Hobj Hk Hne;
    try (injection Hk as <-; try reflexivity; congruence).
  rewrite Hobj. destruct (create_accepts j); [discriminate|].
  injection Hk as <-. reflexivity.
Qed.

Lemma create_searchindex_judge_failure (r : reply) (k : failure_kind) :
  json_object_reply r = true ->
  failure_of create_accepts r = Some k ->
  create_searchindex_judge r = Retry (exn_of_failure k).
Proof.
  unfold json_object_reply, failure_of, create_searchindex_judge.
  destruct (delivery_of r) as [| | |j]; intros Hobj Hk;
    try (injection Hk as <-; reflexivity).
  rewrite Hobj. destruct (create_accepts j); [discriminate|].
  injection Hk as <-. reflexivity.
Qed.

Lemma objects_judge_rejected (r : reply) :
  json_object_reply r = true ->
  failure_of objects_accepts r = Some ValidationFailure ->
  objects_judge r = Retry RuntimeError.
Proof.
  unfold json_object_reply, failure_of, objects_judge, objects_accepts.
  destruct (delivery_of r) as [| | |j]; intros Hobj Hk; try discriminate.
  destruct j; try discriminate. cbn [objects_of] in *.
  destruct (Py.truthy _); [discriminate | reflexivity].
Qed.

Lemma objects_judge_failure (r : reply) (k : failure_kind) :
  failure_of objects_accepts r = Some k ->
  k <> ValidationFailure ->
  objects_judge r = Abort (exn_of_failure k).
Proof.
  unfold failure_of, objects_judge.
  destruct (delivery_of r) as [| | |j]; intros Hk Hne;
    try (injection Hk as <-; reflexivity).
  destruct (objects_accepts j); [discriminate|].
  injection Hk as <-. congruence.
Qed.

(** The conditions on replies, as judgements. *)

Lemma first_attempts_impl (session : nat -> request -> reply) (req : request)
      (m : nat) (P Q : reply -> Prop) :
  (forall r, P r -> Q r) ->
  first_attempts session req m P -> first_attempts session req m Q.
Proof. intros HPQ HP i Hi. apply HPQ, HP, Hi. Qed.

Lemma fetch_judge_transient (r : reply) :
  transient fetch_accepts r -> exists e, fetch_judge r = Retry e.
Proof.
  unfold transient. intros H.
  destruct (failure_of fetch_accepts r) as [k|] eqn:Hk; [|congruence].
  exists (exn_of_failure k). apply fetch_judge_failure. exact Hk.
Qed.


Lemma transient_answer_kind (r : reply) (k : failure_kind) :
  delivery_of r <> Unreachable ->
  failure_of create_accepts r = Some k ->
  k <> ConnectionFailure.
Proof.
  unfold failure_of. intros Hreach Hk ->.
  destruct (delivery_of r) as [| | |j]; try discriminate; [congruence|].
  destruct (create_accepts j); discriminate.
Qed.

Lemma create_sketch_judge_transient (r : reply) :
  transient_answer create_accepts r ->
  exists e, create_sketch_judge r = Retry e.
Proof.
  intros [[Hobj Hfail] Hreach].
  destruct (failure_of create_accepts r) as [k|] eqn:Hk; [|congruence].
  exists (exn_of_failure k).
  apply create_sketch_judge_failure; try assumption.
  exact (transient_answer_kind r k Hreach Hk).
Qed.

Lemma create_searchindex_judge_transient (r : reply) :
  transient_object create_accepts r ->
  exists e, create_searchindex_judge r = Retry e.
Proof.
  intros [Hobj Hfail].
  destruct (failure_of create_accepts r) as [k|] eqn:Hk; [|congruence].
  exists (exn_of_failure k).
  apply create_searchindex_judge_failure; assumption.
Qed.



Lemma objects_judge_transient (r : reply) :
  rejected_object objects_accepts r -> exists e, objects_judge r = Retry e.
Proof.
  intros [Hobj Hrej]. exists RuntimeError.
  apply objects_judge_rejected; assumption.
Qed.



(** ** The first attempt that is not retried, and the errors of the create
    operations *)

Lemma attempts_cases {A} (judge : reply -> verdict A)
      (session : nat -> request -> reply) (req : request) (n : nat) :
  first_attempts session req n (fun r => exists e, judge r = Retry e)
  \/ exists m,
      (m < n)%nat
      /\ first_attempts session req m (fun r => exists e, judge r = Retry e)
      /\ forall e, judge (session m req) <> Retry e.
Proof.
  induction n as [|n [Hall | (m & Hm & Hbefore & Hstop)]].
  - left. intros i Hi. lia.
  - destruct (judge (session n req)) as [a|e|e] eqn:Hj.
    + right. exists n. split; [lia|]. split; [exact Hall|].
      intros e. rewrite Hj. discriminate.
    + left. intros i Hi. destruct (Nat.eq_dec i n) as [->|Hne].
      * exists e. exact Hj.
      * apply Hall. lia.
    + right. exists n. split; [lia|]. split; [exact Hall|].
      intros e'. rewrite Hj. discriminate.
  - right. exists m. split; [lia|]. split; assumption.
Qed.

Section CreateErrors.

Variable session : nat -> request -> reply.
Variable api_root : string.

(** Whatever the constructor does, [create_sketch] never lets a
    [ValueError] out of its loop, and [create_searchindex] neither a
    [RuntimeError] nor a [ConnectionError]. *)
Lemma create_sketch_raises (sketch_Sketch : json -> M pyobj)
      (name : string) (description : option string) (e : exn) (t : trace) :
  name <> "" ->
  run (create_sketch session api_root sketch_Sketch name description)
  = Some (Raise e, t) ->
  e <> ValueError.
Proof.
  intros Hname. rewrite (create_sketch_is_loop _ _ _ _ _ Hname). intros Hrun.
  destruct (rounds_raise
              session _ create_sketch_judge sketch_Sketch RuntimeError
              (fun attempts last_exception =>
                 create_sketch_loop session sketch_Sketch attempts _ _
                                    last_exception)
              (create_sketch_round session sketch_Sketch _ _)
              5 0 None [] t e ltac:(lia) eq_refl Hrun)
    as [-> | [[r Hab] | Hun]].
  - discriminate.
  - intros ->. revert Hab. unfold create_sketch_judge.
    destruct (delivery_of r) as [| | |j]; try discriminate.
    destruct (Py.is_dict j); [|discriminate].
    destruct (create_accepts j); discriminate.
  - intros ->. discriminate.
Qed.

Lemma create_searchindex_raises (index_SearchIndex : json -> M pyobj)
      (searchindex_name opensearch_index_name : string)
      (e : exn) (t : trace) :
  run (create_searchindex session api_root index_SearchIndex searchindex_name
                          opensearch_index_name)
  = Some (Raise e, t) ->
  e <> RuntimeError /\ e <> ConnectionError.
Proof.
  rewrite create_searchindex_is_loop. intros Hrun.
  destruct (rounds_raise
              session _ create_searchindex_judge index_SearchIndex ValueError
              (fun attempts last_exception =>
                 create_searchindex_loop session index_SearchIndex attempts
                                         _ _ last_exception)
              (create_searchindex_round session index_SearchIndex _ _)
              5 0 None [] t e ltac:(lia) eq_refl Hrun)
    as [-> | [[r Hab] | Hun]].
  - split; discriminate.
  - revert Hab. unfold create_searchindex_judge.
    destruct (delivery_of r) as [| | |j]; try discriminate.
    destruct (Py.is_dict j).
    + destruct (create_accepts j); discriminate.
    + intros [= <-]. split; discriminate.
  - split; intros ->; discriminate.
Qed.

(** With a constructor that only makes its object, a call is the events of
    [k] attempts, of which the last one decides the outcome. *)
Lemma create_sketch_stored_run (sketch_Sketch : json -> M pyobj)
      (name : string) (description : option string) :
  name <> "" ->
  stores sketch_Sketch ->
  exists o k,
    (1 <= k <= 5)%nat
    /\ run (create_sketch session api_root sketch_Sketch name description)
       = Some (o,
               backoff_trace (create_sketch_request api_root name description)
                             k)
    /\ match create_sketch_judge
               (session (k - 1)%nat
                        (create_sketch_request api_root name description)) with
       | Accept id => exists sk, o = Ok sk
       | Abort e => o = Raise e
       | Retry _ => k = 5%nat /\ o = Raise RuntimeError
       end.
Proof.
  intros Hname Hstores.
  destruct (attempts_cases
              create_sketch_judge session
              (create_sketch_request api_root name description) 5)
    as [Hall | (m & Hm & Hbefore & Hstop)].
  - exists (Raise RuntimeError), 5%nat. split; [lia|]. split.
    + exact (create_sketch_exhausted session api_root sketch_Sketch name
                                     description Hname Hall).
    + destruct (Hall 4%nat) as [e He]; [lia|].
      cbn [Nat.sub]. rewrite He. split; reflexivity.
  - destruct (create_sketch_judge
                (session m (create_sketch_request api_root name description)))
      as [id|e|e] eqn:Hj.
    + destruct (Hstores id
                  (backoff_trace
                     (create_sketch_request api_root name description) (S m)))
        as [sk Hsk].
      exists (Ok sk), (S m). split; [lia|]. split.
      * apply (create_sketch_accepts session api_root sketch_Sketch name
                                     description Hname m id _ _ Hm Hbefore Hj
                                     Hsk).
        discriminate.
      * replace (S m - 1)%nat with m by lia. rewrite Hj.
        exists sk. reflexivity.
    + exfalso. exact (Hstop e eq_refl).
    + exists (Raise e), (S m). split; [lia|]. split.
      * exact (create_sketch_aborts session api_root sketch_Sketch name
                                    description Hname m e Hm Hbefore Hj).
      * replace (S m - 1)%nat with m by lia. rewrite Hj. reflexivity.
Qed.

Lemma create_searchindex_stored_run (index_SearchIndex : json -> M pyobj)
      (searchindex_name opensearch_index_name : string) :
  stores index_SearchIndex ->
  exists o k,
    (1 <= k <= 5)%nat
    /\ run (create_searchindex session api_root index_SearchIndex
                               searchindex_name opensearch_index_name)
       = Some (o,
               backoff_trace (create_searchindex_request
                                api_root searchindex_name
                                opensearch_index_name) k)
    /\ match create_searchindex_judge
               (session (k - 1)%nat
                        (create_searchindex_request
                           api_root searchindex_name opensearch_index_name))
       with
       | Accept id => exists ix, o = Ok ix
       | Abort e => o = Raise e
       | Retry _ => k = 5%nat /\ o = Raise ValueError
       end.
Proof.
  intros Hstores.
  destruct (attempts_cases
              create_searchindex_judge session
              (create_searchindex_request api_root searchindex_name
                                          opensearch_index_name) 5)
    as [Hall | (m & Hm & Hbefore & Hstop)].
  - exists (Raise ValueError), 5%nat. split; [lia|]. split.
    + exact (create_searchindex_exhausted
               session api_root index_SearchIndex searchindex_name
               opensearch_index_name Hall).
    + destruct (Hall 4%nat) as [e He]; [lia|].
      cbn [Nat.sub]. rewrite He. split; reflexivity.
  - destruct (create_searchindex_judge
                (session m (create_searchindex_request
                              api_root searchindex_name
                              opensearch_index_name)))
      as [id|e|e] eqn:Hj.
    + destruct (Hstores id
                  (backoff_trace
                     (create_searchindex_request
                        api_root searchindex_name opensearch_index_name)
                     (S m)))
        as [ix Hix].
      exists (Ok ix), (S m). split; [lia|]. split.
      * apply (create_searchindex_accepts
                 session api_root index_SearchIndex searchindex_name
                 opensearch_index_name m id _ _ Hm Hbefore Hj Hix).
        discriminate.
      * replace (S m - 1)%nat with m by lia. rewrite Hj.
        exists ix. reflexivity.
    + exfalso. exact (Hstop e eq_refl).
    + exists (Raise e), (S m). split; [lia|]. split.
      * exact (create_searchindex_aborts
                 session api_root index_SearchIndex searchindex_name
                 opensearch_index_name m e Hm Hbefore Hj).
      * replace (S m - 1)%nat with m by lia. rewrite Hj. reflexivity.
Qed.

End CreateErrors.

Lemma stored_sketch_stores : stores stored_sketch.
Proof. intros id t. exists (Sketch id JNull). reflexivity. Qed.

Lemma stored_searchindex_stores : stores stored_searchindex.
Proof. intros id t. exists (SearchIndex id JNull). reflexivity. Qed.

Lemma stored_user_stores : stores stored_user.
Proof. intros id t. exists (User id). reflexivity. Qed.

(** ** The methods of a client that has a session *)

Lemma bind_ext {A B} (m1 m2 : M A) (k1 k2 : A -> M B) (t : trace) :
  (forall t', m1 t' = m2 t') ->
  (forall a t', k1 a t' = k2 a t') ->
  bind m1 k1 t = bind m2 k2 t.
Proof.
  intros Hm Hk. unfold bind. rewrite Hm.
  destruct (m2 t) as [[[a|e] t']|]; [apply Hk | reflexivity | reflexivity].
Qed.

Lemma try_except_ext {A} (b1 b2 : M A) (h : exn -> option (M A)) (t : trace) :
  (forall t', b1 t' = b2 t') ->
  try_except b1 h t = try_except b2 h t.
Proof. intros Hb. unfold try_except. rewrite Hb. reflexivity. Qed.

Section OverASession.

Variable session : nat -> request -> reply.
Variable transport : request -> M response.
Variable sketch_Sketch : json -> M pyobj.
Variable index_SearchIndex : json -> M pyobj.
Hypothesis transport_sends : forall r t, transport r t = send session r t.

Lemma fetch_loop_over_send (fuel : nat) (url : string) (params : json)
      (attempt : Z) (t : trace) :
  fetch_loop_over transport fuel url params attempt t
  = fetch_loop session fuel url params attempt t.
Proof.
  revert attempt t. induction fuel as [|fuel IH]; intros attempt t;
    [reflexivity|].
  cbn [fetch_loop_over fetch_loop].
  apply bind_ext; [reflexivity | intros _ t1].
  apply bind_ext.
  - intros t2. apply try_except_ext. intros t3.
    apply bind_ext; [intros t4; apply transport_sends | reflexivity].
  - intros [result|] t2; [reflexivity|].
    destruct (DEFAULT_RETRY_COUNT <=? attempt + 1); [reflexivity | apply IH].
Qed.

Lemma create_sketch_loop_over_send (attempts : list Z) (url : string)
      (form_data : json) (last_exception : option exn) (t : trace) :
  create_sketch_loop_over transport sketch_Sketch attempts url form_data
                          last_exception t
  = create_sketch_loop session sketch_Sketch attempts url form_data
                       last_exception t.
Proof.
  revert last_exception t.
  induction attempts as [|attempt attempts IH]; intros last_exception t;
    [reflexivity|].
  cbn [create_sketch_loop_over create_sketch_loop].
  apply bind_ext; [intros t1; apply transport_sends | intros response t1].
  apply bind_ext; [reflexivity|].
  intros [sk|le] t2; [reflexivity|].
  destruct (attempt <? DEFAULT_RETRY_COUNT - 1); [|reflexivity].
  apply bind_ext; [reflexivity | intros _ t3; apply IH].
Qed.

Lemma create_searchindex_loop_over_send (attempts : list Z) (url : string)
      (form_data : json) (last_exception : option exn) (t : trace) :
  create_searchindex_loop_over transport index_SearchIndex attempts url
                               form_data last_exception t
  = create_searchindex_loop session index_SearchIndex attempts url form_data
                            last_exception t.
Proof.
  revert last_exception t.
  induction attempts as [|attempt attempts IH]; intros last_exception t;
    [reflexivity|].
  cbn [create_searchindex_loop_over create_searchindex_loop].
  apply bind_ext.
  - intros t1. apply try_except_ext. intros t2.
    apply bind_ext; [intros t3; apply transport_sends | reflexivity].
  - intros [ix|le] t2; [reflexivity|].
    destruct (attempt <? DEFAULT_RETRY_COUNT - 1); [|reflexivity].
    apply bind_ext; [reflexivity | intros _ t3; apply IH].
Qed.

Lemma post_until_objects_over_send (fuel : nat) (url : string)
      (form_data : json) (retry_count : Z) (t : trace) :
  post_until_objects_over transport fuel url form_data retry_count t
  = post_until_objects session fuel url form_data retry_count t.
Proof.
  revert retry_count t. induction fuel as [|fuel IH]; intros retry_count t;
    [reflexivity|].
  cbn [post_until_objects_over post_until_objects].
  apply bind_ext; [intros t1; apply transport_sends | intros response t1].
  apply bind_ext; [reflexivity | intros response_dict t2].
  apply bind_ext; [reflexivity | intros objects t3].
  destruct (Py.truthy objects); [reflexivity|].
  destruct (DEFAULT_RETRY_COUNT <=? retry_count + 1); [reflexivity | apply IH].
Qed.

End OverASession.

(** The methods of a client whose session is [s] are the operations over
    the replies of the server to [s], addressed at the client's API root. *)

Section WithSession.

Variable server : http_session -> nat -> request -> reply.
Variable self : TimesketchApi.
Variable s : http_session.
Hypothesis session_set : self_session self = Some s.

Lemma self_send_with_session (r : request) (t : trace) :
  self_send server self r t = send (server s) r t.
Proof. unfold self_send, session_property. rewrite session_set. reflexivity. Qed.

Lemma api_fetch_resource_data_with_session (uri : string) (params : json)
      (t : trace) :
  api_fetch_resource_data server self uri params t
  = fetch_resource_data (server s) (self_api_root self) uri params t.
Proof. apply fetch_loop_over_send. exact self_send_with_session. Qed.

Lemma api_create_sketch_with_session (sketch_Sketch : json -> M pyobj)
      (name : string) (description : option string) (t : trace) :
  api_create_sketch server sketch_Sketch self name description t
  = create_sketch (server s) (self_api_root self) sketch_Sketch name
                  description t.
Proof.
  unfold api_create_sketch, create_sketch.
  destruct (Py.str_empty name); [reflexivity|].
  apply create_sketch_loop_over_send. exact self_send_with_session.
Qed.

Lemma api_create_searchindex_with_session
      (index_SearchIndex : json -> M pyobj)
      (searchindex_name opensearch_index_name : string) (t : trace) :
  api_create_searchindex server index_SearchIndex self searchindex_name
                         opensearch_index_name t
  = create_searchindex (server s) (self_api_root self) index_SearchIndex
                       searchindex_name opensearch_index_name t.
Proof.
  apply create_searchindex_loop_over_send. exact self_send_with_session.
Qed.

Lemma api_create_user_loop_with_session (username password : string)
      (t : trace) :
  api_create_user_loop server self username password t
  = create_user_loop (server s) (self_api_root self) username password t.
Proof. apply post_until_objects_over_send. exact self_send_with_session. Qed.

Lemma api_create_sigmarule_loop_with_session (rule_yaml : string) (t : trace) :
  api_create_sigmarule_loop server self rule_yaml t
  = create_sigmarule_loop (server s) (self_api_root self) rule_yaml t.
Proof. apply post_until_objects_over_send. exact self_send_with_session. Qed.

Lemma api_create_user_with_session (user_User : json -> M pyobj)
      (username password : string) (t : trace) :
  api_create_user server user_User self username password t
  = create_user (server s) (self_api_root self) user_User username password t.
Proof.
  unfold api_create_user, create_user.
  apply bind_ext; [|reflexivity].
  intros t'. apply api_create_user_loop_with_session.
Qed.

End WithSession.

(** * The claims *)

(** ** Exhaustion of the retry budget *)

Section Exhaustion.

Variable session : nat -> request -> reply.
Variable api_root : string.

Lemma fetch_resource_data_exhausts (uri : string) (params : json) :
  every_attempt session (fetch_request api_root uri params)
                (transient fetch_accepts) ->
  raises_after 5 (fetch_resource_data session api_root uri params).
Proof.
  intros Hall.
  destruct (fetch_resource_data_run session api_root uri params)
    as (o & t & Hrun & Heng).
  destruct (run_all_retry _ _ _ _ _ _ _ _ _ _ Heng) as (Hn & e & ->).
  - intros i Hi. cbn [Nat.add].
    specialize (Hall i Hi). unfold transient in Hall.
    destruct (failure_of fetch_accepts _) as [k|] eqn:Hk; [|congruence].
    exists (exn_of_failure k). apply fetch_judge_failure. exact Hk.
  - exists e, t. split; assumption.
Qed.

Lemma create_searchindex_exhausts (index_SearchIndex : json -> M pyobj)
      (searchindex_name opensearch_index_name : string) :
  every_attempt session
                (create_searchindex_request api_root searchindex_name
                                            opensearch_index_name)
                (transient_object create_accepts) ->
  raises_after 5 (create_searchindex session api_root index_SearchIndex
                                     searchindex_name opensearch_index_name).
Proof.
  intros Hall. exists ValueError. eexists. split.
  - apply create_searchindex_exhausted.
    intros i Hi. apply create_searchindex_judge_transient, Hall, Hi.
  - apply n_requests_schedule.
Qed.

Lemma create_sketch_exhausts (sketch_Sketch : json -> M pyobj)
      (name : string) (description : option string) :
  name <> "" ->
  every_attempt session (create_sketch_request api_root name description)
                (fun r => transient_object create_accepts r
                          /\ delivery_of r <> Unreachable) ->
  raises_after 5 (create_sketch session api_root sketch_Sketch name
                                description).
Proof.
  intros Hname Hall. exists RuntimeError. eexists. split.
  - apply (create_sketch_exhausted _ _ _ _ _ Hname).
    intros i Hi. apply create_sketch_judge_transient, Hall, Hi.
  - apply n_requests_schedule.
Qed.

Lemma post_until_objects_exhausts (url : string) (form_data : json) :
  every_attempt session (mkRequest POST url form_data)
                (rejected_object objects_accepts) ->
  exists t,
    post_until_objects session 5 url form_data 0 []
    = Some (Raise RuntimeError, t)
    /\ n_requests t = 5%nat.
Proof.
  intros Hall.
  destruct (post_until_objects_run session url form_data)
    as (o & t & Hrun & Heng).
  destruct (run_all_retry _ _ _ _ _ _ _ _ _ _ Heng) as (Hn & e & ->).
  - intros i Hi. cbn [Nat.add].
    destruct (Hall i Hi) as [Hobj Hfail].
    exists RuntimeError. apply objects_judge_rejected; assumption.
  - exists t. split; assumption.
Qed.

Lemma create_user_exhausts (user_User : json -> M pyobj)
      (username password : string) :
  every_attempt session (create_user_request api_root username password)
                (rejected_object objects_accepts) ->
  raises_after 5 (create_user session api_root user_User username password).
Proof.
  intros Hall.
  destruct (post_until_objects_exhausts _ _ Hall) as (t & Hloop & Hn).
  exists RuntimeError, t. split; [|exact Hn].
  unfold run, create_user, create_user_loop.
  change (Z.to_nat DEFAULT_RETRY_COUNT) with 5%nat.
  unfold bind at 1. rewrite Hloop. reflexivity.
Qed.

Lemma create_sigmarule_exhausts (from_rule_uuid : json -> M json)
      (rule_yaml : string) :
  every_attempt session (create_sigmarule_request api_root rule_yaml)
                (rejected_object objects_accepts) ->
  raises_after 5 (create_sigmarule session api_root from_rule_uuid rule_yaml).
Proof.
  intros Hall.
  destruct (post_until_objects_exhausts _ _ Hall) as (t & Hloop & Hn).
  exists RuntimeError, t. split; [|exact Hn].
  apply create_sigmarule_loop_raises. exact Hloop.
Qed.

End Exhaustion.

(** C1, as amended.  When every attempt of the budget fails,
    [fetch_resource_data] and [create_searchindex] raise after exactly
    [DEFAULT_RETRY_COUNT] = 5 attempts for any of the four failure kinds;
    [create_sketch] does so for the non-20x, JSON-decode and validation
    failures; [create_user] and [create_sigmarule] do so when every attempt
    is a validation failure (a JSON object whose ["objects"] is falsy).  For
    the operations that read ["objects"], the decoded payloads are JSON
    objects.  The constructors of the wrappers and [from_rule_uuid] are
    never reached, and may be anything. *)
Theorem retry_budget_exhausted_after_five_attempts
        (session : nat -> request -> reply) (api_root : string) :
  (forall uri params,
      every_attempt session (fetch_request api_root uri params)
                    (transient fetch_accepts) ->
      raises_after 5 (fetch_resource_data session api_root uri params))
  /\ (forall index_SearchIndex searchindex_name opensearch_index_name,
         every_attempt session
                       (create_searchindex_request api_root searchindex_name
                                                   opensearch_index_name)
                       (transient_object create_accepts) ->
         raises_after 5 (create_searchindex session api_root index_SearchIndex
                                            searchindex_name
                                            opensearch_index_name))
  /\ (forall sketch_Sketch name description,
         name <> "" ->
         every_attempt session
                       (create_sketch_request api_root name description)
                       (fun r => transient_object create_accepts r
                                 /\ delivery_of r <> Unreachable) ->
         raises_after 5 (create_sketch session api_root sketch_Sketch name
                                       description))
  /\ (forall user_User username password,
         every_attempt session
                       (create_user_request api_root username password)
                       (rejected_object objects_accepts) ->
         raises_after 5 (create_user session api_root user_User username
                                     password))
  /\ (forall from_rule_uuid rule_yaml,
         every_attempt session (create_sigmarule_request api_root rule_yaml)
                       (rejected_object objects_accepts) ->
         raises_after 5 (create_sigmarule session api_root from_rule_uuid
                                          rule_yaml)).
Proof.
  split; [|split; [|split; [|split]]].
  - apply fetch_resource_data_exhausts.
  - intros index_SearchIndex. apply create_searchindex_exhausts.
  - intros sketch_Sketch. apply create_sketch_exhausts.
  - intros user_User. apply create_user_exhausts.
  - intros from_rule_uuid rule_yaml. apply create_sigmarule_exhausts.
Qed.

(** The five conjuncts at concrete sessions: a server that always answers
    500, and one that always answers 200 with an empty ["objects"]. *)
Lemma retry_budget_exhausted_witness :
  raises_after 5 (fetch_resource_data session_status_500 "h" "version/" JNull)
  /\ raises_after 5 (create_searchindex session_unreachable "h"
                                        stored_searchindex "idx" "os")
  /\ raises_after 5 (create_sketch session_status_500 "h" stored_sketch
                                   "case" None)
  /\ raises_after 5 (create_user session_empty_objects "h" stored_user
                                 "u" "p")
  /\ raises_after 5 (create_sigmarule session_empty_objects "h"
                                      rule_not_loaded "title: x").
Proof.
  split; [|split; [|split; [|split]]].
  - apply (proj1 (retry_budget_exhausted_after_five_attempts
                    session_status_500 "h")).
    intros n _. unfold transient. vm_compute. discriminate.
  - apply (proj1 (proj2 (retry_budget_exhausted_after_five_attempts
                           session_unreachable "h"))).
    intros n _. split; [reflexivity | vm_compute; discriminate].
  - apply (proj1 (proj2 (proj2 (retry_budget_exhausted_after_five_attempts
                                  session_status_500 "h")))).
    + discriminate.
    + intros n _. split; [split; [reflexivity | vm_compute; discriminate]|].
      vm_compute. discriminate.
  - apply (proj1 (proj2 (proj2 (proj2
             (retry_budget_exhausted_after_five_attempts
                session_empty_objects "h"))))).
    intros n _. split; reflexivity.
  - apply (proj2 (proj2 (proj2 (proj2
             (retry_budget_exhausted_after_five_attempts
                session_empty_objects "h"))))).
    intros n _. split; reflexivity.
Defined.

(** C1 as stated fails: against a server that answers every attempt with
    status 500 (a non-20x failure each time), [create_user] raises after
    its first attempt, not after five, whatever the constructor of [User]
    would do. *)
Lemma create_user_status_500_not_five_attempts :
  every_attempt session_status_500 (create_user_request "h" "u" "p")
                (transient objects_accepts)
  /\ forall user_User,
      ~ raises_after 5 (create_user session_status_500 "h" user_User "u" "p").
Proof.
  split.
  - intros n _. unfold transient. vm_compute. discriminate.
  - intros user_User (e & t & Hrun & Hn).
    vm_compute in Hrun. injection Hrun as <- <-.
    vm_compute in Hn. discriminate.
Qed.

(** ** Which failures are retried *)

Lemma retried_until_exhausted_intro {A} (session : nat -> request -> reply)
      (req : request) (fails : reply -> Prop) (attempts : nat -> trace)
      (op : M A) :
  (forall m,
      (m < 5)%nat ->
      first_attempts session req m fails ->
      exists o ev, run op = Some (o, attempts (S m) ++ ev)) ->
  (first_attempts session req 5%nat fails ->
   exists e, run op = Some (Raise e, attempts 5%nat)) ->
  retried_until_exhausted session req fails attempts op.
Proof.
  intros Hgo Hex.
  destruct (Hgo 0%nat) as (o & ev & Hrun); [lia | intros i Hi; lia |].
  exists o, (attempts 1%nat ++ ev). split; [exact Hrun|]. split.
  - intros m Hm Hfails.
    destruct (Hgo m Hm Hfails) as (o' & ev' & Hrun').
    rewrite Hrun in Hrun'. injection Hrun' as _ ->. exists ev'. reflexivity.
  - intros Hfails. destruct (Hex Hfails) as (e & Hrun').
    rewrite Hrun in Hrun'. injection Hrun' as -> ->.
    split; [reflexivity | exists e; reflexivity].
Qed.

Lemma fetch_retry_transient (r : reply) (e : exn) :
  fetch_judge r = Retry e -> transient fetch_accepts r.
Proof.
  unfold fetch_judge, transient, failure_of.
  destruct (delivery_of r) as [| | |j]; try discriminate.
  destruct (fetch_accepts j); discriminate.
Qed.

Section Retried.

Variable session : nat -> request -> reply.
Variable api_root : string.

Lemma fetch_resource_data_retried (uri : string) (params : json) :
  retried_until_exhausted
    session (fetch_request api_root uri params) (transient fetch_accepts)
    (backoff_trace (fetch_request api_root uri params))
    (fetch_resource_data session api_root uri params).
Proof.
  apply retried_until_exhausted_intro.
  - intros m Hm Hfails. apply fetch_goes_on; [exact Hm|].
    exact (first_attempts_impl _ _ _ _ _ fetch_judge_transient Hfails).
  - intros Hfails.
    destruct (fetch_exhausted session api_root uri params) as (e & _ & Hrun).
    + exact (first_attempts_impl _ _ _ _ _ fetch_judge_transient Hfails).
    + exists e. exact Hrun.
Qed.

(** [fetch_resource_data] raises only when all five attempts have
    failed. *)
Lemma fetch_resource_data_raises_exhausted (uri : string) (params : json)
      (e : exn) (t : trace) :
  run (fetch_resource_data session api_root uri params) = Some (Raise e, t) ->
  first_attempts session (fetch_request api_root uri params) 5%nat
                 (transient fetch_accepts).
Proof.
  intros Hraise.
  destruct (fetch_resource_data_run session api_root uri params)
    as (o & t' & Hrun & Heng).
  rewrite Hraise in Hrun. injection Hrun as <- <-.
  assert (Hn : n_requests t = 5%nat).
  { apply (run_raise_exhausted _ _ _ _ _ _ _ _ _ _ Heng) with (e := e);
      [|reflexivity].
    intros i e' _. apply fetch_judge_no_abort. }
  destruct Heng as (k & Hk & -> & Hretry & Hlast).
  rewrite n_requests_schedule in Hn. subst k.
  intros i Hi. cbn [Nat.add Nat.sub] in Hretry, Hlast.
  destruct (Nat.eq_dec i 4) as [->|Hne].
  - destruct (fetch_judge (session 4%nat (fetch_request api_root uri params)))
      as [a|e'|e'] eqn:Hj.
    + discriminate.
    + exact (fetch_retry_transient _ _ Hj).
    + exfalso. exact (fetch_judge_no_abort _ _ Hj).
  - destruct (Hretry i) as [e' He']; [lia|].
    exact (fetch_retry_transient _ _ He').
Qed.

Lemma create_searchindex_retried (index_SearchIndex : json -> M pyobj)
      (searchindex_name opensearch_index_name : string) :
  (forall id, proper (index_SearchIndex id)) ->
  retried_until_exhausted
    session
    (create_searchindex_request api_root searchindex_name
                                opensearch_index_name)
    (transient_object create_accepts)
    (backoff_trace (create_searchindex_request api_root searchindex_name
                                               opensearch_index_name))
    (create_searchindex session api_root index_SearchIndex searchindex_name
                        opensearch_index_name).
Proof.
  intros Hproper. apply retried_until_exhausted_intro.
  - intros m Hm Hfails. apply create_searchindex_goes_on; [exact Hproper | exact Hm|].
    exact (first_attempts_impl _ _ _ _ _ create_searchindex_judge_transient
                               Hfails).
  - intros Hfails. exists ValueError. apply create_searchindex_exhausted.
    exact (first_attempts_impl _ _ _ _ _ create_searchindex_judge_transient
                               Hfails).
Qed.

Lemma create_sketch_retried (sketch_Sketch : json -> M pyobj)
      (name : string) (description : option string) :
  name <> "" ->
  (forall id, proper (sketch_Sketch id)) ->
  retried_until_exhausted
    session (create_sketch_request api_root name description)
    (transient_answer create_accepts)
    (backoff_trace (create_sketch_request api_root name description))
    (create_sketch session api_root sketch_Sketch name description).
Proof.
  intros Hname Hproper. apply retried_until_exhausted_intro.
  - intros m Hm Hfails.
    apply (create_sketch_goes_on _ _ _ _ _ Hname); [exact Hproper | exact Hm|].
    exact (first_attempts_impl _ _ _ _ _ create_sketch_judge_transient Hfails).
  - intros Hfails. exists RuntimeError.
    apply (create_sketch_exhausted _ _ _ _ _ Hname).
    exact (first_attempts_impl _ _ _ _ _ create_sketch_judge_transient Hfails).
Qed.

(** In the loop of [create_user] and [create_sigmarule], the first
    attempt that is not a validation failure but one of the other three
    kinds ends the loop with the error of that kind. *)
Lemma post_until_objects_propagates (url : string) (form_data : json)
      (m : nat) (k : failure_kind) :
  (1 <= m <= 5)%nat ->
  (forall i, (i < m - 1)%nat ->
             rejected_object objects_accepts
                             (session i (mkRequest POST url form_data))) ->
  failure_of objects_accepts (session (m - 1)%nat (mkRequest POST url form_data))
  = Some k ->
  k <> ValidationFailure ->
  exists t,
    post_until_objects session 5 url form_data 0 []
    = Some (Raise (exn_of_failure k), t)
    /\ n_requests t = m.
Proof.
  intros Hm Hbefore Hk Hne.
  destruct (post_until_objects_run session url form_data)
    as (o & t & Hrun & Heng).
  pose proof (objects_judge_failure _ _ Hk Hne) as Hab.
  assert (Hlen : n_requests t = m).
  { apply (run_length _ _ _ _ _ _ _ _ _ _ Heng m Hm).
    - intros i Hi. cbn [Nat.add]. destruct (Hbefore i Hi) as [Hobj Hrej].
      exists RuntimeError. apply objects_judge_rejected; assumption.
    - intros e. cbn [Nat.add]. rewrite Hab. discriminate. }
  destruct (run_abort _ _ _ _ _ _ _ _ _ _ Heng m (exn_of_failure k))
    as [-> _]; [lia | exact Hab |].
  exists t. split; assumption.
Qed.

Lemma create_user_propagates (user_User : json -> M pyobj)
      (username password : string) (m : nat) (k : failure_kind) :
  (1 <= m <= 5)%nat ->
  (forall i, (i < m - 1)%nat ->
             rejected_object
               objects_accepts
               (session i (create_user_request api_root username password))) ->
  failure_of objects_accepts
             (session (m - 1)%nat
                      (create_user_request api_root username password))
  = Some k ->
  k <> ValidationFailure ->
  exists t,
    run (create_user session api_root user_User username password)
    = Some (Raise (exn_of_failure k), t)
    /\ n_requests t = m.
Proof.
  intros Hm Hbefore Hk Hne.
  destruct (post_until_objects_propagates _ _ m k Hm Hbefore Hk Hne)
    as (t & Hloop & Hn).
  exists t. split; [|exact Hn].
  unfold run, create_user, create_user_loop.
  change (Z.to_nat DEFAULT_RETRY_COUNT) with 5%nat.
  unfold bind at 1. rewrite Hloop. reflexivity.
Qed.

Lemma create_sigmarule_propagates (from_rule_uuid : json -> M json)
      (rule_yaml : string) (m : nat) (k : failure_kind) :
  (1 <= m <= 5)%nat ->
  (forall i, (i < m - 1)%nat ->
             rejected_object
               objects_accepts
               (session i (create_sigmarule_request api_root rule_yaml))) ->
  failure_of objects_accepts
             (session (m - 1)%nat
                      (create_sigmarule_request api_root rule_yaml))
  = Some k ->
  k <> ValidationFailure ->
  exists t,
    run (create_sigmarule session api_root from_rule_uuid rule_yaml)
    = Some (Raise (exn_of_failure k), t)
    /\ n_requests t = m.
Proof.
  intros Hm Hbefore Hk Hne.
  destruct (post_until_objects_propagates _ _ m k Hm Hbefore Hk Hne)
    as (t & Hloop & Hn).
  exists t. split; [|exact Hn].
  apply create_sigmarule_loop_raises. exact Hloop.
Qed.

End Retried.

(** In [create_sketch] the POST is sent before the [try] statement, so a
    connection failure leaves the loop at once; in [create_searchindex] the
    POST is inside it and the failure is retried. *)
Example create_sketch_connection_failure_propagates :
  (forall sketch_Sketch,
      run (create_sketch session_unreachable "h" sketch_Sketch "case" None)
      = Some (Raise ConnectionError,
              [Request (create_sketch_request "h" "case" None)]))
  /\ forall index_SearchIndex,
      raises_after 5 (create_searchindex session_unreachable "h"
                                         index_SearchIndex "idx" "os").
Proof.
  split; [reflexivity|]. intros index_SearchIndex.
  exists ValueError. eexists. split; [vm_compute; reflexivity | reflexivity].
Qed.

(** A decoded payload that is not a JSON object has no [.get]: the
    [AttributeError] is caught by none of the [except] clauses. *)
Example create_searchindex_null_payload_propagates :
  forall index_SearchIndex,
    run (create_searchindex (fun _ _ => Answer (mkResponse 200 (Some JNull)))
                            "h" index_SearchIndex "idx" "os")
    = Some (Raise AttributeError,
            [Request (create_searchindex_request "h" "idx" "os")]).
Proof. reflexivity. Qed.

(** C2, as amended.  [fetch_resource_data] retries each of the four
    failure kinds: when its first [m < 5] attempts fail it goes on to
    attempt [m + 1], it raises when all five attempts have failed, and only
    then.  So does [create_searchindex] when the decoded payloads are JSON
    objects, and [create_sketch] when in addition no attempt is a
    connection failure (the constructors of the wrappers being calls that
    end).  [create_user] and [create_sigmarule] retry validation failures
    only: the first attempt [m] that is a connection, non-20x or
    JSON-decode failure ends the operation with that error after [m]
    attempts. *)
Theorem failures_retried_until_budget_exhausted
        (session : nat -> request -> reply) (api_root : string) :
  (forall uri params,
      retried_until_exhausted
        session (fetch_request api_root uri params) (transient fetch_accepts)
        (backoff_trace (fetch_request api_root uri params))
        (fetch_resource_data session api_root uri params)
      /\ forall e t,
          run (fetch_resource_data session api_root uri params)
          = Some (Raise e, t) ->
          first_attempts session (fetch_request api_root uri params) 5%nat
                         (transient fetch_accepts))
  /\ (forall index_SearchIndex searchindex_name opensearch_index_name,
         (forall id, proper (index_SearchIndex id)) ->
         retried_until_exhausted
           session
           (create_searchindex_request api_root searchindex_name
                                       opensearch_index_name)
           (transient_object create_accepts)
           (backoff_trace (create_searchindex_request
                             api_root searchindex_name opensearch_index_name))
           (create_searchindex session api_root index_SearchIndex
                               searchindex_name opensearch_index_name))
  /\ (forall sketch_Sketch name description,
         name <> "" ->
         (forall id, proper (sketch_Sketch id)) ->
         retried_until_exhausted
           session (create_sketch_request api_root name description)
           (transient_answer create_accepts)
           (backoff_trace (create_sketch_request api_root name description))
           (create_sketch session api_root sketch_Sketch name description))
  /\ (forall user_User username password m k,
         (1 <= m <= 5)%nat ->
         (forall i, (i < m - 1)%nat ->
                    rejected_object
                      objects_accepts
                      (session i (create_user_request api_root username
                                                      password))) ->
         failure_of objects_accepts
                    (session (m - 1)%nat
                             (create_user_request api_root username password))
         = Some k ->
         k <> ValidationFailure ->
         exists t,
           run (create_user session api_root user_User username password)
           = Some (Raise (exn_of_failure k), t)
           /\ n_requests t = m)
  /\ (forall from_rule_uuid rule_yaml m k,
         (1 <= m <= 5)%nat ->
         (forall i, (i < m - 1)%nat ->
                    rejected_object
                      objects_accepts
                      (session i (create_sigmarule_request api_root rule_yaml))) ->
         failure_of objects_accepts
                    (session (m - 1)%nat
                             (create_sigmarule_request api_root rule_yaml))
         = Some k ->
         k <> ValidationFailure ->
         exists t,
           run (create_sigmarule session api_root from_rule_uuid rule_yaml)
           = Some (Raise (exn_of_failure k), t)
           /\ n_requests t = m).
Proof.
  split; [|split; [|split; [|split]]].
  - intros uri params. split.
    + apply fetch_resource_data_retried.
    + apply fetch_resource_data_raises_exhausted.
  - intros index_SearchIndex. apply create_searchindex_retried.
  - intros sketch_Sketch. apply create_sketch_retried.
  - intros user_User. apply create_user_propagates.
  - intros from_rule_uuid rule_yaml. apply create_sigmarule_propagates.
Qed.

Lemma stored_sketch_proper (id : json) : proper (stored_sketch id).
Proof. intros t. exists (Ok (Sketch id JNull)), []. rewrite app_nil_r. reflexivity. Qed.

Lemma stored_searchindex_proper (id : json) : proper (stored_searchindex id).
Proof.
  intros t. exists (Ok (SearchIndex id JNull)), [].
  rewrite app_nil_r. reflexivity.
Qed.

Lemma stored_user_proper (id : json) : proper (stored_user id).
Proof. intros t. exists (Ok (User id)), []. rewrite app_nil_r. reflexivity. Qed.

(** The conjuncts at concrete sessions, with constructors that store the
    id.  An unreachable server: [fetch_resource_data] raises after the
    trace of five attempts, and that it raises shows that all five
    attempts failed.  A server that answers 500 twice, or rejects
    the payload twice: the third attempt of [create_searchindex] and of
    [create_sketch] is made.  In the last two the third attempt is the
    first that is not a validation failure. *)
Lemma failures_retried_witness :
  (exists e,
      run (fetch_resource_data session_unreachable "h" "version/" JNull)
      = Some (Raise e, backoff_trace (fetch_request "h" "version/" JNull) 5%nat))
  /\ first_attempts session_unreachable (fetch_request "h" "version/" JNull)
                    5%nat (transient fetch_accepts)
  /\ (exists o ev,
         run (create_searchindex session_500_twice_then_42 "h"
                                 stored_searchindex "idx" "os")
         = Some (o,
                 backoff_trace (create_searchindex_request "h" "idx" "os") 3%nat
                   ++ ev))
  /\ (exists o ev,
         run (create_sketch session_rejected_twice_then_42 "h" stored_sketch
                            "case" None)
         = Some (o,
                 backoff_trace (create_sketch_request "h" "case" None) 3%nat
                   ++ ev))
  /\ (exists t,
         run (create_user session_rejected_twice_then_500 "h" stored_user
                          "u" "p")
         = Some (Raise RuntimeError, t)
         /\ n_requests t = 3%nat)
  /\ (exists t,
         run (create_sigmarule session_rejected_twice_then_500 "h"
                               rule_not_loaded "title: x")
         = Some (Raise RuntimeError, t)
         /\ n_requests t = 3%nat).
Proof.
  split; [|split; [|split; [|split; [|split]]]].
  - destruct (proj1 (proj1 (failures_retried_until_budget_exhausted
                              session_unreachable "h")
                           "version/" JNull))
      as (o & t & Hrun & _ & Hex).
    destruct Hex as [-> [e ->]].
    + intros i _. unfold transient. vm_compute. discriminate.
    + exists e. exact Hrun.
  - apply (proj2 (proj1 (failures_retried_until_budget_exhausted
                           session_unreachable "h")
                        "version/" JNull)
                 ConnectionError
                 (backoff_trace (fetch_request "h" "version/" JNull) 5%nat)).
    reflexivity.
  - destruct (proj1 (proj2 (failures_retried_until_budget_exhausted
                              session_500_twice_then_42 "h"))
                    stored_searchindex "idx" "os" stored_searchindex_proper)
      as (o & t & Hrun & Hgo & _).
    destruct (Hgo 2%nat) as [ev ->]; [lia | |].
    + intros i Hi. destruct i as [|[|i]];
        [split; [reflexivity | vm_compute; discriminate] .. | lia].
    + exists o, ev. exact Hrun.
  - destruct (proj1 (proj2 (proj2 (failures_retried_until_budget_exhausted
                                     session_rejected_twice_then_42 "h")))
                    stored_sketch "case" None)
      as (o & t & Hrun & Hgo & _).
    + discriminate.
    + exact stored_sketch_proper.
    + destruct (Hgo 2%nat) as [ev ->]; [lia | |].
      * intros i Hi. destruct i as [|[|i]];
          [split; [split; [reflexivity | vm_compute; discriminate]
                  | vm_compute; discriminate] .. | lia].
      * exists o, ev. exact Hrun.
  - apply (proj1 (proj2 (proj2 (proj2
             (failures_retried_until_budget_exhausted
                session_rejected_twice_then_500 "h"))))
             stored_user "u" "p" 3%nat StatusFailure).
    + lia.
    + intros i Hi. destruct i as [|[|i]]; [split; reflexivity .. | lia].
    + reflexivity.
    + discriminate.
  - apply (proj2 (proj2 (proj2 (proj2
             (failures_retried_until_budget_exhausted
                session_rejected_twice_then_500 "h"))))
             rule_not_loaded "title: x" 3%nat StatusFailure).
    + lia.
    + intros i Hi. destruct i as [|[|i]]; [split; reflexivity .. | lia].
    + reflexivity.
    + discriminate.
Defined.

(** C2 as stated fails: [create_sigmarule] does not retry a connection
    failure.  Against an unreachable server it raises after one attempt,
    before the budget of five is used up. *)
Lemma create_sigmarule_connection_failure_not_retried :
  ~ (forall e t,
        run (create_sigmarule session_unreachable "h" rule_not_loaded
                              "title: x") = Some (Raise e, t) ->
        n_requests t = 5%nat).
Proof.
  intros H.
  specialize (H ConnectionError
                [Request (create_sigmarule_request "h" "title: x")]
                eq_refl).
  discriminate H.
Qed.

(** ** The backoff schedule *)

Lemma unified_delay_closed_form (m : nat) :
  (1 < m)%nat ->
  (unified_delay (m - 1) == (1 # 2) * inject_Z (2 ^ (Z.of_nat m - 2)))%Q.
Proof.
  intros Hm. destruct m as [|[|m]]; try lia.
  cbn [Nat.sub]. unfold unified_delay.
  replace (Z.of_nat (S m) - 1) with (Z.of_nat (S (S m)) - 2) by lia.
  reflexivity.
Qed.

(** Attempt [m + 1] adds a sleep of [unified_delay m] and its request to
    the events of [m] attempts. *)
Lemma backoff_trace_next (req : request) (m : nat) :
  (1 <= m)%nat ->
  backoff_trace req (S m)
  = backoff_trace req m ++ [Sleep (unified_delay m); Request req].
Proof.
  intros Hm. unfold backoff_trace. rewrite schedule_snoc, <- app_assoc.
  destruct m as [|m]; [lia|]. reflexivity.
Qed.

Lemma n_requests_backoff_trace (req : request) (k : nat) :
  n_requests (backoff_trace req k) = k.
Proof. apply n_requests_schedule. Qed.

Lemma backs_off_intro {A} (session : nat -> request -> reply) (req : request)
      (fails : reply -> Prop) (op : M A) :
  retried_until_exhausted session req fails (backoff_trace req) op ->
  backs_off session req fails op.
Proof.
  intros (o & t & Hrun & Hgo & Hex). split.
  - intros m Hm Hfails.
    destruct (Hgo (m - 1)%nat) as [ev ->]; [lia | exact Hfails |].
    exists o, ev. rewrite Hrun.
    rewrite backoff_trace_next, <- app_assoc by lia. reflexivity.
  - intros Hfails. destruct (Hex Hfails) as [-> [e ->]].
    exists e. exact Hrun.
Qed.

(** Every run of [fetch_resource_data] is the trace of between one and
    five attempts under the unified backoff. *)
Lemma fetch_resource_data_trace (session : nat -> request -> reply)
      (api_root uri : string) (params : json) :
  exists o k,
    (1 <= k <= 5)%nat
    /\ run (fetch_resource_data session api_root uri params)
       = Some (o, backoff_trace (fetch_request api_root uri params) k).
Proof.
  destruct (fetch_resource_data_run session api_root uri params)
    as (o & t & Hrun & k & Hk & -> & _).
  exists o, k. split; [exact Hk|].
  rewrite Hrun, fetch_schedule_unified. reflexivity.
Qed.

(** C3.  [fetch_resource_data] (which sleeps before the current attempt)
    and [create_sketch] and [create_searchindex] (which sleep after a
    failed attempt, before the next) follow one schedule.  For
    [1 < m <= 5], when the attempts before attempt [m] have failed, the
    events of those [m - 1] attempts are followed by a sleep of
    [unified_delay (m - 1)] seconds and by the request of attempt [m]; when
    all five attempts fail, nothing follows the fifth request.  The events
    of one attempt are its request alone, so nothing is slept before the
    first attempt, and every run of [fetch_resource_data] consists of the
    events of one to five attempts.  Here
    [unified_delay a = 0.5 * 2^(a-1)] for [a >= 1]: the sleep before
    attempt [m] is [0.5 * 2^(m-2)] seconds, which is 0.5s, 1s, 2s and 4s
    for attempts 2, 3, 4 and 5. *)
Theorem backoff_follows_unified_schedule
        (session : nat -> request -> reply) (api_root : string) :
  (forall uri params,
      backs_off session (fetch_request api_root uri params)
                (transient fetch_accepts)
                (fetch_resource_data session api_root uri params)
      /\ exists o k,
          (1 <= k <= 5)%nat
          /\ run (fetch_resource_data session api_root uri params)
             = Some (o, backoff_trace (fetch_request api_root uri params) k))
  /\ (forall sketch_Sketch name description,
         name <> "" ->
         (forall id, proper (sketch_Sketch id)) ->
         backs_off session (create_sketch_request api_root name description)
                   (transient_answer create_accepts)
                   (create_sketch session api_root sketch_Sketch name
                                  description))
  /\ (forall index_SearchIndex searchindex_name opensearch_index_name,
         (forall id, proper (index_SearchIndex id)) ->
         backs_off session
                   (create_searchindex_request api_root searchindex_name
                                               opensearch_index_name)
                   (transient_object create_accepts)
                   (create_searchindex session api_root index_SearchIndex
                                       searchindex_name
                                       opensearch_index_name))
  /\ (forall req, backoff_trace req 1 = [Request req])
  /\ (forall req m,
         (1 <= m)%nat ->
         backoff_trace req (S m)
         = backoff_trace req m ++ [Sleep (unified_delay m); Request req])
  /\ (forall m,
         (1 < m)%nat ->
         (unified_delay (m - 1)
          == (1 # 2) * inject_Z (2 ^ (Z.of_nat m - 2)))%Q)
  /\ (unified_delay 1 == 1 # 2)%Q
  /\ (unified_delay 2 == 1)%Q
  /\ (unified_delay 3 == 2)%Q
  /\ (unified_delay 4 == 4)%Q.
Proof.
  split; [|split; [|split; [|split; [|split; [|split]]]]].
  - intros uri params. split.
    + apply backs_off_intro, fetch_resource_data_retried.
    + apply fetch_resource_data_trace.
  - intros sketch_Sketch name description Hname Hproper.
    apply backs_off_intro, create_sketch_retried; assumption.
  - intros index_SearchIndex searchindex_name opensearch_index_name Hproper.
    apply backs_off_intro, create_searchindex_retried; assumption.
  - reflexivity.
  - apply backoff_trace_next.
  - apply unified_delay_closed_form.
  - repeat split; reflexivity.
Qed.

(** The schedule at concrete servers.  Against a server that always
    answers 500, the fifth attempt of [fetch_resource_data] comes after a
    sleep of [unified_delay 4] seconds, and [create_searchindex] ends with
    the events of five attempts.  Against a server that rejects the payload
    twice, the third attempt of [create_sketch] comes after a sleep of
    [unified_delay 2] seconds.  The closed form at [m = 5]. *)
Lemma backoff_schedule_witness :
  (exists o ev,
      run (fetch_resource_data session_status_500 "h" "version/" JNull)
      = Some (o,
              backoff_trace (fetch_request "h" "version/" JNull) 4%nat
                ++ Sleep (unified_delay 4)
                   :: Request (fetch_request "h" "version/" JNull) :: ev))
  /\ (exists o ev,
         run (create_sketch session_rejected_twice_then_42 "h" stored_sketch
                            "case" None)
         = Some (o,
                 backoff_trace (create_sketch_request "h" "case" None) 2%nat
                   ++ Sleep (unified_delay 2)
                      :: Request (create_sketch_request "h" "case" None)
                      :: ev))
  /\ (exists e,
         run (create_searchindex session_status_500 "h" stored_searchindex
                                 "idx" "os")
         = Some (Raise e,
                 backoff_trace (create_searchindex_request "h" "idx" "os")
                               5%nat))
  /\ backoff_trace (fetch_request "h" "version/" JNull) 2%nat
     = backoff_trace (fetch_request "h" "version/" JNull) 1%nat
         ++ [Sleep (unified_delay 1);
             Request (fetch_request "h" "version/" JNull)]
  /\ (unified_delay 4 == (1 # 2) * inject_Z (2 ^ 3))%Q.
Proof.
  pose proof (backoff_follows_unified_schedule session_status_500 "h")
    as (Hfetch & _ & Hindex & _ & Hnext & Hclosed & _).
  pose proof (backoff_follows_unified_schedule session_rejected_twice_then_42
                                               "h")
    as (_ & Hsketch & _).
  split; [|split; [|split; [|split]]].
  - apply (proj1 (proj1 (Hfetch "version/" JNull)) 5%nat); [lia|].
    intros i _. unfold transient. vm_compute. discriminate.
  - apply (proj1 (Hsketch stored_sketch "case" None
                          ltac:(discriminate) stored_sketch_proper) 3%nat);
      [lia|].
    intros i Hi. destruct i as [|[|i]];
      [split; [split; [reflexivity | vm_compute; discriminate]
              | vm_compute; discriminate] .. | cbn in Hi; lia].
  - apply (proj2 (Hindex stored_searchindex "idx" "os"
                         stored_searchindex_proper)).
    intros i _. split; [reflexivity | vm_compute; discriminate].
  - apply Hnext. lia.
  - apply (Hclosed 5%nat). lia.
Defined.

(** ** A successful attempt *)


Section Success.

Variable session : nat -> request -> reply.
Variable api_root : string.




End Success.




(** ** A rejected payload *)

Lemma proper_ret {A} (a : A) : proper (ret a).
Proof. intros t. exists (Ok a), []. rewrite app_nil_r. reflexivity. Qed.

Lemma proper_lift {A} (r : result A) : proper (lift r).
Proof.
  intros t. exists r, []. rewrite app_nil_r. destruct r; reflexivity.
Qed.

Lemma proper_bind {A B} (m : M A) (k : A -> M B) :
  proper m -> (forall a, proper (k a)) -> proper (x <- m ;; k x).
Proof.
  intros Hm Hk t. unfold bind.
  destruct (Hm t) as ([a|e] & ev & ->).
  - destruct (Hk a (t ++ ev)) as (r & ev' & ->).
    exists r, (ev ++ ev'). rewrite app_assoc. reflexivity.
  - exists (Raise e), ev. reflexivity.
Qed.

Lemma rejection_retried_intro {A} (session : nat -> request -> reply)
      (req : request) (fails : reply -> Prop) (shape accepts : json -> bool)
      (attempts : nat -> trace) (op : M A) :
  (forall r j,
      delivery_of r = Decoded j -> shape j = true -> accepts j = false ->
      fails r) ->
  retried_until_exhausted session req fails attempts op ->
  rejection_retried session req fails shape accepts attempts op.
Proof.
  intros Hrej (o & t & Hrun & Hgo & Hex) m j Hm Hbefore Hdel Hshape Hacc.
  assert (Hfails : first_attempts session req (S m) fails).
  { intros i Hi. destruct (Nat.eq_dec i m) as [->|Hne].
    - exact (Hrej _ _ Hdel Hshape Hacc).
    - apply Hbefore. lia. }
  split.
  - intros Hnext. destruct (Hgo (S m) Hnext Hfails) as [ev ->].
    exists o, ev. exact Hrun.
  - intros Hlast. rewrite Hlast in Hfails.
    destruct (Hex Hfails) as [-> [e ->]]. exists e. exact Hrun.
Qed.

Lemma rejected_is_transient (r : reply) (j : json) :
  delivery_of r = Decoded j -> any_json j = true -> fetch_accepts j = false ->
  transient fetch_accepts r.
Proof.
  unfold transient, failure_of. intros -> _ ->. discriminate.
Qed.

Lemma rejected_is_transient_object (accepts : json -> bool) (r : reply)
      (j : json) :
  delivery_of r = Decoded j -> Py.is_dict j = true -> accepts j = false ->
  transient_object accepts r.
Proof.
  unfold transient_object, json_object_reply, failure_of.
  intros -> Hdict ->. split; [exact Hdict | discriminate].
Qed.

Lemma rejected_is_transient_answer (r : reply) (j : json) :
  delivery_of r = Decoded j -> Py.is_dict j = true ->
  create_accepts j = false ->
  transient_answer create_accepts r.
Proof.
  intros Hdel Hdict Hacc. split.
  - exact (rejected_is_transient_object _ _ _ Hdel Hdict Hacc).
  - rewrite Hdel. discriminate.
Qed.

Lemma rejected_is_rejected_object (r : reply) (j : json) :
  delivery_of r = Decoded j -> Py.is_dict j = true ->
  objects_accepts j = false ->
  rejected_object objects_accepts r.
Proof.
  unfold rejected_object, json_object_reply, failure_of.
  intros -> Hdict ->. split; [exact Hdict | reflexivity].
Qed.

Lemma create_sketch_judge_non_object (r : reply) (j : json) :
  delivery_of r = Decoded j -> Py.is_dict j = false ->
  create_sketch_judge r = Abort AttributeError.
Proof. unfold create_sketch_judge. intros -> ->. reflexivity. Qed.

Lemma create_searchindex_judge_non_object (r : reply) (j : json) :
  delivery_of r = Decoded j -> Py.is_dict j = false ->
  create_searchindex_judge r = Abort AttributeError.
Proof. unfold create_searchindex_judge. intros -> ->. reflexivity. Qed.

Lemma objects_judge_non_object (r : reply) (j : json) :
  delivery_of r = Decoded j -> Py.is_dict j = false ->
  objects_judge r = Abort AttributeError.
Proof.
  unfold objects_judge. intros -> Hdict.
  destruct j; try reflexivity. discriminate.
Qed.

Section Rejection.

Variable session : nat -> request -> reply.
Variable api_root : string.

Lemma create_user_retried (user_User : json -> M pyobj)
      (username password : string) :
  (forall id, proper (user_User id)) ->
  retried_until_exhausted
    session (create_user_request api_root username password)
    (rejected_object objects_accepts)
    (plain_trace (create_user_request api_root username password))
    (create_user session api_root user_User username password).
Proof.
  intros Hproper. apply retried_until_exhausted_intro.
  - intros m Hm Hfails.
    destruct (post_goes_on
                session (api_root +s "/users/")
                (payload (create_user_request api_root username password))
                m Hm
                (first_attempts_impl _ _ _ _ _ objects_judge_transient Hfails))
      as (o & ev & Hloop).
    rewrite (create_user_after_loop session api_root user_User username
                                    password _ _ Hloop).
    destruct o as [objects|e].
    + destruct (proper_bind
                  (lift (Py.getitem0 objects))
                  (fun first =>
                     user_id <- lift (Py.getitem first "id") ;;
                     user_User user_id)
                  (proper_lift _)
                  (fun first =>
                     proper_bind _ _ (proper_lift _) Hproper)
                  (plain_trace
                     (create_user_request api_root username password) (S m)
                     ++ ev))
        as (r & ev' & Hafter).
      exists r, (ev ++ ev'). rewrite app_assoc. exact Hafter.
    + exists (Raise e), ev. reflexivity.
  - intros Hfails. exists RuntimeError.
    rewrite (create_user_after_loop
               session api_root user_User username password _ _
               (post_exhausted
                  session _ _
                  (first_attempts_impl _ _ _ _ _ objects_judge_transient
                                       Hfails))).
    reflexivity.
Qed.

Lemma create_sigmarule_retried (from_rule_uuid : json -> M json)
      (rule_yaml : string) :
  (forall u, proper (from_rule_uuid u)) ->
  retried_until_exhausted
    session (create_sigmarule_request api_root rule_yaml)
    (rejected_object objects_accepts)
    (plain_trace (create_sigmarule_request api_root rule_yaml))
    (create_sigmarule session api_root from_rule_uuid rule_yaml).
Proof.
  intros Hproper. apply retried_until_exhausted_intro.
  - intros m Hm Hfails.
    destruct (post_goes_on
                session (api_root +s "/sigmarules/")
                (payload (create_sigmarule_request api_root rule_yaml))
                m Hm
                (first_attempts_impl _ _ _ _ _ objects_judge_transient Hfails))
      as (o & ev & Hloop).
    rewrite (create_sigmarule_after_loop session api_root from_rule_uuid
                                         rule_yaml _ _ Hloop).
    destruct o as [objects|e].
    + destruct (proper_bind
                  (lift (Py.getitem0 objects))
                  (fun first =>
                     rule_uuid <- lift (Py.getitem first "rule_uuid") ;;
                     get_sigmarule from_rule_uuid rule_uuid)
                  (proper_lift _)
                  (fun first =>
                     proper_bind
                       _ _ (proper_lift _)
                       (fun u =>
                          proper_bind _ _ (Hproper u)
                                      (fun loaded =>
                                         proper_ret (SigmaRule loaded))))
                  (plain_trace
                     (create_sigmarule_request api_root rule_yaml) (S m)
                     ++ ev))
        as (r & ev' & Hafter).
      exists r, (ev ++ ev'). rewrite app_assoc. exact Hafter.
    + exists (Raise e), ev. reflexivity.
  - intros Hfails. exists RuntimeError.
    rewrite (create_sigmarule_after_loop
               session api_root from_rule_uuid rule_yaml _ _
               (post_exhausted
                  session _ _
                  (first_attempts_impl _ _ _ _ _ objects_judge_transient
                                       Hfails))).
    reflexivity.
Qed.

Lemma create_user_non_object (user_User : json -> M pyobj)
      (username password : string) :
  non_object_raises
    session (create_user_request api_root username password)
    (rejected_object objects_accepts)
    (plain_trace (create_user_request api_root username password))
    (create_user session api_root user_User username password).
Proof.
  intros m j Hm Hbefore Hdel Hdict.
  exact (create_user_after_loop
           session api_root user_User username password _ _
           (post_aborted
              session _ _ m _ Hm
              (first_attempts_impl _ _ _ _ _ objects_judge_transient Hbefore)
              (objects_judge_non_object _ _ Hdel Hdict))).
Qed.

Lemma create_sigmarule_non_object (from_rule_uuid : json -> M json)
      (rule_yaml : string) :
  non_object_raises
    session (create_sigmarule_request api_root rule_yaml)
    (rejected_object objects_accepts)
    (plain_trace (create_sigmarule_request api_root rule_yaml))
    (create_sigmarule session api_root from_rule_uuid rule_yaml).
Proof.
  intros m j Hm Hbefore Hdel Hdict.
  exact (create_sigmarule_after_loop
           session api_root from_rule_uuid rule_yaml _ _
           (post_aborted
              session _ _ m _ Hm
              (first_attempts_impl _ _ _ _ _ objects_judge_transient Hbefore)
              (objects_judge_non_object _ _ Hdel Hdict))).
Qed.

End Rejection.

(** C7, as amended.  A 20x reply whose decoded payload the validation
    predicate rejects is retried, not returned: when it is the reply to
    attempt [m + 1] after [m] failed attempts, the operation goes on to
    attempt [m + 2], or raises when attempt [m + 1] was the fifth.  In
    [fetch_resource_data] this holds of every falsy payload.  In
    [create_sketch], [create_searchindex], [create_user] and
    [create_sigmarule] it holds of the payloads that are JSON objects
    (such as one whose ["objects"] is an empty list); a decoded payload
    that is not a JSON object makes each of them raise [AttributeError] at
    once.  The constructors of the wrappers and [from_rule_uuid] are calls
    that end. *)
Theorem rejected_payload_is_retried
        (session : nat -> request -> reply) (api_root : string) :
  (forall uri params,
      rejection_retried
        session (fetch_request api_root uri params) (transient fetch_accepts)
        any_json fetch_accepts
        (backoff_trace (fetch_request api_root uri params))
        (fetch_resource_data session api_root uri params))
  /\ (forall sketch_Sketch name description,
         name <> "" ->
         (forall id, proper (sketch_Sketch id)) ->
         rejection_retried
           session (create_sketch_request api_root name description)
           (transient_answer create_accepts) Py.is_dict create_accepts
           (backoff_trace (create_sketch_request api_root name description))
           (create_sketch session api_root sketch_Sketch name description))
  /\ (forall index_SearchIndex searchindex_name opensearch_index_name,
         (forall id, proper (index_SearchIndex id)) ->
         rejection_retried
           session
           (create_searchindex_request api_root searchindex_name
                                       opensearch_index_name)
           (transient_object create_accepts) Py.is_dict create_accepts
           (backoff_trace (create_searchindex_request
                             api_root searchindex_name opensearch_index_name))
           (create_searchindex session api_root index_SearchIndex
                               searchindex_name opensearch_index_name))
  /\ (forall user_User username password,
         (forall id, proper (user_User id)) ->
         rejection_retried
           session (create_user_request api_root username password)
           (rejected_object objects_accepts) Py.is_dict objects_accepts
           (plain_trace (create_user_request api_root username password))
           (create_user session api_root user_User username password))
  /\ (forall from_rule_uuid rule_yaml,
         (forall u, proper (from_rule_uuid u)) ->
         rejection_retried
           session (create_sigmarule_request api_root rule_yaml)
           (rejected_object objects_accepts) Py.is_dict objects_accepts
           (plain_trace (create_sigmarule_request api_root rule_yaml))
           (create_sigmarule session api_root from_rule_uuid rule_yaml))
  /\ (forall sketch_Sketch name description,
         name <> "" ->
         non_object_raises
           session (create_sketch_request api_root name description)
           (transient_answer create_accepts)
           (backoff_trace (create_sketch_request api_root name description))
           (create_sketch session api_root sketch_Sketch name description))
  /\ (forall index_SearchIndex searchindex_name opensearch_index_name,
         non_object_raises
           session
           (create_searchindex_request api_root searchindex_name
                                       opensearch_index_name)
           (transient_object create_accepts)
           (backoff_trace (create_searchindex_request
                             api_root searchindex_name opensearch_index_name))
           (create_searchindex session api_root index_SearchIndex
                               searchindex_name opensearch_index_name))
  /\ (forall user_User username password,
         non_object_raises
           session (create_user_request api_root username password)
           (rejected_object objects_accepts)
           (plain_trace (create_user_request api_root username password))
           (create_user session api_root user_User username password))
  /\ (forall from_rule_uuid rule_yaml,
         non_object_raises
           session (create_sigmarule_request api_root rule_yaml)
           (rejected_object objects_accepts)
           (plain_trace (create_sigmarule_request api_root rule_yaml))
           (create_sigmarule session api_root from_rule_uuid rule_yaml)).
Proof.
  split; [|split; [|split; [|split; [|split; [|split; [|split; [|split]]]]]]].
  - intros uri params.
    apply (rejection_retried_intro _ _ _ _ _ _ _ rejected_is_transient).
    apply fetch_resource_data_retried.
  - intros sketch_Sketch name description Hname Hproper.
    apply (rejection_retried_intro _ _ _ _ _ _ _ rejected_is_transient_answer).
    apply create_sketch_retried; assumption.
  - intros index_SearchIndex searchindex_name opensearch_index_name Hproper.
    apply (rejection_retried_intro
             _ _ _ _ _ _ _ (rejected_is_transient_object create_accepts)).
    apply create_searchindex_retried; assumption.
  - intros user_User username password Hproper.
    apply (rejection_retried_intro _ _ _ _ _ _ _ rejected_is_rejected_object).
    apply create_user_retried; assumption.
  - intros from_rule_uuid rule_yaml Hproper.
    apply (rejection_retried_intro _ _ _ _ _ _ _ rejected_is_rejected_object).
    apply create_sigmarule_retried; assumption.
  - intros sketch_Sketch name description Hname m j Hm Hbefore Hdel Hdict.
    apply (create_sketch_aborts session api_root sketch_Sketch name
                                description Hname m AttributeError Hm).
    + exact (first_attempts_impl _ _ _ _ _ create_sketch_judge_transient
                                 Hbefore).
    + exact (create_sketch_judge_non_object _ _ Hdel Hdict).
  - intros index_SearchIndex searchindex_name opensearch_index_name
           m j Hm Hbefore Hdel Hdict.
    apply (create_searchindex_aborts session api_root index_SearchIndex
                                     searchindex_name opensearch_index_name
                                     m AttributeError Hm).
    + exact (first_attempts_impl _ _ _ _ _ create_searchindex_judge_transient
                                 Hbefore).
    + exact (create_searchindex_judge_non_object _ _ Hdel Hdict).
  - intros user_User username password. apply create_user_non_object.
  - intros from_rule_uuid rule_yaml. apply create_sigmarule_non_object.
Qed.

Lemma raise_proper {A} (e : exn) : proper (raise (A := A) e).
Proof. intros t. exists (Raise e), []. rewrite app_nil_r. reflexivity. Qed.

(** Servers that answer 200 with an empty ["objects"]: every time, so that
    the fifth attempt of [fetch_resource_data] and of [create_searchindex]
    is a rejected payload and they raise; twice and then with an id, so
    that the second rejected payload of [create_sketch], [create_user] and
    [create_sigmarule] is followed by a third attempt.  A server that
    answers with the JSON list [[]]: each create operation raises
    [AttributeError] after one request. *)
Lemma rejected_payload_witness :
  (exists o ev,
      run (fetch_resource_data
             (fun _ _ => Answer (mkResponse 200 (Some JNull))) "h" "version/"
             JNull)
      = Some (o, backoff_trace (fetch_request "h" "version/" JNull) 2%nat
                   ++ ev))
  /\ (exists o ev,
         run (create_sketch session_rejected_twice_then_42 "h" stored_sketch
                            "case" None)
         = Some (o,
                 backoff_trace (create_sketch_request "h" "case" None) 3%nat
                   ++ ev))
  /\ (exists e,
         run (create_searchindex session_empty_objects "h" stored_searchindex
                                 "idx" "os")
         = Some (Raise e,
                 backoff_trace (create_searchindex_request "h" "idx" "os")
                               5%nat))
  /\ (exists o ev,
         run (create_user session_rejected_twice_then_42 "h" stored_user
                          "u" "p")
         = Some (o, plain_trace (create_user_request "h" "u" "p") 3%nat
                      ++ ev))
  /\ (exists o ev,
         run (create_sigmarule session_rejected_twice_then_rule "h"
                               rule_not_loaded "title: x")
         = Some (o,
                 plain_trace (create_sigmarule_request "h" "title: x") 3%nat
                   ++ ev))
  /\ run (create_sketch session_empty_list "h" stored_sketch "case" None)
     = Some (Raise AttributeError,
             backoff_trace (create_sketch_request "h" "case" None) 1%nat)
  /\ run (create_searchindex session_empty_list "h" stored_searchindex "idx"
                             "os")
     = Some (Raise AttributeError,
             backoff_trace (create_searchindex_request "h" "idx" "os") 1%nat)
  /\ run (create_user session_empty_list "h" stored_user "u" "p")
     = Some (Raise AttributeError,
             plain_trace (create_user_request "h" "u" "p") 1%nat)
  /\ run (create_sigmarule session_empty_list "h" rule_not_loaded "title: x")
     = Some (Raise AttributeError,
             plain_trace (create_sigmarule_request "h" "title: x") 1%nat).
Proof.
  pose proof (rejected_payload_is_retried
                (fun _ _ => Answer (mkResponse 200 (Some JNull))) "h")
    as (Hfetch & _).
  pose proof (rejected_payload_is_retried session_rejected_twice_then_42 "h")
    as (_ & Hsketch & _ & Huser & _).
  pose proof (rejected_payload_is_retried session_empty_objects "h")
    as (_ & _ & Hindex & _).
  pose proof (rejected_payload_is_retried session_rejected_twice_then_rule
                                          "h")
    as (_ & _ & _ & _ & Hrule & _).
  pose proof (rejected_payload_is_retried session_empty_list "h")
    as (_ & _ & _ & _ & _ & Hsketch0 & Hindex0 & Huser0 & Hrule0).
  split; [|split; [|split; [|split; [|split; [|split; [|split; [|split]]]]]]].
  - apply (proj1 (Hfetch "version/" JNull 0%nat JNull ltac:(lia)
                         ltac:(intros i Hi; lia) eq_refl eq_refl eq_refl)).
    lia.
  - apply (proj1 (Hsketch stored_sketch "case" None ltac:(discriminate)
                          stored_sketch_proper 1%nat payload_no_objects
                          ltac:(lia)
                          ltac:(intros i Hi; destruct i as [|i];
                                [split; [split; [reflexivity
                                                | vm_compute; discriminate]
                                        | vm_compute; discriminate]
                                | lia])
                          eq_refl eq_refl eq_refl)).
    lia.
  - apply (proj2 (Hindex stored_searchindex "idx" "os"
                         stored_searchindex_proper 4%nat payload_no_objects
                         ltac:(lia)
                         ltac:(intros i Hi;
                               split; [reflexivity
                                      | vm_compute; discriminate])
                         eq_refl eq_refl eq_refl)).
    reflexivity.
  - apply (proj1 (Huser stored_user "u" "p" stored_user_proper 1%nat
                        payload_no_objects ltac:(lia)
                        ltac:(intros i Hi; destruct i as [|i];
                              [split; reflexivity | lia])
                        eq_refl eq_refl eq_refl)).
    lia.
  - apply (proj1 (Hrule rule_not_loaded "title: x"
                        (fun u => raise_proper RuntimeError) 1%nat
                        payload_no_objects ltac:(lia)
                        ltac:(intros i Hi; destruct i as [|i];
                              [split; reflexivity | lia])
                        eq_refl eq_refl eq_refl)).
    lia.
  - apply (Hsketch0 stored_sketch "case" None ltac:(discriminate) 0%nat
                    (JList []) ltac:(lia) ltac:(intros i Hi; lia)
                    eq_refl eq_refl).
  - apply (Hindex0 stored_searchindex "idx" "os" 0%nat (JList [])
                   ltac:(lia) ltac:(intros i Hi; lia) eq_refl eq_refl).
  - apply (Huser0 stored_user "u" "p" 0%nat (JList [])
                  ltac:(lia) ltac:(intros i Hi; lia) eq_refl eq_refl).
  - apply (Hrule0 rule_not_loaded "title: x" 0%nat (JList [])
                  ltac:(lia) ltac:(intros i Hi; lia) eq_refl eq_refl).
Defined.

(** C7 as stated fails: the decoded payload [[]] of a 200 reply is falsy
    and is not retried by [create_sketch], which raises [AttributeError]
    after its first request. *)
Lemma create_sketch_falsy_payload_not_retried :
  delivery_of (session_empty_list 0%nat (create_sketch_request "h" "case" None))
  = Decoded (JList [])
  /\ Py.truthy (JList []) = false
  /\ create_accepts (JList []) = false
  /\ forall sketch_Sketch,
      run (create_sketch session_empty_list "h" sketch_Sketch "case" None)
      = Some (Raise AttributeError,
              [Request (create_sketch_request "h" "case" None)]).
Proof. repeat split. Qed.

(** ** Create-with-id *)





(** ** Input guards *)

(** C6, as amended.  [create_sketch] with an empty name and
    [parse_sigmarule_by_text] with an empty rule text raise [ValueError]
    before any network call: the trace of the call is empty, whatever the
    constructor of [sketch.Sketch] is.
    ([create_sigmarule] has no such guard.) *)
Theorem empty_input_raises_before_any_call
        (session : nat -> request -> reply) (api_root : string) :
  (forall sketch_Sketch description,
      run (create_sketch session api_root sketch_Sketch "" description)
      = Some (Raise ValueError, []))
  /\ (forall from_text,
         run (parse_sigmarule_by_text from_text "")
         = Some (Raise ValueError, [])).
Proof.
  split.
  - intros sketch_Sketch description. reflexivity.
  - intros from_text. reflexivity.
Qed.

(** C6 as stated fails for [create_sigmarule]: an empty rule text is posted
    to the server like any other. *)
Lemma create_sigmarule_empty_rule_is_posted :
  run (create_sigmarule session_status_500 "h" rule_not_loaded "")
  = Some (Raise RuntimeError, [Request (create_sigmarule_request "h" "")])
  /\ ~ (exists e,
           run (create_sigmarule session_status_500 "h" rule_not_loaded "")
           = Some (Raise e, [])).
Proof.
  split; [reflexivity|].
  intros (e & Hrun). vm_compute in Hrun. discriminate.
Qed.

(** ** Listings *)

Lemma setitem_setitem (key : string) (v w : json) (d : list (string * json)) :
  Py.setitem key v (Py.setitem key w d) = Py.setitem key v d.
Proof.
  induction d as [|[k x] d IH]; cbn [Py.setitem].
  - rewrite String.eqb_refl. reflexivity.
  - destruct (String.eqb k key) eqn:Hk; cbn [Py.setitem]; rewrite Hk.
    + reflexivity.
    + rewrite IH. reflexivity.
Qed.

Lemma requests_map_yield {B} (f : B -> pyobj) (items : list B) :
  requests (map (fun item => Yield (f item)) items) = [].
Proof. induction items as [|item items IH]; [reflexivity | exact IH]. Qed.

Lemma yields_map_yield {B} (f : B -> pyobj) (items : list B) :
  yields (map (fun item => Yield (f item)) items) = map f items.
Proof.
  induction items as [|item items IH]; [reflexivity|].
  cbn [map yields]. rewrite IH. reflexivity.
Qed.

Section Listing.

Variable session : nat -> request -> reply.
Variable api_root : string.

(** A fetch whose first attempt delivers a truthy payload returns it after
    that one request. *)
Lemma fetch_first_attempt (uri : string) (params : json) (t : trace)
      (j : json) :
  delivery_of (session (n_requests t) (fetch_request api_root uri params))
  = Decoded j ->
  Py.truthy j = true ->
  fetch_resource_data session api_root uri params t
  = Some (Ok j, t ++ [Request (fetch_request api_root uri params)]).
Proof.
  intros Hdel Htruthy.
  rewrite fetch_resource_data_engine. cbn [retry_engine].
  change (pause_events fetch_pause 0) with (@nil event).
  rewrite app_nil_r. unfold fetch_judge, fetch_accepts.
  rewrite Hdel, Htruthy. reflexivity.
Qed.

Lemma for_each_sketch (entries : list json) (items : list (json * json))
      (t : trace) :
  Forall2 (fun entry item =>
             Py.getitem entry "id" = Ok (fst item)
             /\ Py.getitem entry "name" = Ok (snd item))
          entries items ->
  for_each entries
           (fun sketch_dict =>
              sketch_id <- lift (Py.getitem sketch_dict "id") ;;
              sketch_name <- lift (Py.getitem sketch_dict "name") ;;
              yield (Sketch sketch_id sketch_name))%py t
  = Some (Ok tt, t ++ map (fun item => Yield (sketch_of item)) items).
Proof.
  intros Hall. revert t.
  induction Hall as [|entry item entries items [Hid Hname] _ IH]; intros t.
  - cbn [for_each map]. rewrite app_nil_r. reflexivity.
  - cbn [for_each map]. unfold bind at 1. unfold bind at 1.
    rewrite Hid. cbn [lift]. unfold ret at 1. unfold bind at 1.
    rewrite Hname. cbn [lift]. unfold ret at 1.
    unfold yield, emit. rewrite IH, <- app_assoc. reflexivity.
Qed.

Lemma list_sketches_loop_pages (server : json -> json)
      (base : list (string * json)) (page : json)
      (dataset : list (json * list (json * json))) :
  serves session api_root base server ->
  paginated server page dataset ->
  forall (fuel : nat) (url_params : list (string * json)) (t0 : trace),
    (List.length dataset <= fuel)%nat ->
    (forall p, Py.setitem "page" p url_params = Py.setitem "page" p base) ->
    exists t,
      list_sketches_loop session api_root fuel url_params page t0
      = Some (Ok tt, t0 ++ t)
      /\ requests t
         = map (fun p => sketches_request api_root base (fst p)) dataset
      /\ yields t = map sketch_of (List.concat (map snd dataset)).
Proof.
  intros Hserves Hpages.
  induction Hpages as [page items next Hresp Hnext
                      |page items next rest Hresp Hnext Hrest IH];
    intros fuel url_params t0 Hfuel Hparams;
    (destruct fuel as [|fuel]; [cbn [List.length] in Hfuel; lia|]);
    destruct Hresp as (Htruthy & (meta & Hmeta & Hnp)
                       & entries & Hobjects & Hentries);
    cbn [list_sketches_loop];
    unfold bind at 1;
    rewrite Hparams;
    rewrite (fetch_first_attempt "sketches/" _ t0 (server page))
      by (try apply Hserves; assumption);
    unfold bind at 1; rewrite Hmeta; cbn [lift]; unfold ret at 1;
    unfold bind at 1; rewrite Hnp; cbn [lift]; unfold ret at 1;
    unfold bind at 1; rewrite Hobjects; cbn [lift]; unfold ret at 1;
    unfold bind at 1; cbn [Py.iter lift]; unfold ret at 1;
    unfold bind at 1; rewrite (for_each_sketch entries items _ Hentries);
    rewrite Hnext.
  - exists (Request (sketches_request api_root base page)
            :: map (fun item => Yield (sketch_of item)) items).
    split; [|split].
    + unfold ret. rewrite <- app_assoc. reflexivity.
    + cbn [requests map fst]. rewrite requests_map_yield. reflexivity.
    + cbn [yields map snd List.concat]. rewrite app_nil_r.
      apply yields_map_yield.
  - destruct (IH fuel (Py.setitem "page" page base)
                 ((t0 ++ [Request (sketches_request api_root base page)])
                    ++ map (fun item => Yield (sketch_of item)) items))
      as (t & Hrun & Hreq & Hyield).
    + cbn [List.length] in Hfuel. lia.
    + intros p. apply setitem_setitem.
    + exists ((Request (sketches_request api_root base page)
               :: map (fun item => Yield (sketch_of item)) items) ++ t).
      split; [|split].
      * unfold sketches_request, fetch_request in *. rewrite Hrun.
        rewrite <- !app_assoc. reflexivity.
      * rewrite requests_app, Hreq. cbn [requests map fst app].
        rewrite requests_map_yield. reflexivity.
      * rewrite yields_app, Hyield. cbn [yields map snd List.concat].
        rewrite map_app, yields_map_yield. reflexivity.
Qed.

End Listing.

Lemma paginated_head (server : json -> json) (page : json)
      (dataset : list (json * list (json * json))) :
  paginated server page dataset ->
  exists items rest, dataset = (page, items) :: rest.
Proof.
  intros H. destruct H as [page items next _ _|page items next rest _ _ _].
  - exists items, []. reflexivity.
  - exists items, rest. reflexivity.
Qed.

(** C8.  Over a session that serves an unchanged dataset with finitely many
    pages, [list_sketches] (given fuel for that many pages) finishes
    without error; it asks for page 1 first and then for each page named by
    the previous [meta.next_page], stopping at the first page whose
    [next_page] is absent or falsy; it yields one [Sketch] per entry of
    each page's ["objects"], in order; and two listing calls, whatever was
    done before them, yield the same sequence. *)
Theorem list_sketches_paginates
        (session : nat -> request -> reply) (api_root : string)
        (per_page : Z) (scope : string) (include_archived : bool)
        (server : json -> json)
        (dataset : list (json * list (json * json))) :
  serves session api_root (sketch_params per_page scope include_archived)
         server ->
  paginated server (JInt 1) dataset ->
  (forall fuel t0,
      (List.length dataset <= fuel)%nat ->
      exists t,
        list_sketches session api_root fuel per_page scope include_archived t0
        = Some (Ok tt, t0 ++ t)
        /\ lists_dataset api_root
                         (sketch_params per_page scope include_archived)
                         dataset t)
  /\ (forall fuel1 fuel2 t1 t2,
         (List.length dataset <= fuel1)%nat ->
         (List.length dataset <= fuel2)%nat ->
         exists e1 e2,
           list_sketches session api_root fuel1 per_page scope
                         include_archived t1 = Some (Ok tt, t1 ++ e1)
           /\ list_sketches session api_root fuel2 per_page scope
                            include_archived t2 = Some (Ok tt, t2 ++ e2)
           /\ yields e1 = yields e2).
Proof.
  intros Hserves Hpages.
  assert (Hlist :
            forall fuel t0,
              (List.length dataset <= fuel)%nat ->
              exists t,
                list_sketches session api_root fuel per_page scope
                              include_archived t0 = Some (Ok tt, t0 ++ t)
                /\ lists_dataset
                     api_root (sketch_params per_page scope include_archived)
                     dataset t).
  { intros fuel t0 Hfuel.
    destruct (list_sketches_loop_pages
                session api_root server
                (sketch_params per_page scope include_archived)
                (JInt 1) dataset Hserves Hpages fuel
                (sketch_params per_page scope include_archived) t0 Hfuel)
      as (t & Hrun & Hreq & Hyield); [reflexivity|].
    exists t. split; [exact Hrun|]. split; [exact Hreq|]. split.
    - rewrite Hreq.
      destruct (paginated_head _ _ _ Hpages) as (items & rest & ->).
      reflexivity.
    - exact Hyield. }
  split; [exact Hlist|].
  intros fuel1 fuel2 t1 t2 Hfuel1 Hfuel2.
  destruct (Hlist fuel1 t1 Hfuel1) as (e1 & Hrun1 & _ & _ & Hy1).
  destruct (Hlist fuel2 t2 Hfuel2) as (e2 & Hrun2 & _ & _ & Hy2).
  exists e1, e2. split; [exact Hrun1|]. split; [exact Hrun2|].
  rewrite Hy1, Hy2. reflexivity.
Qed.

Lemma list_sketches_witness :
  exists t,
    list_sketches session_two_pages "h" 2 50 "user" true [] = Some (Ok tt, t)
    /\ yields t = [Sketch (JInt 1) (JStr "a");
                   Sketch (JInt 2) (JStr "b");
                   Sketch (JInt 3) (JStr "c")]
    /\ n_requests t = 2%nat.
Proof.
  destruct (proj1 (list_sketches_paginates
                     session_two_pages "h" 50 "user" true two_pages
                     two_pages_dataset
                     ltac:(intros n page; reflexivity)
                     ltac:(apply more_pages with (next := JInt 2);
                           [ split; [reflexivity|]; split;
                             [ eexists; split; reflexivity
                             | eexists; split; [reflexivity|];
                               repeat constructor ]
                           | reflexivity
                           | apply last_page with (next := JNull);
                             [ split; [reflexivity|]; split;
                               [ eexists; split; reflexivity
                               | eexists; split; [reflexivity|];
                                 repeat constructor ]
                             | reflexivity ] ]))
                  2%nat [] ltac:(cbn; lia))
    as (t & Hrun & Hreq & _ & Hyield).
  exists t. split; [exact Hrun|]. split; [exact Hyield|].
  rewrite n_requests_length, Hreq. reflexivity.
Defined.

Section UsersAndIndices.

Variable session : nat -> request -> reply.
Variable api_root : string.

Lemma for_each_user (users : list json) (ids : list json) (t : trace) :
  Forall2 (fun user_dict user_id => Py.getitem user_dict "id" = Ok user_id)
          users ids ->
  for_each users
           (fun user_dict =>
              user_id <- lift (Py.getitem user_dict "id") ;;
              yield (User user_id))%py t
  = Some (Ok tt, t ++ map (fun user_id => Yield (User user_id)) ids).
Proof.
  intros Hall. revert t.
  induction Hall as [|user_dict user_id users ids Hid _ IH]; intros t.
  - cbn [for_each map]. rewrite app_nil_r. reflexivity.
  - cbn [for_each map]. unfold bind at 1. unfold bind at 1.
    rewrite Hid. cbn [lift]. unfold ret at 1.
    unfold yield, emit. rewrite IH, <- app_assoc. reflexivity.
Qed.

(** Iterating over strings (the characters of a string, the keys of a
    dict) stops at the first one: a string has no item ["id"]. *)
Lemma for_each_user_strings (keys : list string) (t : trace) :
  exists o,
    for_each (map JStr keys)
             (fun user_dict =>
                user_id <- lift (Py.getitem user_dict "id") ;;
                yield (User user_id))%py t
    = Some (o, t).
Proof.
  destruct keys as [|k keys].
  - exists (Ok tt). reflexivity.
  - exists (Raise TypeError). reflexivity.
Qed.

Lemma chars_strings (s : string) :
  exists keys, Py.chars s = map JStr keys.
Proof.
  induction s as [|c s [keys IH]].
  - exists []. reflexivity.
  - exists (String c EmptyString :: keys). cbn [Py.chars map].
    rewrite IH. reflexivity.
Qed.

Lemma list_users_yields_only_from_list (d : list (string * json))
      (t0 t1 : trace) (o : result unit) (t : trace) :
  fetch_resource_data session api_root "users/" JNull t0
  = Some (Ok (JDict d), t1) ->
  list_users session api_root t0 = Some (o, t) ->
  yields t <> yields t1 ->
  exists user_dict users rest user_id,
    Py.lookup "objects" d = Some (JList (JList (user_dict :: users) :: rest))
    /\ Py.getitem user_dict "id" = Ok user_id.
Proof.
  intros Hfetch. unfold list_users. unfold bind at 1. rewrite Hfetch.
  unfold bind at 1. cbn [Py.get lift]. unfold ret at 1.
  destruct (Py.lookup "objects" d) as [objects|].
  2:{ cbn. intros [= <- <-] H. contradiction. }
  destruct objects as [| | |s|l|d'];
    try (cbn; intros [= <- <-] H; contradiction).
  - (* a string: its first character is a string again *)
    destruct s as [|c s]; [cbn; intros [= <- <-] H; contradiction|].
    cbn. intros [= <- <-] H. contradiction.
  - destruct l as [|first rest]; [cbn; intros [= <- <-] H; contradiction|].
    unfold bind at 1. cbn [Py.getitem0 lift]. unfold ret at 1.
    destruct first as [| | |s|users|d'];
      try (cbn; intros [= <- <-] H; contradiction).
    + unfold bind at 1. cbn [Py.iter lift]. unfold ret at 1.
      destruct (chars_strings s) as [keys ->].
      destruct (for_each_user_strings keys t1) as [o' Ho'].
      rewrite Ho'. intros [= <- <-] H. contradiction.
    + unfold bind at 1. cbn [Py.iter lift]. unfold ret at 1.
      destruct users as [|user_dict users];
        [cbn; intros [= <- <-] H; contradiction|].
      destruct (Py.getitem user_dict "id") as [user_id|e] eqn:Hid.
      * intros _ _. exists user_dict, users, rest, user_id.
        split; [reflexivity | exact Hid].
      * cbn [for_each]. unfold bind at 1. unfold bind at 1.
        rewrite Hid. cbn. intros [= <- <-] H. contradiction.
    + unfold bind at 1. cbn [Py.iter lift]. unfold ret at 1.
      rewrite <- (map_map fst JStr).
      destruct (for_each_user_strings (map fst d') t1) as [o' Ho'].
      rewrite Ho'. intros [= <- <-] H. contradiction.
Qed.

End UsersAndIndices.

(** C9.  Let the fetch of ["users/"] return a JSON object.  If its
    ["objects"] is absent (so that the default [[]] is used) or an empty
    list, consuming [list_users] raises [IndexError] and yields nothing.
    If [objects[0]] is a list of user dictionaries, one [User] is yielded
    per dictionary.  And a [User] is yielded only when [objects[0]] is a
    list that starts with a dictionary holding ["id"]. *)
Theorem list_users_indexes_first_object
        (session : nat -> request -> reply) (api_root : string)
        (d : list (string * json)) (t0 t1 : trace) :
  fetch_resource_data session api_root "users/" JNull t0
  = Some (Ok (JDict d), t1) ->
  (Py.lookup "objects" d = None \/ Py.lookup "objects" d = Some (JList []) ->
   list_users session api_root t0 = Some (Raise IndexError, t1))
  /\ (forall users rest ids,
         Py.lookup "objects" d = Some (JList (JList users :: rest)) ->
         Forall2 (fun user_dict user_id =>
                    Py.getitem user_dict "id" = Ok user_id) users ids ->
         list_users session api_root t0
         = Some (Ok tt, t1 ++ map (fun user_id => Yield (User user_id)) ids))
  /\ (forall o t,
         list_users session api_root t0 = Some (o, t) ->
         yields t <> yields t1 ->
         exists user_dict users rest user_id,
           Py.lookup "objects" d
           = Some (JList (JList (user_dict :: users) :: rest))
           /\ Py.getitem user_dict "id" = Ok user_id).
Proof.
  intros Hfetch. split; [|split].
  - intros Hobjects. unfold list_users. unfold bind at 1. rewrite Hfetch.
    unfold bind at 1. cbn [Py.get lift]. unfold ret at 1.
    destruct Hobjects as [-> | ->]; reflexivity.
  - intros users rest ids Hobjects Hids.
    unfold list_users. unfold bind at 1. rewrite Hfetch.
    unfold bind at 1. cbn [Py.get lift]. unfold ret at 1.
    rewrite Hobjects.
    unfold bind at 1. cbn [Py.getitem0 lift]. unfold ret at 1.
    unfold bind at 1. cbn [Py.iter lift]. unfold ret at 1.
    apply for_each_user. exact Hids.
  - intros o t. apply list_users_yields_only_from_list. exact Hfetch.
Qed.

(** C10.  Let the fetch of ["searchindices/"] return a JSON object whose
    ["objects"] is absent or falsy.  Then consuming [list_searchindices]
    yields exactly one element, [None], and stops without error. *)
Theorem list_searchindices_yields_none
        (session : nat -> request -> reply) (api_root : string)
        (d : list (string * json)) (t0 t1 : trace) :
  fetch_resource_data session api_root "searchindices/" JNull t0
  = Some (Ok (JDict d), t1) ->
  (Py.lookup "objects" d = None
   \/ exists objects,
       Py.lookup "objects" d = Some objects /\ Py.truthy objects = false) ->
  list_searchindices session api_root t0 = Some (Ok tt, t1 ++ [Yield PyNone])
  /\ yields (t1 ++ [Yield PyNone]) = yields t1 ++ [PyNone].
Proof.
  intros Hfetch Hobjects. split.
  - unfold list_searchindices. unfold bind at 1. rewrite Hfetch.
    unfold bind at 1. cbn [Py.get lift]. unfold ret at 1.
    destruct Hobjects as [-> | (objects & -> & Hfalsy)].
    + reflexivity.
    + rewrite Hfalsy. reflexivity.
  - rewrite yields_app. reflexivity.
Qed.

(** A payload without ["objects"] makes [list_users] raise; a payload whose
    [objects[0]] lists two users makes it yield both. *)
Lemma list_users_witness :
  list_users session_meta_only "h" []
  = Some (Raise IndexError, [Request (fetch_request "h" "users/" JNull)])
  /\ list_users session_two_users "h" []
     = Some (Ok tt,
             [Request (fetch_request "h" "users/" JNull)]
               ++ map (fun user_id => Yield (User user_id)) [JInt 1; JInt 2])
  /\ exists user_dict users rest user_id,
      Py.lookup "objects" users_payload
      = Some (JList (JList (user_dict :: users) :: rest))
      /\ Py.getitem user_dict "id" = Ok user_id.
Proof.
  split; [|split].
  - apply (proj1 (list_users_indexes_first_object
                    session_meta_only "h" [("meta", JDict [])] []
                    [Request (fetch_request "h" "users/" JNull)] eq_refl)).
    left. reflexivity.
  - apply (proj1 (proj2 (list_users_indexes_first_object
                           session_two_users "h" users_payload []
                           [Request (fetch_request "h" "users/" JNull)]
                           eq_refl))
                 [JDict [("id", JInt 1)]; JDict [("id", JInt 2)]] []
                 [JInt 1; JInt 2]).
    + reflexivity.
    + repeat constructor.
  - apply (proj2 (proj2 (list_users_indexes_first_object
                           session_two_users "h" users_payload []
                           [Request (fetch_request "h" "users/" JNull)]
                           eq_refl))
                 (Ok tt)
                 ([Request (fetch_request "h" "users/" JNull)]
                    ++ map (fun user_id => Yield (User user_id))
                           [JInt 1; JInt 2])).
    + reflexivity.
    + discriminate.
Defined.

(** A payload with an empty ["objects"]: [list_searchindices] yields
    [None] once. *)
Lemma list_searchindices_witness :
  list_searchindices session_empty_objects "h" []
  = Some (Ok tt,
          [Request (fetch_request "h" "searchindices/" JNull)]
            ++ [Yield PyNone])
  /\ yields ([Request (fetch_request "h" "searchindices/" JNull)]
               ++ [Yield PyNone])
     = yields [Request (fetch_request "h" "searchindices/" JNull)] ++ [PyNone].
Proof.
  apply (list_searchindices_yields_none
           session_empty_objects "h" [("objects", JList [])] []
           [Request (fetch_request "h" "searchindices/" JNull)] eq_refl).
  right. exists (JList []). split; reflexivity.
Defined.

(** * Further properties of the client *)

(** ** Results and errors of the retry loops *)

Lemma sleeps_app (t1 t2 : trace) : sleeps (t1 ++ t2) = sleeps t1 ++ sleeps t2.
Proof.
  induction t1 as [|ev t1 IH]; simpl; [reflexivity|].
  destruct ev; simpl; rewrite IH; reflexivity.
Qed.

Section MoreRunFacts.

Variable session : nat -> request -> reply.
Context {A : Type}.
Variable judge : reply -> verdict A.
Variable pause : nat -> option Q.
Variable exhausted : exn -> exn.
Variable req : request.
Variables (n0 done left : nat) (o : result A) (t : trace).
Hypothesis Hrun : engine_run session judge pause exhausted req n0 done left o t.

(** A run that returns does so from an accepted last attempt. *)
Lemma run_returns_accepted (a : A) :
  o = Ok a ->
  judge (session (n0 + (n_requests t - 1))%nat req) = Accept a.
Proof.
  destruct Hrun as (k & Hk & -> & Hretry & Hlast).
  rewrite n_requests_schedule. intros ->.
  destruct (judge (session (n0 + (k - 1))%nat req)) as [a'|e'|e'].
  - congruence.
  - destruct Hlast; discriminate.
  - discriminate.
Qed.

(** A run that raises does so from its last attempt: either that attempt
    aborted, or it was the last of the budget. *)
Lemma run_raises_from_last (e : exn) :
  o = Raise e ->
  judge (session (n0 + (n_requests t - 1))%nat req) = Abort e
  \/ (n_requests t = left
      /\ exists e', judge (session (n0 + (n_requests t - 1))%nat req) = Retry e'
                    /\ e = exhausted e').
Proof.
  destruct Hrun as (k & Hk & -> & Hretry & Hlast).
  rewrite n_requests_schedule. intros ->.
  destruct (judge (session (n0 + (k - 1))%nat req)) as [a'|e'|e'].
  - discriminate.
  - destruct Hlast as [-> Ho]. right. split; [reflexivity|].
    exists e'. split; [reflexivity | congruence].
  - left. congruence.
Qed.

Lemma run_sleeps :
  sleeps t = flat_map (fun i => match pause i with
                                | Some q => [q]
                                | None => []
                                end) (seq done (n_requests t)).
Proof.
  destruct Hrun as (k & Hk & -> & _).
  rewrite n_requests_schedule. clear.
  revert done; induction k as [|k IH]; intros done; [reflexivity|].
  cbn [schedule seq flat_map]. rewrite sleeps_app. cbn [sleeps].
  rewrite IH. unfold pause_events. destruct (pause done); reflexivity.
Qed.

End MoreRunFacts.

Lemma fetch_judge_accept_inv (r : reply) (j : json) :
  fetch_judge r = Accept j ->
  delivery_of r = Decoded j /\ Py.truthy j = true.
Proof.
  unfold fetch_judge, fetch_accepts.
  destruct (delivery_of r) as [| | |j']; try discriminate.
  destruct (Py.truthy j') eqn:Htruthy; [|discriminate].
  intros [= ->]. split; [reflexivity | exact Htruthy].
Qed.

Lemma fetch_judge_retry_inv (r : reply) (e : exn) :
  fetch_judge r = Retry e ->
  exists k, failure_of fetch_accepts r = Some k /\ e = exn_of_failure k.
Proof.
  unfold fetch_judge, failure_of.
  destruct (delivery_of r) as [| | |j].
  - intros [= <-]. exists ConnectionFailure. split; reflexivity.
  - intros [= <-]. exists StatusFailure. split; reflexivity.
  - intros [= <-]. exists DecodeFailure. split; reflexivity.
  - destruct (fetch_accepts j); [discriminate|].
    intros [= <-]. exists ValidationFailure. split; reflexivity.
Qed.

(** The run of a fetch that starts after any trace. *)
Lemma fetch_resource_data_run_from
      (session : nat -> request -> reply) (api_root uri : string)
      (params : json) (t0 : trace) :
  exists o t,
    fetch_resource_data session api_root uri params t0 = Some (o, t0 ++ t)
    /\ engine_run session fetch_judge fetch_pause (fun e => e)
                  (fetch_request api_root uri params) (n_requests t0) 0 5 o t.
Proof.
  rewrite fetch_resource_data_engine.
  destruct (retry_engine_run session fetch_judge fetch_pause (fun e => e)
              (fetch_request api_root uri params) 5 0 t0)
    as (t' & Ht & Hrun); [lia|].
  destruct (retry_engine _ _ _ _ _ _ _ _) as [o t].
  cbn [fst snd] in *. subst t.
  exists o, t'. split; [reflexivity | exact Hrun].
Qed.

Lemma fetch_ok_truthy
      (session : nat -> request -> reply) (api_root uri : string)
      (params : json) (t0 t : trace) (j : json) :
  fetch_resource_data session api_root uri params t0 = Some (Ok j, t) ->
  Py.truthy j = true
  /\ exists n, delivery_of (session n (fetch_request api_root uri params))
               = Decoded j.
Proof.
  intros Hfetch.
  destruct (fetch_resource_data_run_from session api_root uri params t0)
    as (o & t' & Hrun & Heng).
  rewrite Hfetch in Hrun. injection Hrun as <- ->.
  pose proof (run_returns_accepted _ _ _ _ _ _ _ _ _ _ Heng j eq_refl) as Hj.
  destruct (fetch_judge_accept_inv _ _ Hj) as [Hdel Htruthy].
  split; [exact Htruthy|]. eexists. exact Hdel.
Qed.

(** X1.  [fetch_resource_data] only ever returns a truthy payload, and that
    payload is the decoded body of one of the replies: [None], [{}], [[]],
    [0], [""] and [False] are never handed to the caller. *)
Theorem fetch_resource_data_returns_truthy
        (session : nat -> request -> reply) (api_root uri : string)
        (params : json) (t0 t : trace) (j : json) :
  fetch_resource_data session api_root uri params t0 = Some (Ok j, t) ->
  Py.truthy j = true
  /\ exists n, delivery_of (session n (fetch_request api_root uri params))
               = Decoded j.
Proof. apply fetch_ok_truthy. Qed.

Lemma fetch_resource_data_returns_truthy_witness :
  Py.truthy payload_42 = true
  /\ exists n, delivery_of (session_500_twice_then_42
                              n (fetch_request "h" "sketches/7" JNull))
               = Decoded payload_42.
Proof.
  apply (fetch_resource_data_returns_truthy
           session_500_twice_then_42 "h" "sketches/7" JNull []
           [Request (fetch_request "h" "sketches/7" JNull);
            Sleep ((1 # 2) * inject_Z (2 ^ (0 + 1 + 1 - 2)));
            Request (fetch_request "h" "sketches/7" JNull);
            Sleep ((1 # 2) * inject_Z (2 ^ (0 + 1 + 1 + 1 - 2)));
            Request (fetch_request "h" "sketches/7" JNull)]
           payload_42).
  reflexivity.
Defined.

(** X2.  On a client with a session, [fetch_resource_data] ends, and
    when it raises it has made all five attempts and the class of the error
    is that of the fifth attempt's failure: [ConnectionError] for a
    connection failure, [ValueError] for a body that is not JSON,
    [RuntimeError] for a non-20x status or a falsy payload. *)
Theorem fetch_resource_data_error_class
        (server : http_session -> nat -> request -> reply)
        (self : TimesketchApi) (s : http_session) (uri : string)
        (params : json) :
  self_session self = Some s ->
  exists o t,
    run (api_fetch_resource_data server self uri params) = Some (o, t)
    /\ forall e,
        o = Raise e ->
        n_requests t = 5%nat
        /\ exists k,
            failure_of fetch_accepts
                       (server s 4%nat
                               (fetch_request (self_api_root self) uri params))
            = Some k
            /\ e = exn_of_failure k.
Proof.
  intros Hsession. unfold run.
  rewrite (api_fetch_resource_data_with_session server self s Hsession).
  destruct (fetch_resource_data_run (server s) (self_api_root self) uri params)
    as (o & t & Hrun & Heng).
  exists o, t. split; [exact Hrun|].
  intros e He.
  destruct (run_raises_from_last _ _ _ _ _ _ _ _ _ _ Heng e He)
    as [Hab | (Hn & e' & Hre & ->)].
  - exfalso. exact (fetch_judge_no_abort _ _ Hab).
  - split; [exact Hn|]. rewrite Hn in Hre. cbn [Nat.add Nat.sub] in Hre.
    exact (fetch_judge_retry_inv _ _ Hre).
Qed.

Lemma fetch_resource_data_error_class_witness :
  exists t,
    run (api_fetch_resource_data (fun _ => session_unreachable)
                                 api_with_session "version/" JNull)
    = Some (Raise ConnectionError, t)
    /\ n_requests t = 5%nat.
Proof.
  destruct (fetch_resource_data_error_class
              (fun _ => session_unreachable) api_with_session plain_session
              "version/" JNull eq_refl)
    as (o & t & Hrun & Herr).
  assert (Ho : o = Raise ConnectionError).
  { vm_compute in Hrun. injection Hrun as <- _. reflexivity. }
  destruct (Herr ConnectionError Ho) as (Hn & _).
  exists t. rewrite Hrun, Ho. split; [reflexivity | exact Hn].
Defined.

Lemma create_sketch_judge_abort_inv (r : reply) (e : exn) :
  create_sketch_judge r = Abort e ->
  (e = ConnectionError /\ delivery_of r = Unreachable)
  \/ (e = AttributeError
      /\ exists j, delivery_of r = Decoded j /\ Py.is_dict j = false).
Proof.
  unfold create_sketch_judge.
  destruct (delivery_of r) as [| | |j]; try discriminate.
  - intros [= <-]. left. split; reflexivity.
  - destruct (Py.is_dict j) eqn:Hdict.
    + destruct (create_accepts j); discriminate.
    + intros [= <-]. right. split; [reflexivity|].
      exists j. split; [reflexivity | exact Hdict].
Qed.

Lemma create_searchindex_judge_abort_inv (r : reply) (e : exn) :
  create_searchindex_judge r = Abort e ->
  e = AttributeError
  /\ exists j, delivery_of r = Decoded j /\ Py.is_dict j = false.
Proof.
  unfold create_searchindex_judge.
  destruct (delivery_of r) as [| | |j]; try discriminate.
  destruct (Py.is_dict j) eqn:Hdict.
  - destruct (create_accepts j); discriminate.
  - intros [= <-]. split; [reflexivity|].
    exists j. split; [reflexivity | exact Hdict].
Qed.

(** X3.  On a client with a session, [create_sketch] with a non-empty
    name never raises [ValueError], whatever the constructor of
    [sketch.Sketch] does.  With a constructor that only makes its object,
    the call ends and raises one of three errors only: [RuntimeError] once
    all five attempts have failed, whatever the kind of the failures (also
    for undecodable bodies); the [ConnectionError] of a connection failure,
    at the attempt where it happens; or [AttributeError] when a decoded
    payload is not a JSON object. *)
Theorem create_sketch_error_classes
        (server : http_session -> nat -> request -> reply)
        (self : TimesketchApi) (s : http_session) (name : string)
        (description : option string) :
  self_session self = Some s ->
  name <> "" ->
  (forall sketch_Sketch e t,
      run (api_create_sketch server sketch_Sketch self name description)
      = Some (Raise e, t) ->
      e <> ValueError)
  /\ forall sketch_Sketch,
      stores sketch_Sketch ->
      exists o t,
        run (api_create_sketch server sketch_Sketch self name description)
        = Some (o, t)
        /\ forall e,
            o = Raise e ->
            (e = RuntimeError /\ n_requests t = 5%nat)
            \/ (e = ConnectionError
                /\ delivery_of
                     (server s (n_requests t - 1)%nat
                             (create_sketch_request (self_api_root self) name
                                                    description))
                   = Unreachable)
            \/ (e = AttributeError
                /\ exists j,
                    delivery_of
                      (server s (n_requests t - 1)%nat
                              (create_sketch_request (self_api_root self) name
                                                     description))
                    = Decoded j
                    /\ Py.is_dict j = false).
Proof.
  intros Hsession Hname. split.
  - intros sketch_Sketch e t. unfold run.
    rewrite (api_create_sketch_with_session server self s Hsession).
    apply create_sketch_raises. exact Hname.
  - intros sketch_Sketch Hstores. unfold run.
    rewrite (api_create_sketch_with_session server self s Hsession).
    destruct (create_sketch_stored_run
                (server s) (self_api_root self) sketch_Sketch name description
                Hname Hstores)
      as (o & k & Hk & Hrun & Hlast).
    exists o. eexists. split; [exact Hrun|].
    intros e ->. rewrite n_requests_backoff_trace.
    destruct (create_sketch_judge _) as [id|e'|e'] eqn:Hj.
    + destruct Hlast as [sk Hsk]. discriminate.
    + destruct Hlast as [-> [= ->]]. left. split; reflexivity.
    + injection Hlast as ->.
      destruct (create_sketch_judge_abort_inv _ _ Hj)
        as [[-> Hdel] | [-> Hdec]].
      * right. left. split; [reflexivity | exact Hdel].
      * right. right. split; [reflexivity | exact Hdec].
Qed.

Lemma create_sketch_error_classes_witness :
  exists t,
    run (api_create_sketch (fun _ _ _ => Answer (mkResponse 200 None))
                           stored_sketch api_with_session "case" None)
    = Some (Raise RuntimeError, t)
    /\ n_requests t = 5%nat.
Proof.
  destruct (create_sketch_error_classes
              (fun _ _ _ => Answer (mkResponse 200 None)) api_with_session
              plain_session "case" None eq_refl)
    as [Hnever Hclasses].
  - discriminate.
  - destruct (Hclasses stored_sketch stored_sketch_stores)
      as (o & t & Hrun & Herr).
    assert (Ho : o = Raise RuntimeError).
    { vm_compute in Hrun. injection Hrun as <- _. reflexivity. }
    assert (Hne : RuntimeError <> ValueError).
    { apply (Hnever stored_sketch RuntimeError t). rewrite Hrun, Ho.
      reflexivity. }
    destruct (Herr RuntimeError Ho) as [[_ Hn] | [[H _] | [H _]]];
      try discriminate H.
    exists t. rewrite Hrun, Ho. split; [reflexivity | exact Hn].
Defined.

(** X4.  On a client with a session, [RuntimeError] and [ConnectionError]
    never reach the caller of [create_searchindex], whatever the
    constructor of [index.SearchIndex] does.  With a constructor that only
    makes its object, the call ends; when all five attempts fail, the error
    that reaches the caller is a [ValueError], whatever the failures were
    (the f-string evaluated on exhaustion formats the integer [0] with code
    [s]), and the only other error is the [AttributeError] of a decoded
    payload that is not a JSON object. *)
Theorem create_searchindex_error_classes
        (server : http_session -> nat -> request -> reply)
        (self : TimesketchApi) (s : http_session)
        (searchindex_name opensearch_index_name : string) :
  self_session self = Some s ->
  (forall index_SearchIndex e t,
      run (api_create_searchindex server index_SearchIndex self
                                  searchindex_name opensearch_index_name)
      = Some (Raise e, t) ->
      e <> RuntimeError /\ e <> ConnectionError)
  /\ forall index_SearchIndex,
      stores index_SearchIndex ->
      exists o t,
        run (api_create_searchindex server index_SearchIndex self
                                    searchindex_name opensearch_index_name)
        = Some (o, t)
        /\ forall e,
            o = Raise e ->
            (e = ValueError /\ n_requests t = 5%nat)
            \/ (e = AttributeError
                /\ exists j,
                    delivery_of
                      (server s (n_requests t - 1)%nat
                              (create_searchindex_request
                                 (self_api_root self) searchindex_name
                                 opensearch_index_name))
                    = Decoded j
                    /\ Py.is_dict j = false).
Proof.
  intros Hsession. split.
  - intros index_SearchIndex e t. unfold run.
    rewrite (api_create_searchindex_with_session server self s Hsession).
    apply create_searchindex_raises.
  - intros index_SearchIndex Hstores. unfold run.
    rewrite (api_create_searchindex_with_session server self s Hsession).
    destruct (create_searchindex_stored_run
                (server s) (self_api_root self) index_SearchIndex
                searchindex_name opensearch_index_name Hstores)
      as (o & k & Hk & Hrun & Hlast).
    exists o. eexists. split; [exact Hrun|].
    intros e ->. rewrite n_requests_backoff_trace.
    destruct (create_searchindex_judge _) as [id|e'|e'] eqn:Hj.
    + destruct Hlast as [ix Hix]. discriminate.
    + destruct Hlast as [-> [= ->]]. left. split; reflexivity.
    + injection Hlast as ->.
      destruct (create_searchindex_judge_abort_inv _ _ Hj) as [-> Hdec].
      right. split; [reflexivity | exact Hdec].
Qed.

Lemma create_searchindex_error_classes_witness :
  exists t,
    run (api_create_searchindex (fun _ => session_status_500)
                                stored_searchindex api_with_session
                                "idx" "os")
    = Some (Raise ValueError, t)
    /\ n_requests t = 5%nat.
Proof.
  destruct (create_searchindex_error_classes
              (fun _ => session_status_500) api_with_session plain_session
              "idx" "os" eq_refl)
    as [Hnever Hclasses].
  destruct (Hclasses stored_searchindex stored_searchindex_stores)
    as (o & t & Hrun & Herr).
  assert (Ho : o = Raise ValueError).
  { vm_compute in Hrun. injection Hrun as <- _. reflexivity. }
  assert (Hne : ValueError <> RuntimeError /\ ValueError <> ConnectionError).
  { apply (Hnever stored_searchindex ValueError t). rewrite Hrun, Ho.
    reflexivity. }
  destruct (Herr ValueError Ho) as [[_ Hn] | [H _]]; [|discriminate H].
  exists t. rewrite Hrun, Ho. split; [reflexivity | exact Hn].
Defined.

(** ** Work done by a call *)

Lemma backoff_trace_bounded (req : request) (k : nat) :
  (1 <= k <= 5)%nat -> bounded_work req (backoff_trace req k).
Proof.
  intros Hk. unfold bounded_work. rewrite n_requests_backoff_trace.
  split; [exact Hk|]. split; [apply requests_schedule|].
  destruct k as [|[|[|[|[|[|k]]]]]]; try lia;
    (split; [vm_compute; reflexivity | vm_compute; discriminate]).
Qed.

(** X5.  On a client with a session, every call of [fetch_resource_data],
    and every call of [create_sketch] and [create_searchindex] whose
    constructor only makes its object, ends after between one and five
    requests, each the same request (same method, URL and parameters or
    body), and sleeps [0.5 * (2^(k-1) - 1)] seconds in all when it makes
    [k] attempts: at most 7.5 seconds. *)
Theorem retry_work_is_bounded
        (server : http_session -> nat -> request -> reply)
        (self : TimesketchApi) (s : http_session) :
  self_session self = Some s ->
  (forall uri params,
      exists o t,
        run (api_fetch_resource_data server self uri params) = Some (o, t)
        /\ bounded_work (fetch_request (self_api_root self) uri params) t)
  /\ (forall sketch_Sketch name description,
         name <> "" ->
         stores sketch_Sketch ->
         exists o t,
           run (api_create_sketch server sketch_Sketch self name description)
           = Some (o, t)
           /\ bounded_work (create_sketch_request (self_api_root self) name
                                                  description) t)
  /\ (forall index_SearchIndex searchindex_name opensearch_index_name,
         stores index_SearchIndex ->
         exists o t,
           run (api_create_searchindex server index_SearchIndex self
                                       searchindex_name opensearch_index_name)
           = Some (o, t)
           /\ bounded_work (create_searchindex_request
                              (self_api_root self) searchindex_name
                              opensearch_index_name)
                           t).
Proof.
  intros Hsession. split; [|split].
  - intros uri params. unfold run.
    rewrite (api_fetch_resource_data_with_session server self s Hsession).
    destruct (fetch_resource_data_trace (server s) (self_api_root self) uri
                                        params)
      as (o & k & Hk & Hrun).
    exists o. eexists. split; [exact Hrun|].
    apply backoff_trace_bounded. exact Hk.
  - intros sketch_Sketch name description Hname Hstores. unfold run.
    rewrite (api_create_sketch_with_session server self s Hsession).
    destruct (create_sketch_stored_run
                (server s) (self_api_root self) sketch_Sketch name description
                Hname Hstores)
      as (o & k & Hk & Hrun & _).
    exists o. eexists. split; [exact Hrun|].
    apply backoff_trace_bounded. exact Hk.
  - intros index_SearchIndex searchindex_name opensearch_index_name Hstores.
    unfold run.
    rewrite (api_create_searchindex_with_session server self s Hsession).
    destruct (create_searchindex_stored_run
                (server s) (self_api_root self) index_SearchIndex
                searchindex_name opensearch_index_name Hstores)
      as (o & k & Hk & Hrun & _).
    exists o. eexists. split; [exact Hrun|].
    apply backoff_trace_bounded. exact Hk.
Qed.

Lemma retry_work_is_bounded_witness :
  (exists o t,
      run (api_fetch_resource_data (fun _ => session_status_500)
                                   api_with_session "version/" JNull)
      = Some (o, t)
      /\ bounded_work (fetch_request "h/api/v1" "version/" JNull) t)
  /\ (exists o t,
         run (api_create_sketch (fun _ => session_status_500) stored_sketch
                                api_with_session "case" None)
         = Some (o, t)
         /\ bounded_work (create_sketch_request "h/api/v1" "case" None) t)
  /\ (exists o t,
         run (api_create_searchindex (fun _ => session_500_twice_then_42)
                                     stored_searchindex api_with_session
                                     "idx" "os")
         = Some (o, t)
         /\ bounded_work (create_searchindex_request "h/api/v1" "idx" "os")
                         t).
Proof.
  split; [|split].
  - apply (proj1 (retry_work_is_bounded (fun _ => session_status_500)
                                        api_with_session plain_session
                                        eq_refl)).
  - apply (proj1 (proj2 (retry_work_is_bounded (fun _ => session_status_500)
                                               api_with_session plain_session
                                               eq_refl)));
      [discriminate | exact stored_sketch_stores].
  - apply (proj2 (proj2 (retry_work_is_bounded
                           (fun _ => session_500_twice_then_42)
                           api_with_session plain_session eq_refl))).
    exact stored_searchindex_stores.
Defined.

Lemma no_pause_sleeps (l : list nat) :
  flat_map (fun i => match no_pause i with
                     | Some q => [q]
                     | None => []
                     end) l = [].
Proof. induction l as [|i l IH]; [reflexivity | exact IH]. Qed.

(** After the loop of [create_user], a constructor that only makes its
    object leaves the trace as it is. *)
Lemma after_loop_stores (user_User : json -> M pyobj) (objects : json)
      (t : trace) :
  stores user_User ->
  exists r,
    (first <- lift (Py.getitem0 objects) ;;
     user_id <- lift (Py.getitem first "id") ;;
     user_User user_id) t
    = Some (r, t).
Proof.
  intros Hstores. unfold bind.
  destruct (Py.getitem0 objects) as [first|e]; cbn [lift ret raise];
    [|exists (Raise e); reflexivity].
  destruct (Py.getitem first "id") as [user_id|e]; cbn [lift ret raise];
    [|exists (Raise e); reflexivity].
  destruct (Hstores user_id t) as [o ->]. exists (Ok o). reflexivity.
Qed.

(** X6.  On a client with a session, [create_user] (with a constructor
    that only makes its object) and the loop of [create_sigmarule] retry
    without any backoff: they end, never sleep, and make between one and
    five requests. *)
Theorem create_user_never_sleeps
        (server : http_session -> nat -> request -> reply)
        (self : TimesketchApi) (s : http_session) :
  self_session self = Some s ->
  (forall user_User username password,
      stores user_User ->
      exists o t,
        run (api_create_user server user_User self username password)
        = Some (o, t)
        /\ sleeps t = []
        /\ (1 <= n_requests t <= 5)%nat)
  /\ (forall rule_yaml,
         exists o t,
           run (api_create_sigmarule_loop server self rule_yaml) = Some (o, t)
           /\ sleeps t = []
           /\ (1 <= n_requests t <= 5)%nat).
Proof.
  intros Hsession. split.
  - intros user_User username password Hstores. unfold run.
    rewrite (api_create_user_with_session server self s Hsession).
    destruct (post_until_objects_run
                (server s) (self_api_root self +s "/users/")
                (payload (create_user_request (self_api_root self) username
                                              password)))
      as (o1 & t & Hloop & Heng).
    pose proof (create_user_after_loop
                  (server s) (self_api_root self) user_User username password
                  o1 t Hloop) as Hrun.
    unfold run in Hrun. rewrite Hrun.
    assert (Hwork : sleeps t = [] /\ (1 <= n_requests t <= 5)%nat).
    { split.
      - rewrite (run_sleeps _ _ _ _ _ _ _ _ _ _ Heng). apply no_pause_sleeps.
      - apply (run_attempts _ _ _ _ _ _ _ _ _ _ Heng). }
    destruct o1 as [objects|e].
    + destruct (after_loop_stores user_User objects t Hstores) as [r ->].
      exists r, t. split; [reflexivity | exact Hwork].
    + exists (Raise e), t. split; [reflexivity | exact Hwork].
  - intros rule_yaml. unfold run.
    rewrite (api_create_sigmarule_loop_with_session server self s Hsession).
    destruct (post_until_objects_run
                (server s) (self_api_root self +s "/sigmarules/")
                (payload (create_sigmarule_request (self_api_root self)
                                                   rule_yaml)))
      as (o & t & Hloop & Heng).
    exists o, t. split; [exact Hloop|]. split.
    + rewrite (run_sleeps _ _ _ _ _ _ _ _ _ _ Heng). apply no_pause_sleeps.
    + apply (run_attempts _ _ _ _ _ _ _ _ _ _ Heng).
Qed.

Lemma create_user_never_sleeps_witness :
  (exists o t,
      run (api_create_user (fun _ => session_rejected_twice_then_42)
                           stored_user api_with_session "u" "p")
      = Some (o, t)
      /\ sleeps t = []
      /\ (1 <= n_requests t <= 5)%nat)
  /\ (exists o t,
         run (api_create_sigmarule_loop (fun _ => session_empty_objects)
                                        api_with_session "title: x")
         = Some (o, t)
         /\ sleeps t = []
         /\ (1 <= n_requests t <= 5)%nat).
Proof.
  split.
  - apply (proj1 (create_user_never_sleeps
                    (fun _ => session_rejected_twice_then_42)
                    api_with_session plain_session eq_refl)).
    exact stored_user_stores.
  - apply (proj2 (create_user_never_sleeps
                    (fun _ => session_empty_objects)
                    api_with_session plain_session eq_refl)).
Defined.

(** ** Listings: endless servers, failures half way, the shape of
    ["objects"] *)

Lemma schedule_yields {A} (judge : reply -> verdict A) (pause : nat -> option Q)
      (req : request) (done k : nat) :
  yields (schedule pause req done k) = [].
Proof.
  revert done; induction k as [|k IH]; intros done; [reflexivity|].
  cbn [schedule]. rewrite yields_app. cbn [yields]. rewrite IH.
  unfold pause_events. destruct (pause done); reflexivity.
Qed.

Section MoreListing.

Variable session : nat -> request -> reply.
Variable api_root : string.

(** One round of [list_sketches_loop] over a page that is delivered at the
    first attempt: what is left to run is the test of [next_page]. *)
Lemma list_sketches_loop_round (server : json -> json)
      (base url_params : list (string * json)) (page : json)
      (items : list (json * json)) (next : json) (fuel : nat) (t0 : trace) :
  delivery_of (session (n_requests t0) (sketches_request api_root base page))
  = Decoded (server page) ->
  page_response (server page) items next ->
  (forall p, Py.setitem "page" p url_params = Py.setitem "page" p base) ->
  list_sketches_loop session api_root (S fuel) url_params page t0
  = (if Py.truthy next
     then list_sketches_loop session api_root fuel
                             (Py.setitem "page" page base) next
     else ret tt)
      ((t0 ++ [Request (sketches_request api_root base page)])
         ++ map (fun item => Yield (sketch_of item)) items).
Proof.
  intros Hdel (Htruthy & (meta & Hmeta & Hnp) & entries & Hobjects & Hentries)
         Hparams.
  cbn [list_sketches_loop].
  unfold bind at 1. rewrite Hparams.
  rewrite (fetch_first_attempt session api_root "sketches/" _ t0 (server page))
    by assumption.
  unfold bind at 1. rewrite Hmeta. cbn [lift]. unfold ret at 1.
  unfold bind at 1. rewrite Hnp. cbn [lift]. unfold ret at 1.
  unfold bind at 1. rewrite Hobjects. cbn [lift]. unfold ret at 1.
  unfold bind at 1. cbn [Py.iter lift]. unfold ret at 1.
  unfold bind at 1.
  rewrite (for_each_sketch entries items _ Hentries).
  reflexivity.
Qed.

Lemma list_sketches_loop_endless (server : json -> json)
      (base : list (string * json)) :
  serves session api_root base server ->
  (forall page, exists items next,
      page_response (server page) items next /\ Py.truthy next = true) ->
  forall (fuel : nat) (url_params : list (string * json)) (page : json)
         (t0 : trace),
    (forall p, Py.setitem "page" p url_params = Py.setitem "page" p base) ->
    list_sketches_loop session api_root fuel url_params page t0 = None.
Proof.
  intros Hserves Hmore.
  induction fuel as [|fuel IH]; intros url_params page t0 Hparams;
    [reflexivity|].
  destruct (Hmore page) as (items & next & Hresp & Hnext).
  rewrite (list_sketches_loop_round server base url_params page items next
                                    fuel t0 (Hserves _ _) Hresp Hparams).
  rewrite Hnext. apply IH. intros p. apply setitem_setitem.
Qed.

End MoreListing.

(** X7.  [list_sketches] has no guard against a listing that never ends:
    over a server whose every page names a next page (a truthy
    [meta.next_page]), the loop is still running after any number of
    rounds, so the generator never finishes. *)
Theorem list_sketches_endless_listing
        (session : nat -> request -> reply) (api_root : string)
        (per_page : Z) (scope : string) (include_archived : bool)
        (server : json -> json) :
  serves session api_root (sketch_params per_page scope include_archived)
         server ->
  (forall page, exists items next,
      page_response (server page) items next /\ Py.truthy next = true) ->
  forall fuel t0,
    list_sketches session api_root fuel per_page scope include_archived t0
    = None.
Proof.
  intros Hserves Hmore fuel t0. unfold list_sketches.
  apply (list_sketches_loop_endless
           session api_root server
           (sketch_params per_page scope include_archived) Hserves Hmore).
  reflexivity.
Qed.

Lemma list_sketches_endless_witness :
  list_sketches session_endless "h" 1000 50 "user" true [] = None.
Proof.
  apply (list_sketches_endless_listing
           session_endless "h" 50 "user" true (fun _ => endless_page)).
  - intros n page. reflexivity.
  - intros page. exists [], (JInt 1). split; [|reflexivity].
    split; [reflexivity|]. split.
    + eexists. split; reflexivity.
    + exists []. split; [reflexivity | constructor].
Defined.

(** X8.  A failure half way through a listing comes after the sketches of
    the pages before it: when page 1 is delivered and names a next page
    whose fetch fails on all five attempts, [list_sketches] has yielded the
    sketches of page 1 and then raises, after six requests. *)
Theorem list_sketches_yields_before_failure
        (session : nat -> request -> reply) (api_root : string)
        (per_page : Z) (scope : string) (include_archived : bool)
        (resp : json) (items : list (json * json)) (next : json)
        (fuel : nat) (t0 : trace) :
  (2 <= fuel)%nat ->
  delivery_of
    (session (n_requests t0)
             (sketches_request api_root
                               (sketch_params per_page scope include_archived)
                               (JInt 1)))
  = Decoded resp ->
  page_response resp items next ->
  Py.truthy next = true ->
  (forall n,
      transient fetch_accepts
                (session n (sketches_request
                              api_root
                              (sketch_params per_page scope include_archived)
                              next))) ->
  exists e t,
    list_sketches session api_root fuel per_page scope include_archived t0
    = Some (Raise e, t0 ++ t)
    /\ yields t = map sketch_of items
    /\ n_requests t = 6%nat.
Proof.
  intros Hfuel Hdel Hresp Hnext Hfail.
  destruct fuel as [|[|fuel]]; try lia.
  set (base := sketch_params per_page scope include_archived) in *.
  change (list_sketches session api_root (S (S fuel)) per_page scope
                        include_archived t0)
    with (list_sketches_loop session api_root (S (S fuel)) base (JInt 1) t0).
  rewrite (list_sketches_loop_round session api_root (fun _ => resp) base base
                                    (JInt 1) items next (S fuel) t0
                                    Hdel Hresp (fun p => eq_refl)).
  rewrite Hnext.
  set (t1 := (t0 ++ [Request (sketches_request api_root base (JInt 1))])
               ++ map (fun item => Yield (sketch_of item)) items).
  cbn [list_sketches_loop]. unfold bind at 1.
  rewrite setitem_setitem.
  destruct (fetch_resource_data_run_from
              session api_root "sketches/"
              (JDict (Py.setitem "page" next base)) t1)
    as (o & t & Hrun & Heng).
  rewrite Hrun.
  destruct (run_all_retry _ _ _ _ _ _ _ _ _ _ Heng) as (Hn & e & ->).
  { intros i _. specialize (Hfail (n_requests t1 + i)%nat).
    unfold transient in Hfail.
    destruct (failure_of fetch_accepts _) as [k|] eqn:Hk; [|congruence].
    exists (exn_of_failure k). apply fetch_judge_failure. exact Hk. }
  exists e, ([Request (sketches_request api_root base (JInt 1))]
               ++ map (fun item => Yield (sketch_of item)) items ++ t).
  split; [|split].
  - unfold t1. rewrite <- !app_assoc. reflexivity.
  - rewrite !yields_app, yields_map_yield. cbn [yields app].
    destruct Heng as (k & _ & -> & _).
    rewrite (schedule_yields fetch_judge). apply app_nil_r.
  - rewrite !n_requests_app, Hn. cbn [n_requests].
    rewrite n_requests_length, requests_map_yield. reflexivity.
Qed.

Lemma list_sketches_yields_before_failure_witness :
  exists e t,
    list_sketches session_second_page_down "h" 2 50 "user" true []
    = Some (Raise e, [] ++ t)
    /\ yields t = map sketch_of [(JInt 1, JStr "a"); (JInt 2, JStr "b")]
    /\ n_requests t = 6%nat.
Proof.
  apply (list_sketches_yields_before_failure
           session_second_page_down "h" 50 "user" true
           (two_pages (JInt 1)) [(JInt 1, JStr "a"); (JInt 2, JStr "b")]
           (JInt 2) 2 []).
  - lia.
  - reflexivity.
  - split; [reflexivity|]. split.
    + eexists. split; reflexivity.
    + eexists. split; [reflexivity | repeat constructor].
  - reflexivity.
  - intros n. unfold transient. vm_compute. discriminate.
Defined.

(** X9.  [list_users] and [list_searchindices] read the entries from
    [objects[0]].  Given the flat shape that [list_sketches] reads, a list
    whose first element is a non-empty dictionary, they iterate over the
    keys of that dictionary and raise [TypeError] without yielding
    anything. *)
Theorem flat_objects_raise_type_error
        (session : nat -> request -> reply) (api_root : string)
        (d : list (string * json))
        (key : string) (value : json) (entry : list (string * json))
        (rest : list json) (t0 t1 : trace) :
  Py.lookup "objects" d
  = Some (JList (JDict ((key, value) :: entry) :: rest)) ->
  (fetch_resource_data session api_root "users/" JNull t0
   = Some (Ok (JDict d), t1) ->
   list_users session api_root t0 = Some (Raise TypeError, t1))
  /\ (fetch_resource_data session api_root "searchindices/" JNull t0
      = Some (Ok (JDict d), t1) ->
      list_searchindices session api_root t0 = Some (Raise TypeError, t1)).
Proof.
  intros Hobjects. split; intros Hfetch.
  - unfold list_users. unfold bind at 1. rewrite Hfetch.
    unfold bind at 1. cbn [Py.get lift]. unfold ret at 1.
    rewrite Hobjects. reflexivity.
  - unfold list_searchindices. unfold bind at 1. rewrite Hfetch.
    unfold bind at 1. cbn [Py.get lift]. unfold ret at 1.
    rewrite Hobjects. reflexivity.
Qed.

Lemma flat_objects_raise_type_error_witness :
  list_users session_flat "h" []
  = Some (Raise TypeError, [Request (fetch_request "h" "users/" JNull)])
  /\ list_searchindices session_flat "h" []
     = Some (Raise TypeError,
             [Request (fetch_request "h" "searchindices/" JNull)]).
Proof.
  split.
  - apply (proj1 (flat_objects_raise_type_error
                    session_flat "h" flat_payload
                    "id" (JInt 1) [("name", JStr "a")] [] []
                    [Request (fetch_request "h" "users/" JNull)] eq_refl)).
    reflexivity.
  - apply (proj2 (flat_objects_raise_type_error
                    session_flat "h" flat_payload
                    "id" (JInt 1) [("name", JStr "a")] [] []
                    [Request (fetch_request "h" "searchindices/" JNull)]
                    eq_refl)).
    reflexivity.
Defined.

(** ** [list_sigmarules] *)

Section SigmaRules.

Variable set_value : pyobj -> string -> json -> pyobj.

Lemma sigma_rules_dicts (good : list (list (string * json)))
      (rest : list json) (rules : list pyobj) :
  Forall (fun items => items <> []) good ->
  sigma_rules set_value (map JDict good ++ rest) rules
  = sigma_rules set_value rest
                (rules ++ map (set_values set_value (SigmaRule JNull)) good).
Proof.
  intros Hgood. revert rules.
  induction Hgood as [|items good Hitems _ IH]; intros rules.
  - cbn [map app]. rewrite app_nil_r. reflexivity.
  - cbn [map app sigma_rules].
    destruct items as [|item items]; [contradiction|].
    cbn [Py.truthy negb]. rewrite IH, <- app_assoc. reflexivity.
Qed.

End SigmaRules.

(** X10.  Let the fetch of ["sigmarules/"] return a JSON object.
    [list_sigmarules] raises [KeyError] when it has no ["objects"]; it
    returns the empty list, and no [ValueError], when ["objects"] is empty;
    it returns one rule object per dictionary, in order, when every listed
    rule is a non-empty dictionary; and a single falsy entry makes it raise
    [ValueError], so that the rules listed before it are lost. *)
Theorem list_sigmarules_edge_cases
        (session : nat -> request -> reply) (api_root : string)
        (pandas_frame : Type) (from_records : json -> result pandas_frame)
        (set_value : pyobj -> string -> json -> pyobj)
        (d : list (string * json)) (t0 t1 : trace) :
  fetch_resource_data session api_root "sigmarules/" JNull t0
  = Some (Ok (JDict d), t1) ->
  (Py.lookup "objects" d = None ->
   list_sigmarules session api_root pandas_frame from_records set_value
                   false t0
   = Some (Raise KeyError, t1))
  /\ (Py.lookup "objects" d = Some (JList []) ->
      list_sigmarules session api_root pandas_frame from_records set_value
                      false t0
      = Some (Ok (RuleList []), t1))
  /\ (forall good,
         Py.lookup "objects" d = Some (JList (map JDict good)) ->
         Forall (fun items => items <> []) good ->
         list_sigmarules session api_root pandas_frame from_records set_value
                         false t0
         = Some (Ok (RuleList (map (set_values set_value (SigmaRule JNull))
                                   good)),
                 t1))
  /\ (forall good bad rest,
         Py.lookup "objects" d = Some (JList (map JDict good ++ bad :: rest)) ->
         Forall (fun items => items <> []) good ->
         Py.truthy bad = false ->
         list_sigmarules session api_root pandas_frame from_records set_value
                         false t0
         = Some (Raise ValueError, t1)).
Proof.
  intros Hfetch.
  destruct (fetch_ok_truthy _ _ _ _ _ _ _ Hfetch) as [Htruthy _].
  assert (Hstart :
            list_sigmarules session api_root pandas_frame from_records
                            set_value false t0
            = (objects <- lift (Py.getitem (JDict d) "objects") ;;
               rule_dicts <- lift (Py.iter objects) ;;
               rules <- lift (sigma_rules set_value rule_dicts []) ;;
               ret (RuleList rules))%py t1).
  { unfold list_sigmarules. unfold bind at 1. rewrite Hfetch.
    rewrite Htruthy. reflexivity. }
  rewrite Hstart. clear Hstart.
  unfold bind, ret. cbn [Py.getitem lift].
  split; [|split; [|split]].
  - intros Hobjects. rewrite Hobjects. reflexivity.
  - intros Hobjects. rewrite Hobjects. reflexivity.
  - intros good Hobjects Hgood. rewrite Hobjects.
    unfold lift, Py.iter, ret, raise.
    pose proof (sigma_rules_dicts set_value good [] [] Hgood) as Hrules.
    rewrite app_nil_r in Hrules. rewrite Hrules. reflexivity.
  - intros good bad rest Hobjects Hgood Hbad. rewrite Hobjects.
    unfold lift, Py.iter, ret, raise.
    rewrite (sigma_rules_dicts set_value good (bad :: rest) [] Hgood).
    cbn [sigma_rules]. rewrite Hbad. reflexivity.
Qed.

Lemma list_sigmarules_edge_cases_witness :
  list_sigmarules session_two_rules "h" unit (fun _ => Ok tt) keep_value
                  false []
  = Some (Ok (RuleList [SigmaRule (JDict rule_a); SigmaRule (JDict rule_b)]),
          [Request (fetch_request "h" "sigmarules/" JNull)])
  /\ list_sigmarules session_empty_rule "h" unit (fun _ => Ok tt) keep_value
                     false []
     = Some (Raise ValueError,
             [Request (fetch_request "h" "sigmarules/" JNull)]).
Proof.
  split.
  - apply (proj1 (proj2 (proj2
             (list_sigmarules_edge_cases
                session_two_rules "h" unit (fun _ => Ok tt) keep_value
                [("objects", JList [JDict rule_a; JDict rule_b])] []
                [Request (fetch_request "h" "sigmarules/" JNull)] eq_refl)))
             [rule_a; rule_b]).
    + reflexivity.
    + repeat constructor; discriminate.
  - apply (proj2 (proj2 (proj2
             (list_sigmarules_edge_cases
                session_empty_rule "h" unit (fun _ => Ok tt) keep_value
                [("objects", JList [JDict rule_a; JDict []; JDict rule_b])] []
                [Request (fetch_request "h" "sigmarules/" JNull)] eq_refl)))
             [rule_a] (JDict []) [JDict rule_b]).
    + reflexivity.
    + repeat constructor; discriminate.
    + reflexivity.
Defined.

(** ** [get_aggregator_info] *)

(** X11.  With a name, [get_aggregator_info] sends one POST and nothing
    else, whatever the reply: a failure is raised at once with the class of
    its kind and is not retried, and the decoded payload is returned as it
    is, even a falsy one.  Without a name the call is a
    [fetch_resource_data] of ["aggregation/info/"], with its retries. *)
Theorem get_aggregator_info_named_is_one_post
        (session : nat -> request -> reply) (api_root : string)
        (pandas_frame : Type)
        (DataFrame : list (list (string * json)) -> pandas_frame)
        (name : string) :
  name <> "" ->
  run (get_aggregator_info session api_root pandas_frame DataFrame name false)
  = Some (match delivery_of (session 0%nat (aggregator_request api_root name))
          with
          | Unreachable => Raise ConnectionError
          | BadStatus => Raise RuntimeError
          | Undecodable => Raise ValueError
          | Decoded j => Ok (InfoJson j)
          end,
          [Request (aggregator_request api_root name)])
  /\ forall o t,
      run (fetch_resource_data session api_root "aggregation/info/" JNull)
      = Some (o, t) ->
      run (get_aggregator_info session api_root pandas_frame DataFrame ""
                               false)
      = Some (match o with
              | Ok j => Ok (InfoJson j)
              | Raise e => Raise e
              end, t).
Proof.
  intros Hname. split.
  - unfold run, get_aggregator_info, Py.str_empty.
    destruct (String.eqb_spec name "") as [|_]; [contradiction|].
    cbn [negb]. run_monad. unfold get_response_json, delivery_of.
    cbn [n_requests app].
    fold (aggregator_request api_root name).
    destruct (session 0%nat (aggregator_request api_root name)) as [|a];
      [reflexivity|].
    destruct (HTTP_STATUS_CODE_20X (status_code a)); [|reflexivity].
    destruct (json_body a); reflexivity.
  - intros o t Hfetch. unfold run in *.
    unfold get_aggregator_info. cbn [Py.str_empty String.eqb negb].
    unfold bind at 1. rewrite Hfetch.
    destruct o; reflexivity.
Qed.

Lemma get_aggregator_info_named_witness :
  run (get_aggregator_info session_empty_object "h" unit (fun _ => tt)
                           "field_bucket" false)
  = Some (Ok (InfoJson (JDict [])),
          [Request (aggregator_request "h" "field_bucket")])
  /\ raises_after 5 (fetch_resource_data session_empty_object "h"
                                         "aggregation/info/" JNull).
Proof.
  split.
  - apply (proj1 (get_aggregator_info_named_is_one_post
                    session_empty_object "h" unit (fun _ => tt)
                    "field_bucket" ltac:(discriminate))).
  - exists RuntimeError. eexists. split; [vm_compute; reflexivity|reflexivity].
Defined.

Lemma lookup_setitem_other (key key' : string) (v : json)
      (d : list (string * json)) :
  String.eqb key key' = false ->
  Py.lookup key' (Py.setitem key v d) = Py.lookup key' d.
Proof.
  intros Hne. induction d as [|[k w] d IH]; cbn [Py.setitem Py.lookup].
  - rewrite Hne. reflexivity.
  - destruct (String.eqb k key) eqn:Hk; cbn [Py.lookup].
    + apply String.eqb_eq in Hk. subst k. rewrite Hne. reflexivity.
    + rewrite IH. reflexivity.
Qed.

Lemma aggregator_fields_keep (fields : list json) (field_index : Z)
      (line_dict : list (string * json)) :
  Forall (fun field => Py.is_dict field = true) fields ->
  exists line,
    aggregator_fields fields field_index line_dict = Ok line
    /\ Py.lookup "name" line = Py.lookup "name" line_dict
    /\ Py.lookup "description" line = Py.lookup "description" line_dict.
Proof.
  intros Hfields. revert field_index line_dict.
  induction Hfields as [|field fields Hfield _ IH]; intros field_index line_dict.
  - exists line_dict. repeat split.
  - destruct field as [| | | | |f]; try discriminate.
    cbn [aggregator_fields Py.get result_bind].
    destruct (IH (field_index + 1)
                 (Py.setitem
                    ("field_" +s format_d (field_index + 1) +s "_description")
                    match Py.lookup "description" f with
                    | Some v => v
                    | None => JNull
                    end
                    (Py.setitem
                       ("field_" +s format_d (field_index + 1) +s "_name")
                       match Py.lookup "name" f with
                       | Some v => v
                       | None => JNull
                       end line_dict)))
      as (line & Hline & Hname & Hdescription).
    exists line. split; [exact Hline|].
    rewrite Hname, Hdescription.
    rewrite !lookup_setitem_other by reflexivity.
    split; reflexivity.
Qed.

Lemma aggregator_line_describes (d : list (string * json)) :
  aggregator_fields_listed d ->
  exists line,
    aggregator_line (JDict d) = Ok line /\ line_describes d line.
Proof.
  unfold aggregator_fields_listed, aggregator_line, line_describes.
  intros Hfields. cbn [Py.get result_bind].
  destruct (Py.lookup "fields" d) as [fields|].
  - destruct fields as [| | | |fields|]; try contradiction.
    cbn [Py.iter result_bind].
    destruct (aggregator_fields_keep
                fields 0
                [("name", match Py.lookup "name" d with
                          | Some v => v
                          | None => JStr "N/A"
                          end);
                 ("description", match Py.lookup "description" d with
                                 | Some v => v
                                 | None => JStr "N/A"
                                 end)] Hfields)
      as (line & Hline & Hname & Hdescription).
    exists line. split; [exact Hline|].
    rewrite Hname, Hdescription. split; reflexivity.
  - cbn [Py.iter result_bind aggregator_fields].
    eexists. split; [reflexivity|]. split; reflexivity.
Qed.

Lemma aggregator_lines_describe (ds : list (list (string * json)))
      (lines : list (list (string * json))) :
  Forall aggregator_fields_listed ds ->
  exists more,
    aggregator_lines (map JDict ds) lines = Ok (lines ++ more)
    /\ Forall2 line_describes ds more.
Proof.
  intros Hds. revert lines.
  induction Hds as [|d ds Hd _ IH]; intros lines.
  - exists []. cbn [map aggregator_lines]. rewrite app_nil_r.
    split; [reflexivity | constructor].
  - destruct (aggregator_line_describes d Hd) as (line & Hline & Hdescribes).
    destruct (IH (lines ++ [line])) as (more & Hmore & Hall).
    exists (line :: more). cbn [map aggregator_lines].
    rewrite Hline. cbn [result_bind]. rewrite Hmore, <- app_assoc.
    split; [reflexivity | constructor; assumption].
Qed.

(** X12.  With [as_pandas], the frame of [get_aggregator_info] is built
    from one line per aggregator: a response that is a single dictionary
    gives one line, a list of dictionaries gives a line for each, in order;
    every line carries the aggregator's name and description, with ["N/A"]
    where the aggregator has none.  (The ["fields"] of an aggregator, if
    present, are a list of dictionaries.) *)
Theorem get_aggregator_info_frame_lines
        (session : nat -> request -> reply) (api_root : string)
        (pandas_frame : Type)
        (DataFrame : list (list (string * json)) -> pandas_frame)
        (name : string) (j : json) :
  name <> "" ->
  delivery_of (session 0%nat (aggregator_request api_root name)) = Decoded j ->
  (forall d,
      j = JDict d ->
      aggregator_fields_listed d ->
      exists line,
        run (get_aggregator_info session api_root pandas_frame DataFrame
                                 name true)
        = Some (Ok (InfoFrame (DataFrame [line])),
                [Request (aggregator_request api_root name)])
        /\ line_describes d line)
  /\ (forall ds,
         j = JList (map JDict ds) ->
         Forall aggregator_fields_listed ds ->
         exists lines,
           run (get_aggregator_info session api_root pandas_frame DataFrame
                                    name true)
           = Some (Ok (InfoFrame (DataFrame lines)),
                   [Request (aggregator_request api_root name)])
           /\ Forall2 line_describes ds lines).
Proof.
  intros Hname Hdel.
  assert (Hstart :
            run (get_aggregator_info session api_root pandas_frame DataFrame
                                     name true)
            = (lines <- lift (line_list <-? Py.iter
                                (if Py.is_dict j then JList [j] else j) ;;
                              aggregator_lines line_list []) ;;
               ret (InfoFrame (DataFrame lines)))%py
                [Request (aggregator_request api_root name)]).
  { unfold run, get_aggregator_info, Py.str_empty.
    destruct (String.eqb_spec name "") as [|_]; [contradiction|].
    cbn [negb]. unfold bind at 1. unfold bind at 1.
    unfold session_post, send. cbn [n_requests app].
    fold (aggregator_request api_root name).
    unfold delivery_of in Hdel. unfold get_response_json.
    destruct (session 0%nat (aggregator_request api_root name)) as [|a];
      [discriminate|].
    destruct (HTTP_STATUS_CODE_20X (status_code a)); [|discriminate].
    destruct (json_body a) as [j'|]; [|discriminate].
    injection Hdel as ->. reflexivity. }
  rewrite Hstart. clear Hstart. split.
  - intros d -> Hd.
    destruct (aggregator_lines_describe [d] [] (Forall_cons _ Hd (Forall_nil _)))
      as (lines & Hlines & Hall).
    inversion Hall as [|? line ? more Hline Hmore]; subst.
    inversion Hmore; subst.
    exists line. split; [|exact Hline].
    cbn [Py.is_dict Py.iter result_bind]. cbn [map app] in Hlines.
    unfold bind, lift, ret. rewrite Hlines. reflexivity.
  - intros ds -> Hds.
    destruct (aggregator_lines_describe ds [] Hds) as (lines & Hlines & Hall).
    exists lines. split; [|exact Hall].
    cbn [Py.is_dict Py.iter result_bind]. cbn [app] in Hlines.
    unfold bind, lift, ret. rewrite Hlines. reflexivity.
Qed.

Lemma get_aggregator_info_frame_witness :
  exists lines,
    run (get_aggregator_info session_aggregators "h"
                             (list (list (string * json))) (fun lines => lines)
                             "all" true)
    = Some (Ok (InfoFrame lines), [Request (aggregator_request "h" "all")])
    /\ Forall2 line_describes [aggregator_a; aggregator_b] lines.
Proof.
  apply (proj2 (get_aggregator_info_frame_lines
                  session_aggregators "h" (list (list (string * json)))
                  (fun lines => lines) "all"
                  (JList [JDict aggregator_a; JDict aggregator_b])
                  ltac:(discriminate) eq_refl)
               [aggregator_a; aggregator_b] eq_refl).
  repeat constructor.
Defined.

(** ** The property [version] and [check_celery_status] *)

(** X13.  Let the fetch of ["version/"] return a JSON object.  [version]
    gives the client version alone when the object has no ["meta"], or a
    ["meta"] without a truthy ["version"]; it adds the line of the backend
    when [meta.version] is a non-empty string; it raises [AttributeError]
    when ["meta"] is present but not an object (a null, say), and
    [ValueError] when [meta.version] is a non-zero number. *)
Theorem version_reports_backend_when_present
        (session : nat -> request -> reply) (api_root client_version : string)
        (d : list (string * json)) (t0 t1 : trace) :
  fetch_resource_data session api_root "version/" JNull t0
  = Some (Ok (JDict d), t1) ->
  (Py.lookup "meta" d = None ->
   version session api_root client_version t0
   = Some (Ok ("API Client: " +s client_version), t1))
  /\ (forall m,
         Py.lookup "meta" d = Some (JDict m) ->
         (Py.lookup "version" m = None
          \/ exists v, Py.lookup "version" m = Some v /\ Py.truthy v = false) ->
         version session api_root client_version t0
         = Some (Ok ("API Client: " +s client_version), t1))
  /\ (forall m s,
         Py.lookup "meta" d = Some (JDict m) ->
         Py.lookup "version" m = Some (JStr s) ->
         s <> "" ->
         version session api_root client_version t0
         = Some (Ok ("API Client: " +s client_version +s newline
                       +s "TS Backend: " +s s), t1))
  /\ (forall x,
         Py.lookup "meta" d = Some x ->
         Py.is_dict x = false ->
         version session api_root client_version t0
         = Some (Raise AttributeError, t1))
  /\ (forall m n,
         Py.lookup "meta" d = Some (JDict m) ->
         Py.lookup "version" m = Some (JInt n) ->
         n <> 0 ->
         version session api_root client_version t0
         = Some (Raise ValueError, t1)).
Proof.
  intros Hfetch.
  destruct (fetch_ok_truthy _ _ _ _ _ _ _ Hfetch) as [Htruthy _].
  assert (Hstart :
            version session api_root client_version t0
            = (ts_version <-
                 (meta <- lift (Py.get (JDict d) "meta" (JDict [])) ;;
                  lift (Py.get meta "version" JNull)) ;;
               if Py.truthy ts_version
               then
                 backend <- lift (format_s ts_version) ;;
                 ret ("API Client: " +s client_version +s newline
                        +s "TS Backend: " +s backend)
               else ret ("API Client: " +s client_version))%py t1).
  { unfold version. unfold bind at 1. rewrite Hfetch, Htruthy. reflexivity. }
  rewrite Hstart. clear Hstart.
  unfold bind, lift, ret, raise. cbn [Py.get].
  split; [|split; [|split; [|split]]].
  - intros ->. reflexivity.
  - intros m -> Hversion. cbn [Py.get].
    destruct Hversion as [-> | (v & -> & Hv)].
    + reflexivity.
    + rewrite Hv. reflexivity.
  - intros m s -> Hs Hne. cbn [Py.get]. rewrite Hs.
    cbn [Py.truthy]. destruct (String.eqb_spec s "") as [|_]; [contradiction|].
    reflexivity.
  - intros x -> Hx. destruct x; try reflexivity. discriminate.
  - intros m n -> Hn Hne. cbn [Py.get]. rewrite Hn.
    cbn [Py.truthy]. destruct (Z.eqb_spec n 0) as [|_]; [contradiction|].
    reflexivity.
Qed.

Lemma version_reports_backend_witness :
  version session_version "h" "20231201" []
  = Some (Ok ("API Client: 20231201" +s newline +s "TS Backend: 20240101"),
          [Request (fetch_request "h" "version/" JNull)])
  /\ version session_null_meta "h" "20231201" []
     = Some (Raise AttributeError,
             [Request (fetch_request "h" "version/" JNull)]).
Proof.
  split.
  - apply (proj1 (proj2 (proj2
             (version_reports_backend_when_present
                session_version "h" "20231201"
                [("meta", JDict [("version", JStr "20240101")])] []
                [Request (fetch_request "h" "version/" JNull)] eq_refl)))
             [("version", JStr "20240101")] "20240101").
    + reflexivity.
    + reflexivity.
    + discriminate.
  - apply (proj1 (proj2 (proj2 (proj2
             (version_reports_backend_when_present
                session_null_meta "h" "20231201" [("meta", JNull)] []
                [Request (fetch_request "h" "version/" JNull)] eq_refl))))
             JNull).
    + reflexivity.
    + reflexivity.
Defined.

(** X14.  A payload without ["objects"] is an empty listing for
    [check_celery_status], which returns [[]], and for [list_sketches],
    which (the payload having no ["meta"] either) stops after that one
    page without yielding; the job id of [check_celery_status] travels in
    the path of the request, [tasks/?job_id=...], and not in its
    parameters. *)
Theorem missing_objects_is_an_empty_listing
        (session : nat -> request -> reply) (api_root : string)
        (d : list (string * json)) (t0 : trace) :
  Py.lookup "objects" d = None ->
  d <> [] ->
  (forall job_id,
      job_id <> "" ->
      delivery_of
        (session (n_requests t0)
                 (fetch_request api_root ("tasks/?job_id=" +s job_id) JNull))
      = Decoded (JDict d) ->
      check_celery_status session api_root job_id t0
      = Some (Ok (JList []),
              t0 ++ [Request (fetch_request
                                api_root ("tasks/?job_id=" +s job_id) JNull)]))
  /\ (delivery_of (session (n_requests t0)
                           (fetch_request api_root "tasks/" JNull))
      = Decoded (JDict d) ->
      check_celery_status session api_root "" t0
      = Some (Ok (JList []),
              t0 ++ [Request (fetch_request api_root "tasks/" JNull)]))
  /\ (forall fuel per_page scope include_archived,
         (1 <= fuel)%nat ->
         Py.lookup "meta" d = None ->
         delivery_of
           (session (n_requests t0)
                    (sketches_request
                       api_root (sketch_params per_page scope include_archived)
                       (JInt 1)))
         = Decoded (JDict d) ->
         list_sketches session api_root fuel per_page scope include_archived t0
         = Some (Ok tt,
                 t0 ++ [Request (sketches_request
                                   api_root
                                   (sketch_params per_page scope
                                                  include_archived)
                                   (JInt 1))])).
Proof.
  intros Hobjects Hd.
  assert (Htruthy : Py.truthy (JDict d) = true)
    by (destruct d; [contradiction | reflexivity]).
  split; [|split].
  - intros job_id Hjob Hdel. unfold check_celery_status, Py.str_empty.
    destruct (String.eqb_spec job_id "") as [|_]; [contradiction|].
    cbn [negb]. unfold bind.
    rewrite (fetch_first_attempt session api_root _ JNull t0 (JDict d))
      by assumption.
    cbn [Py.get lift]. rewrite Hobjects. reflexivity.
  - intros Hdel. unfold check_celery_status.
    cbn [Py.str_empty String.eqb negb]. unfold bind.
    rewrite (fetch_first_attempt session api_root _ JNull t0 (JDict d))
      by assumption.
    cbn [Py.get lift]. rewrite Hobjects. reflexivity.
  - intros fuel per_page scope include_archived Hfuel Hmeta Hdel.
    destruct fuel as [|fuel]; [lia|].
    set (base := sketch_params per_page scope include_archived) in *.
    change (list_sketches session api_root (S fuel) per_page scope
                          include_archived t0)
      with (list_sketches_loop session api_root (S fuel) base (JInt 1) t0).
    rewrite (list_sketches_loop_round session api_root (fun _ => JDict d)
                                      base base (JInt 1) [] JNull fuel t0
                                      Hdel).
    + cbn [Py.truthy map]. rewrite app_nil_r. reflexivity.
    + split; [exact Htruthy|]. split.
      * exists (JDict []). cbn [Py.get]. rewrite Hmeta. split; reflexivity.
      * exists []. cbn [Py.get]. rewrite Hobjects. split; [reflexivity|].
        constructor.
    + intros p. reflexivity.
Qed.

Lemma missing_objects_witness :
  check_celery_status session_status_only "h" "7f3a" []
  = Some (Ok (JList []),
          [] ++ [Request (fetch_request "h" ("tasks/?job_id=" +s "7f3a") JNull)])
  /\ list_sketches session_status_only "h" 1 50 "user" true []
     = Some (Ok tt,
             [] ++ [Request (sketches_request
                               "h" (sketch_params 50 "user" true) (JInt 1))]).
Proof.
  split.
  - apply (proj1 (missing_objects_is_an_empty_listing
                    session_status_only "h" [("status", JStr "ok")] []
                    eq_refl ltac:(discriminate))).
    + discriminate.
    + reflexivity.
  - apply (proj2 (proj2 (missing_objects_is_an_empty_listing
                           session_status_only "h" [("status", JStr "ok")] []
                           eq_refl ltac:(discriminate)))).
    + lia.
    + reflexivity.
    + reflexivity.
Defined.

(** ** A client without a session *)

Section UnsetTransport.

Variable transport : request -> M response.
Hypothesis transport_raises :
  forall r t, transport r t = Some (Raise ValueError, t).

Lemma fetch_loop_over_unset (fuel : nat) (url : string) (params : json)
      (attempt : Z) (t : trace) :
  fetch_loop_over transport (S fuel) url params attempt t
  = ((if 1 <? attempt + 1
      then sleep (fetch_backoff_time (attempt + 1)) else ret tt) ;;;
     if DEFAULT_RETRY_COUNT <=? attempt + 1
     then raise ValueError
     else fetch_loop_over transport fuel url params (attempt + 1)) t.
Proof.
  cbn [fetch_loop_over].
  apply bind_ext; [reflexivity | intros _ t1].
  unfold bind, try_except. rewrite transport_raises.
  destruct (DEFAULT_RETRY_COUNT <=? attempt + 1); reflexivity.
Qed.

Lemma create_searchindex_loop_over_unset
      (index_SearchIndex : json -> M pyobj) (attempt : Z) (attempts : list Z)
      (url : string) (form_data : json) (last_exception : option exn)
      (t : trace) :
  create_searchindex_loop_over transport index_SearchIndex
                               (attempt :: attempts) url form_data
                               last_exception t
  = (if attempt <? DEFAULT_RETRY_COUNT - 1
     then sleep (create_backoff_time attempt) ;;;
          create_searchindex_loop_over transport index_SearchIndex attempts
                                       url form_data (Some ValueError)
     else raise ValueError) t.
Proof.
  cbn [create_searchindex_loop_over].
  unfold bind at 1, try_except. unfold bind at 1. rewrite transport_raises.
  reflexivity.
Qed.

End UnsetTransport.

(** X15.  A client constructed with [create_session=False] sends nothing
    and has no session.  On such a client the [ValueError] of the property
    [session] is caught by the retry loops of [fetch_resource_data] and
    [create_searchindex]: they sleep through the whole backoff schedule,
    7.5 seconds, send nothing, and then raise [ValueError];
    [create_sketch] and [create_user] raise it at once.  The constructors
    of the wrappers are not reached, and may be anything. *)
Theorem unset_session_is_retried
        (server : http_session -> nat -> request -> reply)
        (self : TimesketchApi) (t0 : trace) :
  self_session self = None ->
  (forall uri params,
      api_fetch_resource_data server self uri params t0
      = Some (Raise ValueError,
              t0 ++ [Sleep (fetch_backoff_time 2); Sleep (fetch_backoff_time 3);
                     Sleep (fetch_backoff_time 4); Sleep (fetch_backoff_time 5)]))
  /\ (forall index_SearchIndex searchindex_name opensearch_index_name,
         api_create_searchindex server index_SearchIndex self
                                searchindex_name opensearch_index_name t0
         = Some (Raise ValueError,
                 t0 ++ [Sleep (create_backoff_time 0);
                        Sleep (create_backoff_time 1);
                        Sleep (create_backoff_time 2);
                        Sleep (create_backoff_time 3)]))
  /\ (forall sketch_Sketch name description,
         api_create_sketch server sketch_Sketch self name description t0
         = Some (Raise ValueError, t0))
  /\ (forall user_User username password,
         api_create_user server user_User self username password t0
         = Some (Raise ValueError, t0))
  /\ (total_sleep [Sleep (fetch_backoff_time 2); Sleep (fetch_backoff_time 3);
                   Sleep (fetch_backoff_time 4); Sleep (fetch_backoff_time 5)]
      == 15 # 2)%Q
  /\ (total_sleep [Sleep (create_backoff_time 0); Sleep (create_backoff_time 1);
                   Sleep (create_backoff_time 2); Sleep (create_backoff_time 3)]
      == 15 # 2)%Q
  /\ forall web default_headers oauth host_uri username password verify
            client_id client_secret auth_mode,
      __init__ web default_headers oauth host_uri username password verify
               client_id client_secret auth_mode false t0
      = Some (Ok (mkApi host_uri (host_uri +s "/api/v1") None), t0).
Proof.
  intros Hs.
  assert (Hsend : forall r t,
             self_send server self r t = Some (Raise ValueError, t)).
  { intros r t. unfold self_send, session_property. rewrite Hs. reflexivity. }
  split; [|split; [|split; [|split; [|split; [|split]]]]].
  - intros uri params. unfold api_fetch_resource_data.
    change (Z.to_nat DEFAULT_RETRY_COUNT) with 5%nat.
    do 5 (rewrite (fetch_loop_over_unset _ Hsend);
          cbn [Z.add Pos.add Pos.succ];
          match goal with
          | |- context [1 <? ?b] =>
              let v := eval vm_compute in (1 <? b) in
              change (1 <? b) with v
          end;
          match goal with
          | |- context [DEFAULT_RETRY_COUNT <=? ?b] =>
              let v := eval vm_compute in (DEFAULT_RETRY_COUNT <=? b) in
              change (DEFAULT_RETRY_COUNT <=? b) with v
          end;
          unfold bind at 1, sleep, emit, ret; cbv beta iota).
    unfold raise. rewrite <- !app_assoc. reflexivity.
  - intros index_SearchIndex searchindex_name opensearch_index_name.
    unfold api_create_searchindex.
    change (range DEFAULT_RETRY_COUNT) with [0; 1; 2; 3; 4].
    do 5 (rewrite (create_searchindex_loop_over_unset _ Hsend
                                                      index_SearchIndex);
          match goal with
          | |- context [?a <? DEFAULT_RETRY_COUNT - 1] =>
              let v := eval vm_compute in (a <? DEFAULT_RETRY_COUNT - 1) in
              change (a <? DEFAULT_RETRY_COUNT - 1) with v
          end;
          cbv beta iota;
          try (unfold bind at 1, sleep, emit, ret; cbv beta iota)).
    unfold raise. rewrite <- !app_assoc. reflexivity.
  - intros sketch_Sketch name description. unfold api_create_sketch.
    destruct (Py.str_empty name); [reflexivity|].
    change (range DEFAULT_RETRY_COUNT) with [0; 1; 2; 3; 4].
    cbn [create_sketch_loop_over]. unfold bind. rewrite Hsend. reflexivity.
  - intros user_User username password.
    unfold api_create_user, api_create_user_loop.
    change (Z.to_nat DEFAULT_RETRY_COUNT) with 5%nat.
    cbn [post_until_objects_over]. unfold bind. rewrite Hsend. reflexivity.
  - vm_compute. reflexivity.
  - vm_compute. reflexivity.
  - intros. reflexivity.
Qed.

Lemma unset_session_witness :
  api_fetch_resource_data (fun _ => session_created_42) api_without_session
                          "sketches/" JNull []
  = Some (Raise ValueError,
          [] ++ [Sleep (fetch_backoff_time 2); Sleep (fetch_backoff_time 3);
                 Sleep (fetch_backoff_time 4); Sleep (fetch_backoff_time 5)])
  /\ api_create_sketch (fun _ => session_created_42) stored_sketch
                       api_without_session "case" None []
     = Some (Raise ValueError, []).
Proof.
  split.
  - apply (proj1 (unset_session_is_retried
                    (fun _ => session_created_42) api_without_session []
                    eq_refl)).
  - apply (proj1 (proj2 (proj2 (unset_session_is_retried
                                  (fun _ => session_created_42)
                                  api_without_session [] eq_refl)))).
Defined.

(** ** Creating the session *)

Lemma header_get_set_same (k k' v : string) (h : list (string * string)) :
  lower k = lower k' -> header_get k (header_set k' v h) = Some v.
Proof.
  intros Hk. induction h as [|[k0 v0] h IH]; cbn [header_set header_get].
  - rewrite Hk, String.eqb_refl. reflexivity.
  - destruct (String.eqb (lower k0) (lower k')) eqn:E; cbn [header_get].
    + rewrite Hk, String.eqb_refl. reflexivity.
    + rewrite Hk, E. exact IH.
Qed.

Lemma header_get_set_other (k k' v : string) (h : list (string * string)) :
  lower k <> lower k' -> header_get k (header_set k' v h) = header_get k h.
Proof.
  intros Hk.
  assert (Hne : String.eqb (lower k') (lower k) = false).
  { apply String.eqb_neq. congruence. }
  induction h as [|[k0 v0] h IH]; cbn [header_set header_get].
  - rewrite Hne. reflexivity.
  - destruct (String.eqb (lower k0) (lower k')) eqn:E; cbn [header_get].
    + apply String.eqb_eq in E. rewrite E, Hne. reflexivity.
    + rewrite IH. reflexivity.
Qed.

Lemma set_csrf_token_run (web : nat -> request -> web_reply) (host : string)
      (s : http_session) (t0 : trace) (page : soup) :
  web (n_requests t0) (front_page host) = WebPage page ->
  _set_csrf_token web host s t0
  = Some (Ok (match csrf_input page with
              | Some (Some token) =>
                  if Py.str_empty token then s
                  else update_csrf_headers s token host
              | Some None => s
              | None =>
                  match csrf_meta page with
                  | Some (Some token) =>
                      if Py.str_empty token then s
                      else update_csrf_headers s token host
                  | _ => s
                  end
              end), t0 ++ [Request (front_page host)]).
Proof.
  intros Hweb. unfold _set_csrf_token, bind, web_send.
  fold (front_page host). rewrite Hweb.
  destruct (csrf_input page) as [[token|]|].
  - destruct (Py.str_empty token); reflexivity.
  - reflexivity.
  - destruct (csrf_meta page) as [[token|]|]; [|reflexivity|reflexivity].
    destruct (Py.str_empty token); reflexivity.
Qed.

(** X16.  [_set_csrf_token] sends one GET of the host URI.  When the page
    offers a non-empty token, the session afterwards answers a lookup of
    [x-csrftoken] with the token and of [referer] with the host URI,
    whatever the case of the name asked for, and every other header is as
    before; when it offers none (no tag, a tag without the attribute or an
    empty token: a [csrf_token] tag without value hides the meta tag), the
    session is unchanged.  Credentials and certificate checking are never
    touched. *)
Theorem set_csrf_token_updates_headers
        (web : nat -> request -> web_reply) (host : string)
        (s : http_session) (t0 : trace) (page : soup) :
  web (n_requests t0) (front_page host) = WebPage page ->
  exists s',
    _set_csrf_token web host s t0
    = Some (Ok s', t0 ++ [Request (front_page host)])
    /\ auth s' = auth s
    /\ verify s' = verify s
    /\ (forall token,
           offers_token page token -> token <> "" ->
           (forall k, lower k = "x-csrftoken" ->
                      header_get k (headers s') = Some token)
           /\ (forall k, lower k = "referer" ->
                         header_get k (headers s') = Some host)
           /\ (forall k, lower k <> "x-csrftoken" -> lower k <> "referer" ->
                         header_get k (headers s') = header_get k (headers s)))
    /\ ((forall token, offers_token page token -> token = "") -> s' = s).
Proof.
  intros Hweb. eexists. split; [apply set_csrf_token_run; exact Hweb|].
  assert (Hupdated : forall token,
             (forall k, lower k = "x-csrftoken" ->
                        header_get k (headers (update_csrf_headers s token host))
                        = Some token)
             /\ (forall k, lower k = "referer" ->
                           header_get k
                                      (headers (update_csrf_headers s token host))
                           = Some host)
             /\ (forall k, lower k <> "x-csrftoken" -> lower k <> "referer" ->
                           header_get k
                                      (headers (update_csrf_headers s token host))
                           = header_get k (headers s))).
  { intros token. cbn [update_csrf_headers headers].
    split; [|split].
    - intros k Hk. rewrite header_get_set_other.
      + apply header_get_set_same. rewrite Hk. reflexivity.
      + rewrite Hk. cbn. discriminate.
    - intros k Hk. apply header_get_set_same. rewrite Hk. reflexivity.
    - intros k Hx Hr. rewrite !header_get_set_other; [reflexivity | |].
      + exact Hx.
      + exact Hr. }
  destruct page as [[[input|]|] meta]; cbn [csrf_input csrf_meta].
  - destruct (Py.str_empty input) eqn:Hempty.
    + apply String.eqb_eq in Hempty. subst input.
      split; [reflexivity | split; [reflexivity | split]].
      * intros token [Hin|[Hin _]] Hne; [|discriminate Hin].
        cbn in Hin. congruence.
      * reflexivity.
    + split; [reflexivity | split; [reflexivity | split]].
      * intros token [Hin|[Hin _]] _; [|discriminate Hin].
        cbn in Hin. injection Hin as <-. apply Hupdated.
      * intros Hnone. apply String.eqb_neq in Hempty.
        exfalso. apply Hempty. apply Hnone. left. reflexivity.
  - split; [reflexivity | split; [reflexivity | split]].
    + intros token [Hin|[Hin _]] _; discriminate Hin.
    + reflexivity.
  - destruct meta as [[content|]|].
    + destruct (Py.str_empty content) eqn:Hempty.
      * apply String.eqb_eq in Hempty. subst content.
        split; [reflexivity | split; [reflexivity | split]].
        -- intros token [Hin|[_ Hmeta]] Hne; [discriminate Hin|].
           cbn in Hmeta. congruence.
        -- reflexivity.
      * split; [reflexivity | split; [reflexivity | split]].
        -- intros token [Hin|[_ Hmeta]] _; [discriminate Hin|].
           cbn in Hmeta. injection Hmeta as <-. apply Hupdated.
        -- intros Hnone. apply String.eqb_neq in Hempty.
           exfalso. apply Hempty. apply Hnone. right. split; reflexivity.
    + split; [reflexivity | split; [reflexivity | split]].
      * intros token [Hin|[_ Hmeta]] _; discriminate.
      * reflexivity.
    + split; [reflexivity | split; [reflexivity | split]].
      * intros token [Hin|[_ Hmeta]] _; discriminate.
      * reflexivity.
Qed.

Lemma set_csrf_token_witness :
  (exists s',
      _set_csrf_token web_with_input "https://ts" (mkSession None true []) []
      = Some (Ok s', [] ++ [Request (front_page "https://ts")])
      /\ header_get "X-CSRFToken" (headers s') = Some "tok-1"
      /\ header_get "Referer" (headers s') = Some "https://ts")
  /\ exists s',
      _set_csrf_token web_with_empty_input "https://ts"
                      (mkSession None true []) []
      = Some (Ok s', [] ++ [Request (front_page "https://ts")])
      /\ s' = mkSession None true [].
Proof.
  split.
  - destruct (set_csrf_token_updates_headers
                web_with_input "https://ts" (mkSession None true []) []
                page_with_input eq_refl)
      as [s' [Hrun [_ [_ [Hfound _]]]]].
    exists s'. split; [exact Hrun|].
    destruct (Hfound "tok-1" (or_introl eq_refl)) as [Hx [Hr _]];
      [discriminate|].
    split; [apply Hx | apply Hr]; reflexivity.
  - destruct (set_csrf_token_updates_headers
                web_with_empty_input "https://ts" (mkSession None true []) []
                page_with_empty_input eq_refl)
      as [s' [Hrun [_ [_ [_ Hnone]]]]].
    exists s'. split; [exact Hrun|].
    apply Hnone. intros token [Hin|[Hin _]]; discriminate Hin.
Defined.




